(** * Command processing core and package configuration engine

    A shallow embedding of [processor_core.go] (package [processor]) of the
    SSM agent, and of the package configuration engine exercised by the
    tests of package [configurepackage].

    Go strings are [string]; Go maps are [gmap]; the document folders on
    disk are a record of maps; calls to collaborators (MDS, the reply
    sender, the error handler, the plugin runner) are recorded, in order,
    in a trace carried by an explicit world state. *)

From stdpp Require Import gmap strings list fin_maps.
From Stdlib Require Import Ascii String.

Local Open Scope list_scope.
Local Open Scope stdpp_scope.

(** ** Strings *)

(** [strings.HasPrefix(s, prefix)]. *)
Definition HasPrefix (s pre : string) : bool := String.prefix pre s.

(** [strings.Contains(s, substr)]. *)
Fixpoint Contains (s sub : string) : bool :=
  String.prefix sub s ||
  match s with
  | EmptyString => false
  | String _ s' => Contains s' sub
  end.

(** [strings.HasSuffix(s, suffix)]. *)
Fixpoint HasSuffix (s suf : string) : bool :=
  String.eqb s suf ||
  match s with
  | EmptyString => false
  | String _ s' => HasSuffix s' suf
  end.

(** The double quote character, as a string. *)
Definition dquote : string := String "034"%char EmptyString.

(** ** Package [contracts] *)

(** [contracts.ResultStatus] is a Go string type; [ResultStatusUnset] is its
    zero value, found in a document state that was never given a status. *)
Inductive ResultStatus :=
| ResultStatusUnset
| ResultStatusInProgress
| ResultStatusSuccess
| ResultStatusFailed
| ResultStatusCancelled
| ResultStatusSuccessAndReboot
| ResultStatusTimedOut.

Global Instance ResultStatus_eq_dec : EqDecision ResultStatus.
Proof. solve_decision. Defined.

(** * Package [processor] *)

Module processor.

(** ** Data model *)

(** [model.DocumentType]; [UnknownDocumentType] stands for any value that
    is none of the four named ones (the [default] arm of the switch), and
    carries the text that value prints as; the zero value prints as the
    empty text. *)
Inductive DocumentType :=
| SendCommand
| SendCommandOffline
| CancelCommand
| CancelCommandOffline
| UnknownDocumentType (text : string).

(** [service.FailureType]. *)
Inductive FailureType :=
| InternalHandlerException
| NoHandlerExists.

(** The document folders ([appconfig.DefaultLocationOfPending] and so on). *)
Inductive Folder :=
| DefaultLocationOfPending
| DefaultLocationOfCurrent
| DefaultLocationOfCompleted
| DefaultLocationOfCorrupt.

Record Configuration := {
  Properties : string;
  OutputS3KeyPrefix : string;
  OrchestrationDirectory : string
}.

Record PluginResult := {
  Status : ResultStatus;
  Code : Z;
  Output : string
}.

Record PluginState := {
  Name : string;
  PluginConfiguration : Configuration;
  Result : PluginResult;
  HasExecuted : bool
}.

(** [map[string]*contracts.PluginResult], the runner's outputs. *)
Abbreviation PluginOutputs := (gmap string PluginResult).

Record DocumentInfo := {
  DocumentID : string;
  InstanceID : string;
  MessageID : string;
  CommandID : string;
  DocumentName : string;
  DocumentStatus : ResultStatus;
  RuntimeStatus : PluginOutputs;
  AdditionalInfo : string;
  DocumentTraceOutput : string
}.

Record CancelCommandInfo := {
  CancelMessageID : string;
  CancelCommandID : string;
  DebugInfo : string
}.

Record DocumentState := {
  DocumentInformation : DocumentInfo;
  DocType : DocumentType;
  InstancePluginsInformation : list PluginState;
  CancelInformation : CancelCommandInfo
}.

(** The reply payload built by [buildReply]. *)
Record SendReplyPayload := {
  PayloadAdditionalInfo : string;
  PayloadDocumentStatus : ResultStatus;
  PayloadDocumentTraceOutput : string;
  PayloadRuntimeStatus : PluginOutputs
}.

(** [ssmmds.Message]; the model covers messages whose pointer fields are
    all set, an unset field being the empty string. *)
Record Message := {
  MessageId : string;
  Topic : string;
  Payload : string;
  CreatedDate : string;
  Destination : string
}.

(** Go zero values. *)
Definition emptyDocumentInfo : DocumentInfo :=
  {| DocumentID := EmptyString; InstanceID := EmptyString;
     MessageID := EmptyString; CommandID := EmptyString;
     DocumentName := EmptyString; DocumentStatus := ResultStatusUnset;
     RuntimeStatus := ∅; AdditionalInfo := EmptyString;
     DocumentTraceOutput := EmptyString |}.

Definition emptyDocumentState : DocumentState :=
  {| DocumentInformation := emptyDocumentInfo;
     DocType := UnknownDocumentType EmptyString;
     InstancePluginsInformation := [];
     CancelInformation :=
       {| CancelMessageID := EmptyString; CancelCommandID := EmptyString;
          DebugInfo := EmptyString |} |}.

(** Field updates, as Go assignments to a field of a struct. *)
Definition setDocumentInformation (d : DocumentState) (i : DocumentInfo) : DocumentState :=
  {| DocumentInformation := i; DocType := DocType d;
     InstancePluginsInformation := InstancePluginsInformation d;
     CancelInformation := CancelInformation d |}.

Definition setDocumentStatus (d : DocumentState) (s : ResultStatus) : DocumentState :=
  let i := DocumentInformation d in
  setDocumentInformation d
    {| DocumentID := DocumentID i; InstanceID := InstanceID i;
       MessageID := MessageID i; CommandID := CommandID i;
       DocumentName := DocumentName i; DocumentStatus := s;
       RuntimeStatus := RuntimeStatus i; AdditionalInfo := AdditionalInfo i;
       DocumentTraceOutput := DocumentTraceOutput i |}.

Definition setDebugInfo (d : DocumentState) (s : string) : DocumentState :=
  {| DocumentInformation := DocumentInformation d; DocType := DocType d;
     InstancePluginsInformation := InstancePluginsInformation d;
     CancelInformation :=
       {| CancelMessageID := CancelMessageID (CancelInformation d);
          CancelCommandID := CancelCommandID (CancelInformation d);
          DebugInfo := s |} |}.

(** The four assignments that overlay the reply's document level fields. *)
Definition overlayPayload (i : DocumentInfo) (p : SendReplyPayload) : DocumentInfo :=
  {| DocumentID := DocumentID i; InstanceID := InstanceID i;
     MessageID := MessageID i; CommandID := CommandID i;
     DocumentName := DocumentName i;
     DocumentStatus := PayloadDocumentStatus p;
     RuntimeStatus := PayloadRuntimeStatus p;
     AdditionalInfo := PayloadAdditionalInfo p;
     DocumentTraceOutput := PayloadDocumentTraceOutput p |}.

(** ** The document store *)

(** One map per folder, keyed by (instance id, document id), as the files
    [state/<instanceID>/document/<folder>/<documentID>]. *)
Record DocStore := {
  pending : gmap (string * string) DocumentState;
  current : gmap (string * string) DocumentState;
  completed : gmap (string * string) DocumentState;
  corrupt : gmap (string * string) DocumentState
}.

Definition emptyStore : DocStore :=
  {| pending := ∅; current := ∅; completed := ∅; corrupt := ∅ |}.

Definition folder (st : DocStore) (f : Folder) : gmap (string * string) DocumentState :=
  match f with
  | DefaultLocationOfPending => pending st
  | DefaultLocationOfCurrent => current st
  | DefaultLocationOfCompleted => completed st
  | DefaultLocationOfCorrupt => corrupt st
  end.

Definition withFolder (st : DocStore) (f : Folder)
    (m : gmap (string * string) DocumentState) : DocStore :=
  match f with
  | DefaultLocationOfPending =>
      {| pending := m; current := current st; completed := completed st; corrupt := corrupt st |}
  | DefaultLocationOfCurrent =>
      {| pending := pending st; current := m; completed := completed st; corrupt := corrupt st |}
  | DefaultLocationOfCompleted =>
      {| pending := pending st; current := current st; completed := m; corrupt := corrupt st |}
  | DefaultLocationOfCorrupt =>
      {| pending := pending st; current := current st; completed := completed st; corrupt := m |}
  end.

(** Modelled from the spec: [commandStateHelper.GetDocumentInterimState],
    the store's [Get], which is not in the sources: read the file, an
    absent file giving the empty state and no error. *)
Definition GetDocumentInterimState (st : DocStore)
    (documentID instanceID : string) (f : Folder) : DocumentState :=
  default emptyDocumentState (folder st f !! (instanceID, documentID)).

(** Modelled from the spec: [commandStateHelper.PersistData], the store's
    [Persist], which is not in the sources: the state appears in the folder
    under the document id. *)
Definition PersistData (st : DocStore)
    (documentID instanceID : string) (f : Folder) (d : DocumentState) : DocStore :=
  withFolder st f (<[(instanceID, documentID) := d]> (folder st f)).

(** Modelled from the spec: [commandStateHelper.PersistDocumentInfo], which
    is not in the sources: the read-modify-write of the interim state that
    replaces its document information. *)
Definition PersistDocumentInfo (st : DocStore) (i : DocumentInfo)
    (documentID instanceID : string) (f : Folder) : DocStore :=
  PersistData st documentID instanceID f
    (setDocumentInformation (GetDocumentInterimState st documentID instanceID f) i).

(** Modelled from the spec: [commandStateHelper.MoveDocumentState], the
    store's [Move], which is not in the sources: a rename across folders,
    whose failure (no source file) leaves everything in place. *)
Definition MoveDocumentState (st : DocStore)
    (documentID instanceID : string) (src dst : Folder) : DocStore :=
  match folder st src !! (instanceID, documentID) with
  | Some d =>
      let st' := withFolder st src (delete (instanceID, documentID) (folder st src)) in
      withFolder st' dst (<[(instanceID, documentID) := d]> (folder st' dst))
  | None => st
  end.

(** ** Worker pools *)

(** [task.CancelFlag], as the state it reports. *)
Inductive CancelFlag :=
| Running
| Canceled
| ShutDown.

(** The closure handed to [Submit]: which processing function it calls, and
    on which document state. *)
Inductive Job :=
| SendCommandJob (docState : DocumentState)
| CancelCommandJob (docState : DocumentState).

(** A pool: its live jobs and their cancel flags, keyed by job id. *)
Abbreviation Pool := (gmap string (Job * CancelFlag)).

(** Modelled from the spec: [task.Pool.Submit], which is not in the
    sources: it fails with a duplicate-job error when the key is already
    active or queued, and enqueues the job otherwise. *)
Definition Submit (pool : Pool) (key : string) (job : Job) : option string * Pool :=
  match pool !! key with
  | Some _ => (Some ("duplicate job " +:+ key), pool)
  | None => (None, <[key := (job, Running)]> pool)
  end.

(** Modelled from the spec: [task.Pool.Cancel], which is not in the
    sources: it signals the cancel flag of the job with that key and
    reports whether there was one. *)
Definition Cancel (pool : Pool) (key : string) : bool * Pool :=
  match pool !! key with
  | Some (job, _) => (true, <[key := (job, Canceled)]> pool)
  | None => (false, pool)
  end.

(** ** The world the processor acts on *)

Inductive PoolName :=
| SendCommandPool
| CancelCommandPool.

(** Calls to collaborators, in the order they are made. *)
Inductive Event :=
| CallFailMessage (messageID : string) (failure : FailureType)
| CallAcknowledgeMessage (messageID : string)
| CallDeleteMessage (messageID : string)
| CallSendDocLevelResponse (messageID : string) (status : ResultStatus) (msg : string)
| CallSendResponse (messageID pluginID : string) (outputs : PluginOutputs)
| CallRunPlugins (messageID : string) (plugins : list PluginState) (cancelFlag : CancelFlag)
| CallHandleAwsError (err : string)
| CallPersist (documentID instanceID : string) (f : Folder)
| CallMove (documentID instanceID : string) (src dst : Folder)
| CallSubmit (pool : PoolName) (key : string)
| CallCancel (key : string)
| LogError (msg : string).

Record World := {
  store : DocStore;
  trace : list Event;
  sendCommandPool : Pool;
  cancelCommandPool : Pool
}.

Definition withStore (w : World) (st : DocStore) : World :=
  {| store := st; trace := trace w;
     sendCommandPool := sendCommandPool w; cancelCommandPool := cancelCommandPool w |}.

Definition withTrace (w : World) (t : list Event) : World :=
  {| store := store w; trace := t;
     sendCommandPool := sendCommandPool w; cancelCommandPool := cancelCommandPool w |}.

Definition withPool (w : World) (n : PoolName) (pool : Pool) : World :=
  match n with
  | SendCommandPool =>
      {| store := store w; trace := trace w;
         sendCommandPool := pool; cancelCommandPool := cancelCommandPool w |}
  | CancelCommandPool =>
      {| store := store w; trace := trace w;
         sendCommandPool := sendCommandPool w; cancelCommandPool := pool |}
  end.

Definition poolOf (w : World) (n : PoolName) : Pool :=
  match n with
  | SendCommandPool => sendCommandPool w
  | CancelCommandPool => cancelCommandPool w
  end.

(** Stateful code threads the world: a state monad. *)
Definition M (A : Type) : Type := World → A * World.

Global Instance M_ret : MRet M := λ A a w, (a, w).
Global Instance M_bind : MBind M := λ A B f m w, let (a, w') := m w in f a w'.

Definition emit (e : Event) : M unit := λ w, (tt, withTrace w (trace w ++ [e])).

Definition getDocumentInterimState (documentID instanceID : string) (f : Folder) : M DocumentState :=
  λ w, (GetDocumentInterimState (store w) documentID instanceID f, w).

Definition persistData (documentID instanceID : string) (f : Folder) (d : DocumentState) : M unit :=
  λ w, (tt, withTrace (withStore w (PersistData (store w) documentID instanceID f d))
                      (trace w ++ [CallPersist documentID instanceID f])).

Definition persistDocumentInfo (i : DocumentInfo) (documentID instanceID : string) (f : Folder) : M unit :=
  λ w, (tt, withTrace (withStore w (PersistDocumentInfo (store w) i documentID instanceID f))
                      (trace w ++ [CallPersist documentID instanceID f])).

Definition moveDocumentState (documentID instanceID : string) (src dst : Folder) : M unit :=
  λ w, (tt, withTrace (withStore w (MoveDocumentState (store w) documentID instanceID src dst))
                      (trace w ++ [CallMove documentID instanceID src dst])).

Definition submit (n : PoolName) (key : string) (job : Job) : M (option string) :=
  λ w, let (err, pool) := Submit (poolOf w n) key job in
       (err, withTrace (withPool w n pool) (trace w ++ [CallSubmit n key])).

Definition cancel (key : string) : M bool :=
  λ w, let (found, pool) := Cancel (sendCommandPool w) key in
       (found, withTrace (withPool w SendCommandPool pool) (trace w ++ [CallCancel key])).

(** ** The processor *)

(** What a run of the plugin runner does: it returns the outputs, has
    persisted interim state on the way, and has called [sendResponse] for
    the plugins it completed. *)
Record RunnerResult := {
  runnerOutputs : PluginOutputs;
  runnerStore : DocStore;
  runnerResponses : list (string * string * PluginOutputs)
}.

(** [service.Service]: for each call, the error it answers with, if any. *)
Record Service := {
  FailMessage : string → FailureType → option string;
  AcknowledgeMessage : string → option string;
  DeleteMessage : string → option string
}.

(** The fields of [Processor] that [processor_core.go] reads. *)
Record Processor := {
  service : Service;
  orchestrationRootDir : string;
  pluginRunner : string → list PluginState → CancelFlag → DocStore → RunnerResult;
  buildReply : string → PluginOutputs → SendReplyPayload
}.

(** The constants of other files that [processor_core.go] names. *)
Record Constants := {
  SendCommandTopicPrefix : string;
  CancelCommandTopicPrefix : string;
  PluginEC2ConfigUpdate : string;
  PluginNameAwsAgentUpdate : string
}.

(** Modelled from the spec: the values of the topic prefixes and of the
    names of the update-self plugins, whose declarations are not in the
    sources. *)
Definition specConstants : Constants :=
  {| SendCommandTopicPrefix := "aws.ssm.sendCommand.";
     CancelCommandTopicPrefix := "aws.ssm.cancelCommand.";
     PluginEC2ConfigUpdate := "aws:updateEc2Config";
     PluginNameAwsAgentUpdate := "aws:updateSsmAgent" |}.

(** Modelled from the spec: [validate], which is not in the sources: the
    message id, topic, payload and creation date must not be empty. *)
Definition validate (msg : Message) : option string :=
  if bool_decide (MessageId msg = EmptyString) then Some "MessageId is missing"
  else if bool_decide (Topic msg = EmptyString) then Some "Topic is missing"
  else if bool_decide (Payload msg = EmptyString) then Some "Payload is missing"
  else if bool_decide (CreatedDate msg = EmptyString) then Some "CreatedDate is missing"
  else None.

(** What [loadDocStateFromSendCommand] and [loadDocStateFromCancelCommand]
    return: the parsers of this file return a document state and no error,
    or no document state and an error. *)
Inductive Parsed :=
| ParseOk (docState : DocumentState)
| ParseError (err : string).

Section ProcessorCore.

Variable K : Constants.

(** The two package-level function variables. *)
Variable loadDocStateFromSendCommand : Message → string → Parsed.
Variable loadDocStateFromCancelCommand : Message → string → Parsed.

Variable p : Processor.

(** Calls on the MDS service. *)
Definition failMessage (messageID : string) (failure : FailureType) : M (option string) :=
  λ w, (FailMessage (service p) messageID failure,
        withTrace w (trace w ++ [CallFailMessage messageID failure])).

Definition acknowledgeMessage (messageID : string) : M (option string) :=
  λ w, (AcknowledgeMessage (service p) messageID,
        withTrace w (trace w ++ [CallAcknowledgeMessage messageID])).

Definition deleteMessage (messageID : string) : M (option string) :=
  λ w, (DeleteMessage (service p) messageID,
        withTrace w (trace w ++ [CallDeleteMessage messageID])).

(** [sdkutil.HandleAwsError(log, err, p.processorStopPolicy)]. *)
Definition handleAwsError (err : string) : M unit := emit (CallHandleAwsError err).

(** [p.sendDocLevelResponse] and [p.sendResponse]. *)
Definition sendDocLevelResponse (messageID : string) (status : ResultStatus) (msg : string) : M unit :=
  emit (CallSendDocLevelResponse messageID status msg).

Definition sendResponse (messageID pluginID : string) (outputs : PluginOutputs) : M unit :=
  emit (CallSendResponse messageID pluginID outputs).

(** [runPlugins(context, messageID, plugins, sendResponse, cancelFlag)]. *)
Definition runPlugins (messageID : string) (plugins : list PluginState)
    (cancelFlag : CancelFlag) : M PluginOutputs :=
  λ w, let r := pluginRunner p messageID plugins cancelFlag (store w) in
       (runnerOutputs r,
        withTrace (withStore w (runnerStore r))
          (trace w ++ CallRunPlugins messageID plugins cancelFlag
             :: map (λ x, CallSendResponse x.1.1 x.1.2 x.2) (runnerResponses r))).

(** [isUpdatePlugin]: the loop over the plugins of the document. *)
Fixpoint isUpdatePlugin_range (plugins : list PluginState) : bool :=
  match plugins with
  | [] => false
  | pluginState :: rest =>
      if bool_decide (Name pluginState = PluginEC2ConfigUpdate K)
         || bool_decide (Name pluginState = PluginNameAwsAgentUpdate K)
      then true
      else isUpdatePlugin_range rest
  end.

Definition isUpdatePlugin (pluginConfig : DocumentState) : bool :=
  isUpdatePlugin_range (InstancePluginsInformation pluginConfig).

(** [loadPluginConfigurations]: the configurations of the plugins that have
    not been executed. *)
Definition loadPluginConfigurations (plugins : gmap string PluginState)
    (commandID : string) : gmap string Configuration :=
  map_fold
    (λ pluginName pluginConfig configs,
       if HasExecuted pluginConfig then configs
       else <[pluginName := PluginConfiguration pluginConfig]> configs)
    ∅ plugins.

(** [runCmdsUsingCmdState]. *)
Definition runCmdsUsingCmdState (cancelFlag : CancelFlag) (docState : DocumentState) : M unit :=
  outputs ← runPlugins (MessageID (DocumentInformation docState))
                       (InstancePluginsInformation docState) cancelFlag;
  let payloadDoc := buildReply p EmptyString outputs in
  read ← getDocumentInterimState
            (DocumentID (DocumentInformation docState))
            (InstanceID (DocumentInformation docState))
            DefaultLocationOfCurrent;
  let newCmdState :=
    setDocumentInformation read (overlayPayload (DocumentInformation read) payloadDoc) in
  persistDocumentInfo (DocumentInformation newCmdState)
    (DocumentID (DocumentInformation newCmdState))
    (InstanceID (DocumentInformation newCmdState))
    DefaultLocationOfCurrent;;
  sendResponse (MessageID (DocumentInformation newCmdState)) EmptyString outputs;;
  if bool_decide (DocumentStatus (DocumentInformation newCmdState) = ResultStatusSuccessAndReboot)
  then mret tt
  else
    moveDocumentState
      (DocumentID (DocumentInformation newCmdState))
      (InstanceID (DocumentInformation newCmdState))
      DefaultLocationOfCurrent DefaultLocationOfCompleted;;
    if negb (isUpdatePlugin newCmdState) then
      err ← deleteMessage (MessageID (DocumentInformation newCmdState));
      match err with
      | Some e => handleAwsError e
      | None => mret tt
      end
    else mret tt.

(** [processSendCommandMessage]. *)
Definition processSendCommandMessage (cancelFlag : CancelFlag) (docState : DocumentState) : M unit :=
  outputs ← runPlugins (MessageID (DocumentInformation docState))
                       (InstancePluginsInformation docState) cancelFlag;
  let payloadDoc := buildReply p EmptyString outputs in
  read ← getDocumentInterimState
            (DocumentID (DocumentInformation docState))
            (InstanceID (DocumentInformation docState))
            DefaultLocationOfCurrent;
  let newCmdState :=
    setDocumentInformation read (overlayPayload (DocumentInformation read) payloadDoc) in
  persistDocumentInfo (DocumentInformation newCmdState)
    (DocumentID (DocumentInformation newCmdState))
    (InstanceID (DocumentInformation newCmdState))
    DefaultLocationOfCurrent;;
  sendResponse (MessageID (DocumentInformation newCmdState)) EmptyString outputs;;
  if bool_decide (DocumentStatus (DocumentInformation newCmdState) = ResultStatusSuccessAndReboot)
  then mret tt
  else
    moveDocumentState
      (DocumentID (DocumentInformation newCmdState))
      (InstanceID (DocumentInformation newCmdState))
      DefaultLocationOfCurrent DefaultLocationOfCompleted;;
    if negb (isUpdatePlugin newCmdState) then
      err ← deleteMessage (MessageID (DocumentInformation newCmdState));
      match err with
      | Some e => handleAwsError e
      | None => mret tt
      end
    else mret tt.

(** [processCancelCommandMessage]; [docState] is a pointer in the source,
    so the state as the function leaves it is returned. *)
Definition processCancelCommandMessage (docState : DocumentState) : M DocumentState :=
  found ← cancel (CancelMessageID (CancelInformation docState));
  let docState' :=
    if negb found then
      setDocumentStatus
        (setDebugInfo docState
           ("Command " +:+ CancelCommandID (CancelInformation docState)
              +:+ " couldn't be cancelled"))
        ResultStatusFailed
    else
      setDocumentStatus
        (setDebugInfo docState
           ("Command " +:+ CancelCommandID (CancelInformation docState) +:+ " cancelled"))
        ResultStatusSuccess in
  persistData
    (DocumentID (DocumentInformation docState'))
    (InstanceID (DocumentInformation docState'))
    DefaultLocationOfCurrent docState';;
  moveDocumentState
    (DocumentID (DocumentInformation docState'))
    (InstanceID (DocumentInformation docState'))
    DefaultLocationOfCurrent DefaultLocationOfCompleted;;
  err ← deleteMessage (MessageID (DocumentInformation docState'));
  match err with
  | Some e => handleAwsError e
  | None => mret tt
  end;;
  mret docState'.

(** [ExecutePendingDocument]: the job closures are kept as [Job] values. *)
Definition ExecutePendingDocument (docState : DocumentState) : M unit :=
  moveDocumentState
    (DocumentID (DocumentInformation docState))
    (InstanceID (DocumentInformation docState))
    DefaultLocationOfPending DefaultLocationOfCurrent;;
  match DocType docState with
  | SendCommand | SendCommandOffline =>
      err ← submit SendCommandPool (MessageID (DocumentInformation docState))
              (SendCommandJob docState);
      match err with
      | Some e => emit (LogError ("SendCommand failed" +:+ e))
      | None => mret tt
      end
  | CancelCommand | CancelCommandOffline =>
      err ← submit CancelCommandPool (MessageID (DocumentInformation docState))
              (CancelCommandJob docState);
      match err with
      | Some e => emit (LogError ("CancelCommand failed" +:+ e))
      | None => mret tt
      end
  | UnknownDocumentType text => emit (LogError ("unexpected document type " +:+ text))
  end.

(** Modelled from the spec: [p.persistData], a field of the processor set
    outside the sources: it persists the state in the folder under the
    state's own document and instance ids. *)
Definition p_persistData (docState : DocumentState) (f : Folder) : M unit :=
  persistData
    (DocumentID (DocumentInformation docState))
    (InstanceID (DocumentInformation docState))
    f docState.

(** [processMessage], from the persisting of the received message on. *)
Definition processMessage_accepted (msg : Message) (docState : DocumentState) : M unit :=
  p_persistData docState DefaultLocationOfPending;;
  err ← acknowledgeMessage (MessageId msg);
  match err with
  | Some e => handleAwsError e
  | None =>
      sendDocLevelResponse (MessageId msg) ResultStatusInProgress EmptyString;;
      ExecutePendingDocument docState
  end.

(** [processMessage]. *)
Definition processMessage (msg : Message) : M unit :=
  match validate msg with
  | Some err => emit (LogError ("message not valid, ignoring: " +:+ err))
  | None =>
      if HasPrefix (Topic msg) (SendCommandTopicPrefix K) then
        match loadDocStateFromSendCommand msg (orchestrationRootDir p) with
        | ParseError err =>
            emit (LogError err);;
            sendDocLevelResponse (MessageId msg) ResultStatusFailed err
        | ParseOk docState => processMessage_accepted msg docState
        end
      else
        match
          (if HasPrefix (Topic msg) (CancelCommandTopicPrefix K)
           then loadDocStateFromCancelCommand msg (orchestrationRootDir p)
           else ParseError ("unexpected topic name " +:+ Topic msg))
        with
        | ParseError err =>
            emit (LogError ("format of received message is invalid " +:+ err));;
            failed ← failMessage (MessageId msg) InternalHandlerException;
            match failed with
            | Some e => handleAwsError e
            | None => mret tt
            end
        | ParseOk docState => processMessage_accepted msg docState
        end
  end.

End ProcessorCore.

(** ** What a processing of a send command does, named *)

(** Which calls move a document, and which delete a message. *)
Definition isMove (e : Event) : bool :=
  match e with
  | CallMove _ _ _ _ => true
  | _ => false
  end.

Definition isDeleteMessage (e : Event) : bool :=
  match e with
  | CallDeleteMessage _ => true
  | _ => false
  end.

Definition isRunPlugins (e : Event) : bool :=
  match e with
  | CallRunPlugins _ _ _ => true
  | _ => false
  end.

Definition isFailMessage (e : Event) : bool :=
  match e with
  | CallFailMessage _ _ => true
  | _ => false
  end.

Definition responseEvents (r : RunnerResult) : list Event :=
  map (λ x, CallSendResponse x.1.1 x.1.2 x.2) (runnerResponses r).

Section Observations.

Variable p : Processor.

(** The run of the plugins that a processing of [docState] starts with. *)
Definition pluginRun (cancelFlag : CancelFlag) (docState : DocumentState) (w : World) : RunnerResult :=
  pluginRunner p (MessageID (DocumentInformation docState))
    (InstancePluginsInformation docState) cancelFlag (store w).

(** The reply built from the outputs of that run. *)
Definition payloadDoc (cancelFlag : CancelFlag) (docState : DocumentState) (w : World) : SendReplyPayload :=
  buildReply p EmptyString (runnerOutputs (pluginRun cancelFlag docState w)).

(** The interim state read back from the Current folder after that run. *)
Definition readBack (cancelFlag : CancelFlag) (docState : DocumentState) (w : World) : DocumentState :=
  GetDocumentInterimState (runnerStore (pluginRun cancelFlag docState w))
    (DocumentID (DocumentInformation docState))
    (InstanceID (DocumentInformation docState))
    DefaultLocationOfCurrent.

(** The document information that the processing persists: the one read
    back, overlaid with the reply's document level fields. *)
Definition finalInfo (cancelFlag : CancelFlag) (docState : DocumentState) (w : World) : DocumentInfo :=
  overlayPayload (DocumentInformation (readBack cancelFlag docState w))
    (payloadDoc cancelFlag docState w).

(** The calls every processing of a send command makes first: the run of
    the plugins, the runner's own responses, the persisting of the final
    document information, the final reply. *)
Definition commonCalls (cancelFlag : CancelFlag) (docState : DocumentState) (w : World) : list Event :=
  CallRunPlugins (MessageID (DocumentInformation docState))
    (InstancePluginsInformation docState) cancelFlag
  :: responseEvents (pluginRun cancelFlag docState w) ++
  [CallPersist (DocumentID (finalInfo cancelFlag docState w))
     (InstanceID (finalInfo cancelFlag docState w)) DefaultLocationOfCurrent;
   CallSendResponse (MessageID (finalInfo cancelFlag docState w)) EmptyString
     (runnerOutputs (pluginRun cancelFlag docState w))].

(** The store once the final document information is persisted. *)
Definition persistedStore (cancelFlag : CancelFlag) (docState : DocumentState) (w : World) : DocStore :=
  PersistDocumentInfo (runnerStore (pluginRun cancelFlag docState w))
    (finalInfo cancelFlag docState w)
    (DocumentID (finalInfo cancelFlag docState w))
    (InstanceID (finalInfo cancelFlag docState w))
    DefaultLocationOfCurrent.

(** The calls that delete the message, with the handling of a failure. *)
Definition deleteCalls (messageID : string) : list Event :=
  CallDeleteMessage messageID ::
  match DeleteMessage (service p) messageID with
  | Some e => [CallHandleAwsError e]
  | None => []
  end.

(** The calls that fail a message whose format is invalid, with the
    handling of a failure of the call itself. *)
Definition failCalls (msg : Message) (err : string) : list Event :=
  LogError ("format of received message is invalid " +:+ err)
  :: CallFailMessage (MessageId msg) InternalHandlerException
  :: match FailMessage (service p) (MessageId msg) InternalHandlerException with
     | Some e => [CallHandleAwsError e]
     | None => []
     end.

(** What it is for a processing that started in [w] to have left the
    document in the Current folder in [w']: the calls made end with the
    final reply and have no move of a document and no deletion of a
    message among them; compared with the store the plugin runner left,
    the Completed folder is the same and no document has left the Current
    folder; the document is in the Current folder with the status
    SuccessAndReboot. *)
Definition leftInCurrent (cancelFlag : CancelFlag) (docState : DocumentState)
    (w w' : World) : Prop :=
  ∃ new,
    trace w' = trace w ++ new
    ∧ last new = Some (CallSendResponse (MessageID (finalInfo cancelFlag docState w))
                         EmptyString (runnerOutputs (pluginRun cancelFlag docState w)))
    ∧ forallb (λ e, negb (isMove e || isDeleteMessage e)) new = true
    ∧ completed (store w') = completed (runnerStore (pluginRun cancelFlag docState w))
    ∧ (∀ k, is_Some (current (runnerStore (pluginRun cancelFlag docState w)) !! k) →
            is_Some (current (store w') !! k))
    ∧ ∃ d, current (store w') !! (InstanceID (finalInfo cancelFlag docState w),
                                  DocumentID (finalInfo cancelFlag docState w)) = Some d
           ∧ DocumentStatus (DocumentInformation d) = ResultStatusSuccessAndReboot.

(** A plugin of the document read back is an update-self plugin. *)
Definition hasUpdatePlugin (K : Constants) (d : DocumentState) : Prop :=
  ∃ pluginState, pluginState ∈ InstancePluginsInformation d
    ∧ (Name pluginState = PluginEC2ConfigUpdate K
       ∨ Name pluginState = PluginNameAwsAgentUpdate K).

End Observations.

(** ** Fixtures *)

Definition fixtureService (ackError deleteError : option string) : Service :=
  {| FailMessage := λ _ _, None;
     AcknowledgeMessage := λ _, ackError;
     DeleteMessage := λ _, deleteError |}.

(** A runner that reports one plugin result with the given status and
    leaves the store as it is. *)
Definition fixtureRunner (status : ResultStatus)
    (messageID : string) (plugins : list PluginState) (cancelFlag : CancelFlag)
    (st : DocStore) : RunnerResult :=
  {| runnerOutputs := {[ "aws:runPowerShellScript" := {| Status := status; Code := 0; Output := "done" |} ]};
     runnerStore := st;
     runnerResponses := [(messageID, "aws:runPowerShellScript", ∅)] |}.

(** A reply builder whose document status is that of the plugin. *)
Definition fixtureBuildReply (pluginID : string) (outputs : PluginOutputs) : SendReplyPayload :=
  {| PayloadAdditionalInfo := "agent";
     PayloadDocumentStatus :=
       match outputs !! "aws:runPowerShellScript" with
       | Some r => Status r
       | None => ResultStatusFailed
       end;
     PayloadDocumentTraceOutput := EmptyString;
     PayloadRuntimeStatus := outputs |}.

Definition fixtureProcessor (status : ResultStatus) (ackError deleteError : option string) : Processor :=
  {| service := fixtureService ackError deleteError;
     orchestrationRootDir := "orchestration";
     pluginRunner := fixtureRunner status;
     buildReply := fixtureBuildReply |}.

Definition fixturePlugin (name : string) (executed : bool) : PluginState :=
  {| Name := name;
     PluginConfiguration :=
       {| Properties := "ls"; OutputS3KeyPrefix := "prefix"; OrchestrationDirectory := "orchestration/cmd-1" |};
     Result := {| Status := ResultStatusUnset; Code := 0; Output := EmptyString |};
     HasExecuted := executed |}.

Definition fixtureInfo (status : ResultStatus) : DocumentInfo :=
  {| DocumentID := "doc-1"; InstanceID := "i-1";
     MessageID := "aws.ssm.cmd-1.i-1"; CommandID := "cmd-1";
     DocumentName := "AWS-RunPowerShellScript"; DocumentStatus := status;
     RuntimeStatus := ∅; AdditionalInfo := EmptyString;
     DocumentTraceOutput := EmptyString |}.

Definition fixtureSendDocument (plugins : list PluginState) : DocumentState :=
  {| DocumentInformation := fixtureInfo ResultStatusInProgress;
     DocType := SendCommand;
     InstancePluginsInformation := plugins;
     CancelInformation := CancelInformation emptyDocumentState |}.

Definition fixtureCancelDocument : DocumentState :=
  {| DocumentInformation :=
       {| DocumentID := "doc-2"; InstanceID := "i-1";
          MessageID := "aws.ssm.cancel-1.i-1"; CommandID := "cancel-1";
          DocumentName := EmptyString; DocumentStatus := ResultStatusInProgress;
          RuntimeStatus := ∅; AdditionalInfo := EmptyString;
          DocumentTraceOutput := EmptyString |};
     DocType := CancelCommand;
     InstancePluginsInformation := [];
     CancelInformation :=
       {| CancelMessageID := "aws.ssm.cmd-1.i-1"; CancelCommandID := "cmd-1";
          DebugInfo := EmptyString |} |}.

Definition emptyWorld : World :=
  {| store := emptyStore; trace := []; sendCommandPool := ∅; cancelCommandPool := ∅ |}.

(** A world in which the document is in the Current folder. *)
Definition fixtureWorld (d : DocumentState) : World :=
  {| store := PersistData emptyStore (DocumentID (DocumentInformation d))
                (InstanceID (DocumentInformation d)) DefaultLocationOfCurrent d;
     trace := []; sendCommandPool := ∅; cancelCommandPool := ∅ |}.

Definition fixtureMessage (topic : string) : Message :=
  {| MessageId := "aws.ssm.cmd-1.i-1"; Topic := topic; Payload := "{}";
     CreatedDate := "2016-01-01"; Destination := "i-1" |}.

(** Loaders: one that fails, one that yields the given document. *)
Definition failingLoader (msg : Message) (root : string) : Parsed :=
  ParseError "invalid payload".

Definition fixtureLoader (d : DocumentState) (msg : Message) (root : string) : Parsed :=
  ParseOk d.

(** ** The parsers *)

(** [messageContracts.SendCommandPayload], what [ParseMessageWithParams]
    yields: the fields that the parser of this file reads, and the
    document. *)
Record SendCommandPayload := {
  ParsedCommandID : string;
  ParsedDocumentName : string;
  ParsedOutputS3KeyPrefix : string;
  ParsedDocumentContent : string
}.

(** [messageContracts.CancelPayload]. *)
Record CancelPayload := {
  ParsedCancelMessageID : string;
  ParsedCancelCommandID : string
}.

(** The functions of other packages and files that the two parsers call,
    each as what it answers: a value or an error where the Go function
    returns a value and an error. [RemoveDependencyOnInstanceMetadata]
    works on the document state in place: it answers with the state as it
    leaves it, and its error. *)
Record Collaborators := {
  getCommandID : string → string;
  ParseMessageWithParams : string → SendCommandPayload + string;
  Marshal : DocumentState → string + string;
  pathJoin : list string → string;
  filepathJoin : list string → string;
  initializeSendCommandState :
    SendCommandPayload → string → string → Message → DocumentState;
  IsManagedInstance : bool * option string;
  IsManagedInstanceIncompatibleAWSSSMDocument : string → bool;
  RemoveDependencyOnInstanceMetadata : DocumentState → DocumentState * option string;
  Unmarshal : string → CancelPayload + string;
  initializeCancelCommandState : Message → CancelPayload → DocumentState
}.

Section Parsers.

Variable c : Collaborators.

(** [parseSendCommandMessage], as the value it returns. The error of
    [IsManagedInstance] is logged and nothing else is done with it: the
    line logged is [parseSendCommandMessage_logged], below. *)
Definition parseSendCommandMessage (msg : Message) (messagesOrchestrationRootDir : string) : Parsed :=
  let commandID := getCommandID c (MessageId msg) in
  match ParseMessageWithParams c (Payload msg) with
  | inr err => ParseError err
  | inl parsedMessage =>
      let s3KeyPrefix :=
        pathJoin c [ParsedOutputS3KeyPrefix parsedMessage;
                    ParsedCommandID parsedMessage; Destination msg] in
      let messageOrchestrationDirectory :=
        filepathJoin c [messagesOrchestrationRootDir; commandID] in
      let docState :=
        initializeSendCommandState c parsedMessage messageOrchestrationDirectory
          s3KeyPrefix msg in
      match Marshal c docState with
      | inr err => ParseError err
      | inl _ =>
          let (isMI, _) := IsManagedInstance c in
          if isMI && IsManagedInstanceIncompatibleAWSSSMDocument c
                       (DocumentName (DocumentInformation docState))
          then
            match RemoveDependencyOnInstanceMetadata c docState with
            | (_, Some err) => ParseError err
            | (docState', None) => ParseOk docState'
            end
          else ParseOk docState
      end
  end.

(** [parseCancelCommandMessage]. *)
Definition parseCancelCommandMessage (msg : Message) (messagesOrchestrationRootDir : string) : Parsed :=
  match Unmarshal c (Payload msg) with
  | inr err => ParseError err
  | inl parsedMessage => ParseOk (initializeCancelCommandState c msg parsedMessage)
  end.

(** The document state that [parseSendCommandMessage] builds from a parsed
    message, before any rewriting: [initializeSendCommandState] on the
    parsed message, the orchestration directory of the command and the S3
    key prefix. *)
Definition initialSendCommandState (msg : Message) (messagesOrchestrationRootDir : string)
    (parsedMessage : SendCommandPayload) : DocumentState :=
  initializeSendCommandState c parsedMessage
    (filepathJoin c [messagesOrchestrationRootDir; getCommandID c (MessageId msg)])
    (pathJoin c [ParsedOutputS3KeyPrefix parsedMessage;
                 ParsedCommandID parsedMessage; Destination msg])
    msg.

(** What [parseSendCommandMessage] writes at the error level of the log:
    one line, when [IsManagedInstance] answers with an error; the call is
    reached once the payload has parsed and the document state has been
    marshalled. *)
Definition parseSendCommandMessage_logged (msg : Message)
    (messagesOrchestrationRootDir : string) : list Event :=
  match ParseMessageWithParams c (Payload msg) with
  | inr _ => []
  | inl parsedMessage =>
      match Marshal c (initialSendCommandState msg messagesOrchestrationRootDir
                         parsedMessage) with
      | inr _ => []
      | inl _ =>
          match (IsManagedInstance c).2 with
          | Some err =>
              [LogError ("Error determining managed instance. error: " +:+ err)]
          | None => []
          end
      end
  end.

(** [parseSendCommandMessage] as it runs: the value it returns, and its
    line in the log. *)
Definition parseSendCommandMessage_run (msg : Message)
    (messagesOrchestrationRootDir : string) : M Parsed :=
  λ w, (parseSendCommandMessage msg messagesOrchestrationRootDir,
        withTrace w (trace w ++ parseSendCommandMessage_logged msg
                                  messagesOrchestrationRootDir)).

(** [processMessage] with the two parsers of this file, the line that the
    send command parser logs included. [processMessage] calls that parser
    on a valid message with the send command prefix, before it makes any
    call or logs any error of its own: the parser's line comes first. *)
Definition processMessage_parsing (K : Constants) (p : Processor) (msg : Message) : M unit :=
  λ w, processMessage K parseSendCommandMessage parseCancelCommandMessage p msg
         (match validate msg with
          | Some _ => w
          | None =>
              if HasPrefix (Topic msg) (SendCommandTopicPrefix K)
              then (parseSendCommandMessage_run msg (orchestrationRootDir p) w).2
              else w
          end).

End Parsers.

(** ** The order of a [range] over a map *)

(** The loop of [loadPluginConfigurations] over the plugins in a given
    order: Go fixes no order for the [range] over a map. *)
Definition loadPluginConfigurations_range (entries : list (string * PluginState)) :
    gmap string Configuration :=
  foldl
    (λ configs entry,
       if HasExecuted entry.2 then configs
       else <[entry.1 := PluginConfiguration entry.2]> configs)
    ∅ entries.

(** ** The jobs run *)

Section Jobs.

Variable K : Constants.
Variable p : Processor.

(** What the closure submitted by [ExecutePendingDocument] does when the
    pool runs it with a cancel flag. *)
Definition runJob (job : Job) (cancelFlag : CancelFlag) : M unit :=
  match job with
  | SendCommandJob docState => processSendCommandMessage K p cancelFlag docState
  | CancelCommandJob docState =>
      processCancelCommandMessage p docState ;; mret tt
  end.

End Jobs.

(** The processor with another message service. *)
Definition withService (p : Processor) (svc : Service) : Processor :=
  {| service := svc; orchestrationRootDir := orchestrationRootDir p;
     pluginRunner := pluginRunner p; buildReply := buildReply p |}.

(** The calls made between two worlds. *)
Definition newCalls (w w' : World) : list Event :=
  drop (List.length (trace w)) (trace w').

(** Calls on the message service. *)
Definition isServiceCall (e : Event) : bool :=
  match e with
  | CallFailMessage _ _ | CallAcknowledgeMessage _ | CallDeleteMessage _ => true
  | _ => false
  end.

(** Replies: document level responses and plugin responses. *)
Definition isReply (e : Event) : bool :=
  match e with
  | CallSendDocLevelResponse _ _ _ | CallSendResponse _ _ _ => true
  | _ => false
  end.

(** A document of a type that is none of the four command types. *)
Definition fixtureOtherDocument : DocumentState :=
  {| DocumentInformation := fixtureInfo ResultStatusInProgress;
     DocType := UnknownDocumentType "Association";
     InstancePluginsInformation := [];
     CancelInformation := CancelInformation emptyDocumentState |}.

(** A world in which the document is in the Pending folder. *)
Definition pendingWorld (d : DocumentState) : World :=
  {| store := PersistData emptyStore (DocumentID (DocumentInformation d))
                (InstanceID (DocumentInformation d)) DefaultLocationOfPending d;
     trace := []; sendCommandPool := ∅; cancelCommandPool := ∅ |}.

(** The same, with a job already in the send command pool under the
    message id of the document. *)
Definition busyWorld (d : DocumentState) : World :=
  {| store := PersistData emptyStore (DocumentID (DocumentInformation d))
                (InstanceID (DocumentInformation d)) DefaultLocationOfPending d;
     trace := [];
     sendCommandPool := {[ MessageID (DocumentInformation d) := (SendCommandJob d, Running) ]};
     cancelCommandPool := ∅ |}.

(** A message whose payload the fixture parsers refuse. *)
Definition unparsableMessage (topic : string) : Message :=
  {| MessageId := "aws.ssm.cmd-1.i-1"; Topic := topic; Payload := "{";
     CreatedDate := "2016-01-01"; Destination := "i-1" |}.

(** Two plugins, the first one executed. *)
Definition fixturePlugins : gmap string PluginState :=
  {[ "aws:psModule" := fixturePlugin "aws:psModule" true;
     "aws:runPowerShellScript" := fixturePlugin "aws:runPowerShellScript" false ]}.

(** A fixture for the collaborators of the parsers: every payload parses,
    the instance is not a managed one, and asking whether it is fails. *)
Definition fixtureCollaborators (d : DocumentState) : Collaborators :=
  {| getCommandID := λ _, "cmd-1";
     ParseMessageWithParams := λ payload,
       if String.eqb payload "{}" then
         inl {| ParsedCommandID := "cmd-1"; ParsedDocumentName := "AWS-RunPowerShellScript";
                ParsedOutputS3KeyPrefix := "prefix"; ParsedDocumentContent := "{}" |}
       else inr "invalid payload";
     Marshal := λ _, inl "{}";
     pathJoin := λ _, "prefix/cmd-1/i-1";
     filepathJoin := λ _, "orchestration/cmd-1";
     initializeSendCommandState := λ _ _ _ _, d;
     IsManagedInstance := (false, Some "no registration");
     IsManagedInstanceIncompatibleAWSSSMDocument := λ _, true;
     RemoveDependencyOnInstanceMetadata := λ d', (d', Some "cannot rewrite");
     Unmarshal := λ payload,
       if String.eqb payload "{}" then
         inl {| ParsedCancelMessageID := "aws.ssm.cmd-1.i-1"; ParsedCancelCommandID := "cmd-1" |}
       else inr "invalid character";
     initializeCancelCommandState := λ _ _, d |}.

End processor.

(** * Package [configurepackage] *)

(** The engine itself is not among the sources (its tests are); what
    follows is written from the specification of the engine, and keeps the
    names the tests call. *)

Module configurepackage.

(** ** Data model *)

Record ConfigurePackagePluginInput := {
  Name : string;
  Version : string;
  Action : string;
  Source : string
}.

Record ConfigurePackagePluginOutput := {
  Status : ResultStatus;
  ExitCode : Z;
  Stdout : string;
  Stderr : string
}.

Definition emptyOutput : ConfigurePackagePluginOutput :=
  {| Status := ResultStatusUnset; ExitCode := 0;
     Stdout := EmptyString; Stderr := EmptyString |}.

Definition newline : string := String "010"%char EmptyString.

(** ** Output accumulators *)

(** Modelled from the spec: [AppendInfo], line-appending on [Stdout]. *)
Definition AppendInfo (out : ConfigurePackagePluginOutput) (msg : string) :
    ConfigurePackagePluginOutput :=
  {| Status := Status out; ExitCode := ExitCode out;
     Stdout := Stdout out +:+ newline +:+ msg; Stderr := Stderr out |}.

(** Modelled from the spec: [AppendError], line-appending on [Stderr]. *)
Definition AppendError (out : ConfigurePackagePluginOutput) (msg : string) :
    ConfigurePackagePluginOutput :=
  {| Status := Status out; ExitCode := ExitCode out;
     Stdout := Stdout out; Stderr := Stderr out +:+ newline +:+ msg |}.

(** Modelled from the spec: [MarkAsSucceeded(reboot)] sets [ExitCode] to 0
    and [Status] to Success, or to SuccessAndReboot. *)
Definition MarkAsSucceeded (out : ConfigurePackagePluginOutput) (reboot : bool) :
    ConfigurePackagePluginOutput :=
  {| Status := if reboot then ResultStatusSuccessAndReboot else ResultStatusSuccess;
     ExitCode := 0; Stdout := Stdout out; Stderr := Stderr out |}.

(** Modelled from the spec: [MarkAsFailed(err)] sets [ExitCode] to 1 and
    [Status] to Failed, and appends the error to [Stderr]. *)
Definition MarkAsFailed (out : ConfigurePackagePluginOutput) (err : string) :
    ConfigurePackagePluginOutput :=
  let out' := AppendError out err in
  {| Status := ResultStatusFailed; ExitCode := 1;
     Stdout := Stdout out'; Stderr := Stderr out' |}.

(** ** Input validation *)

Definition isUpper (c : ascii) : bool :=
  (65 <=? N_of_ascii c)%N && (N_of_ascii c <=? 90)%N.

Definition isLower (c : ascii) : bool :=
  (97 <=? N_of_ascii c)%N && (N_of_ascii c <=? 122)%N.

Definition isDigit (c : ascii) : bool :=
  (48 <=? N_of_ascii c)%N && (N_of_ascii c <=? 57)%N.

(** The class [[A-Za-z_]]. *)
Definition isNameStart (c : ascii) : bool :=
  isUpper c || isLower c || Ascii.eqb c "_".

(** The class [[A-Za-z0-9._-]]. *)
Definition isNameChar (c : ascii) : bool :=
  isUpper c || isLower c || isDigit c
  || Ascii.eqb c "." || Ascii.eqb c "_" || Ascii.eqb c "-".

Fixpoint allNameChars (s : string) : bool :=
  match s with
  | EmptyString => true
  | String c rest => isNameChar c && allNameChars rest
  end.

(** The regular expression [^[A-Za-z_][A-Za-z0-9._-]*$]. *)
Definition matchesNamePattern (s : string) : bool :=
  match s with
  | EmptyString => false
  | String c rest => isNameStart c && allNameChars rest
  end.

Definition startsWithLetterOrUnderscore (s : string) : bool :=
  match s with
  | EmptyString => false
  | String c _ => isNameStart c
  end.

(** Modelled from the spec: a name must match the pattern, and start with
    a letter or underscore, and not end in [.] or [-], and not contain
    [..]. *)
Definition validName (s : string) : bool :=
  matchesNamePattern s
  && startsWithLetterOrUnderscore s
  && negb (HasSuffix s "." || HasSuffix s "-")
  && negb (Contains s "..").

(** One or more digits: the rest of the string after them. *)
Fixpoint skipDigits (s : string) : string :=
  match s with
  | String c rest => if isDigit c then skipDigits rest else s
  | EmptyString => s
  end.

Definition digits1 (s : string) : option string :=
  match s with
  | String c rest => if isDigit c then Some (skipDigits rest) else None
  | EmptyString => None
  end.

Definition dot (s : string) : option string :=
  match s with
  | String c rest => if Ascii.eqb c "." then Some rest else None
  | EmptyString => None
  end.

Definition andThen (o : option string) (f : string → option string) : option string :=
  match o with
  | Some rest => f rest
  | None => None
  end.

(** The regular expression [^\d+\.\d+\.\d+$]. *)
Definition matchesVersionPattern (s : string) : bool :=
  match andThen (andThen (andThen (andThen (digits1 s) dot) digits1) dot) digits1 with
  | Some EmptyString => true
  | _ => false
  end.

(** Modelled from the spec: [validateInput], the exact rules of the input
    validation, in the order the spec gives them: the source, the name,
    the version. The action is not among them. *)
Definition validateInput (input : ConfigurePackagePluginInput) : bool * option string :=
  if negb (String.eqb (Source input) EmptyString) then
    (false, Some "source parameter is not supported")
  else if String.eqb (Name input) EmptyString then
    (false, Some "empty name field")
  else if negb (validName (Name input)) then
    (false, Some "invalid name")
  else if negb (String.eqb (Version input) EmptyString)
          && negb (matchesVersionPattern (Version input)) then
    (false, Some "invalid version")
  else (true, None).

(** ** The package lock *)

(** The process-wide mapping from package name to the action in progress. *)
Abbreviation PackageLock := (gmap string string).

Definition alreadyLocked (packageName action : string) : string :=
  "Package " +:+ dquote +:+ packageName +:+ dquote
    +:+ " is already in the process of action " +:+ dquote +:+ action +:+ dquote.

(** Modelled from the spec: [lockPackage(name, action)] fails, naming the
    action in progress, if any action is in progress for the package, and
    records (name, action) otherwise. *)
Definition lockPackage (locks : PackageLock) (packageName action : string) :
    option string * PackageLock :=
  match locks !! packageName with
  | Some inProgress => (Some (alreadyLocked packageName inProgress), locks)
  | None => (None, <[packageName := action]> locks)
  end.

(** Modelled from the spec: [unlockPackage(name)]. *)
Definition unlockPackage (locks : PackageLock) (packageName : string) : PackageLock :=
  delete packageName locks.

(** ** The engine *)

(** The calls the tests observe on the manager. *)
Inductive ManagerCall :=
| getVersionToInstall_called (packageName : string)
| getVersionToUninstall_called (packageName : string)
| setMark_called (packageName version : string)
| clearMark_called (packageName : string)
| runInstallPackage_called (packageName version : string)
| runUninstallPackagePre_called (packageName version : string)
| runUninstallPackagePost_called (packageName version : string).

(** [configurePackageManager]: what each operation answers. A phase
    answers with a status and an error; version resolution answers with
    the version to act on and the version currently installed (empty when
    none is), or with an error. *)
Record configurePackageManager := {
  getVersionToInstall : ConfigurePackagePluginInput → (string * string) + string;
  getVersionToUninstall : ConfigurePackagePluginInput → string + string;
  runInstallPackage : string → string → ResultStatus * option string;
  runUninstallPackagePre : string → string → ResultStatus * option string;
  runUninstallPackagePost : string → string → ResultStatus * option string
}.

(** The state the engine acts on: the package lock, the installing
    markers (package name to the version being installed), and the calls
    made on the manager so far. *)
Record Engine := {
  locks : PackageLock;
  markers : gmap string string;
  calls : list ManagerCall
}.

Definition called (st : Engine) (c : ManagerCall) : Engine :=
  {| locks := locks st; markers := markers st; calls := calls st ++ [c] |}.

(** Modelled from the spec: [setMark(Name, targetVersion)] writes the
    installing marker. *)
Definition setMark (st : Engine) (packageName version : string) : Engine :=
  {| locks := locks st;
     markers := <[packageName := version]> (markers st);
     calls := calls st ++ [setMark_called packageName version] |}.

(** Modelled from the spec: [clearMark(Name)] removes the installing
    marker. *)
Definition clearMark (st : Engine) (packageName : string) : Engine :=
  {| locks := locks st;
     markers := delete packageName (markers st);
     calls := calls st ++ [clearMark_called packageName] |}.

(** How a phase ended. *)
Inductive PhaseOutcome :=
| PhaseSucceeded
| PhaseReboot
| PhaseFailed (err : string).

Definition phaseOutcome (r : ResultStatus * option string) : PhaseOutcome :=
  match r with
  | (_, Some err) => PhaseFailed err
  | (ResultStatusSuccessAndReboot, None) => PhaseReboot
  | (ResultStatusSuccess, None) => PhaseSucceeded
  | (_, None) => PhaseFailed "phase did not succeed"
  end.

(** Modelled from the spec: the install of the target version once the
    marker is set, and what follows it: the uninstall-post of the old
    version on an upgrade, then the clearing of the marker. A reboot
    request or a failure ends the action and leaves the marker. *)
Definition installAndFinish (m : configurePackageManager) (st : Engine)
    (out : ConfigurePackagePluginOutput)
    (packageName version installedVersion : string) :
    ConfigurePackagePluginOutput * Engine :=
  let st := called st (runInstallPackage_called packageName version) in
  match phaseOutcome (runInstallPackage m packageName version) with
  | PhaseFailed err => (MarkAsFailed out ("failed to install package: " +:+ err), st)
  | PhaseReboot => (MarkAsSucceeded out true, st)
  | PhaseSucceeded =>
      if String.eqb installedVersion EmptyString then
        let st := clearMark st packageName in
        (MarkAsSucceeded
           (AppendInfo out ("Successfully installed " +:+ packageName +:+ " " +:+ version))
           false, st)
      else
        let st := called st (runUninstallPackagePost_called packageName installedVersion) in
        match phaseOutcome (runUninstallPackagePost m packageName installedVersion) with
        | PhaseFailed err => (MarkAsFailed out ("failed to uninstall package: " +:+ err), st)
        | PhaseReboot => (MarkAsSucceeded out true, st)
        | PhaseSucceeded =>
            let st := clearMark st packageName in
            (MarkAsSucceeded
               (AppendInfo out ("Successfully installed " +:+ packageName +:+ " " +:+ version))
               false, st)
        end
  end.

(** Modelled from the spec: the install algorithm under the lock, steps 2
    to 8: resolve the versions; nothing to do when the target version is
    the installed one; otherwise set the marker, run the uninstall-pre of
    the old version on an upgrade, then install. *)
Definition runInstall (m : configurePackageManager) (st : Engine)
    (out : ConfigurePackagePluginOutput) (input : ConfigurePackagePluginInput) :
    ConfigurePackagePluginOutput * Engine :=
  let st := called st (getVersionToInstall_called (Name input)) in
  match getVersionToInstall m input with
  | inr err => (MarkAsFailed out ("unable to determine version to install: " +:+ err), st)
  | inl (version, installedVersion) =>
      if String.eqb version installedVersion then
        (MarkAsSucceeded
           (AppendInfo out (Name input +:+ " " +:+ version +:+ " is already installed"))
           false, st)
      else
        let st := setMark st (Name input) version in
        if String.eqb installedVersion EmptyString then
          installAndFinish m st out (Name input) version installedVersion
        else
          let st := called st (runUninstallPackagePre_called (Name input) installedVersion) in
          match phaseOutcome (runUninstallPackagePre m (Name input) installedVersion) with
          | PhaseFailed err => (MarkAsFailed out ("failed to uninstall package: " +:+ err), st)
          | PhaseReboot => (MarkAsSucceeded out true, st)
          | PhaseSucceeded =>
              installAndFinish m st out (Name input) version installedVersion
          end
  end.

(** Modelled from the spec: the uninstall algorithm under the lock: the
    pre-phase, then the post-phase, which a reboot request of the
    pre-phase skips. *)
Definition runUninstall (m : configurePackageManager) (st : Engine)
    (out : ConfigurePackagePluginOutput) (input : ConfigurePackagePluginInput) :
    ConfigurePackagePluginOutput * Engine :=
  let st := called st (getVersionToUninstall_called (Name input)) in
  match getVersionToUninstall m input with
  | inr err => (MarkAsFailed out ("unable to determine version to uninstall: " +:+ err), st)
  | inl version =>
      let st := called st (runUninstallPackagePre_called (Name input) version) in
      match phaseOutcome (runUninstallPackagePre m (Name input) version) with
      | PhaseFailed err => (MarkAsFailed out ("failed to uninstall package: " +:+ err), st)
      | PhaseReboot => (MarkAsSucceeded out true, st)
      | PhaseSucceeded =>
          let st := called st (runUninstallPackagePost_called (Name input) version) in
          match phaseOutcome (runUninstallPackagePost m (Name input) version) with
          | PhaseFailed err => (MarkAsFailed out ("failed to uninstall package: " +:+ err), st)
          | PhaseReboot => (MarkAsSucceeded out true, st)
          | PhaseSucceeded =>
              (MarkAsSucceeded
                 (AppendInfo out ("Successfully uninstalled " +:+ Name input +:+ " " +:+ version))
                 false, st)
          end
      end
  end.

(** Modelled from the spec: the first part of an action, up to the taking
    of the lock: the input is validated and the package locked for the
    action. It ends the action with a failed output, or leaves the engine
    with the lock held. *)
Definition acquire (st : Engine) (input : ConfigurePackagePluginInput) :
    ConfigurePackagePluginOutput + Engine :=
  match validateInput input with
  | (false, err) =>
      inl (MarkAsFailed emptyOutput ("invalid input: " +:+ default EmptyString err))
  | (true, _) =>
      match lockPackage (locks st) (Name input) (Action input) with
      | (Some err, _) => inl (MarkAsFailed emptyOutput err)
      | (None, locks') =>
          inr {| locks := locks'; markers := markers st; calls := calls st |}
      end
  end.

(** Modelled from the spec: the second part of an action, with the lock
    held: the algorithm of the action, then the deferred [unlockPackage]. *)
Definition underLock (m : configurePackageManager) (st : Engine)
    (input : ConfigurePackagePluginInput) : ConfigurePackagePluginOutput * Engine :=
  let (out, st') :=
    if String.eqb (Action input) "Install" then runInstall m st emptyOutput input
    else if String.eqb (Action input) "Uninstall" then runUninstall m st emptyOutput input
    else (MarkAsFailed emptyOutput ("unsupported action: " +:+ Action input), st) in
  (out, {| locks := unlockPackage (locks st') (Name input);
           markers := markers st'; calls := calls st' |}).

(** Modelled from the spec: [runConfigurePackage], one whole action. *)
Definition runConfigurePackage (m : configurePackageManager) (st : Engine)
    (input : ConfigurePackagePluginInput) : ConfigurePackagePluginOutput * Engine :=
  match acquire st input with
  | inl out => (out, st)
  | inr st' => underLock m st' input
  end.

(** Modelled from the spec: [Execute], the public operation. *)
Definition Execute (m : configurePackageManager) (st : Engine)
    (input : ConfigurePackagePluginInput) : ConfigurePackagePluginOutput * Engine :=
  runConfigurePackage m st input.

(** The manager of the tests ([ConfigPackageSuccessMock]): the version to
    act on, the version currently installed, and the results of the
    install, uninstall-pre and uninstall-post phases. *)
Definition ConfigPackageSuccessMock (versionToActOn versionCurrentlyInstalled : string)
    (installResult uninstallPreResult uninstallPostResult : ResultStatus) :
    configurePackageManager :=
  {| getVersionToInstall := λ _, inl (versionToActOn, versionCurrentlyInstalled);
     getVersionToUninstall := λ _, inl versionToActOn;
     runInstallPackage := λ _ _, (installResult, None);
     runUninstallPackagePre := λ _ _, (uninstallPreResult, None);
     runUninstallPackagePost := λ _ _, (uninstallPostResult, None) |}.

(** [createStubPluginInputInstall] of the tests. *)
Definition createStubPluginInputInstall : ConfigurePackagePluginInput :=
  {| Name := "PVDriver"; Version := "1.0.0"; Action := "Install"; Source := EmptyString |}.

Definition emptyEngine : Engine := {| locks := ∅; markers := ∅; calls := [] |}.

(** The engine while a first install of [PVDriver] holds the lock. *)
Definition lockedEngine : Engine :=
  {| locks := {[ "PVDriver" := "Install" ]}; markers := ∅; calls := [] |}.

(** The input of the name tests: the name varies, the version is
    [9000.0.0], the action [Install], the source empty. *)
Definition nameInput (name : string) : ConfigurePackagePluginInput :=
  {| Name := name; Version := "9000.0.0"; Action := "Install"; Source := EmptyString |}.

Definition invalidNames : list string :=
  ["."; ".abc"; "-"; "-abc"; "abc."; "abc-"; "0abc"; "1234"; "../foo"; "abc..def"].

Definition validNames : list string :=
  ["a0"; "_a"; "_._._"; "_-_"; "A";
   "ABCDEFGHIJKLM-NOPQRSTUVWXYZ.abcdefghijklm-nopqrstuvwxyz.1234567890"].

(** ** Shapes of names, as the claims word them *)

(** The name starts with a digit, a dot or a dash. *)
Definition startsBadly (s : string) : Prop :=
  ∃ c rest, s = String c rest ∧ (isDigit c = true ∨ c = "."%char ∨ c = "-"%char).

(** The name ends in a dot or a dash. *)
Definition endsInDotOrDash (s : string) : Prop :=
  ∃ pre, s = pre +:+ "." ∨ s = pre +:+ "-".

(** The name contains two dots in a row. *)
Definition hasDoubleDot (s : string) : Prop :=
  ∃ pre post, s = pre +:+ ".." +:+ post.

End configurepackage.

(** * Properties *)

(** ** Strings *)

Lemma append_empty_l (s : string) : EmptyString +:+ s = s.
Proof. reflexivity. Qed.

Lemma append_String_l (c : ascii) (s t : string) :
  String c s +:+ t = String c (s +:+ t).
Proof. reflexivity. Qed.

Lemma prefix_app (p rest : string) : String.prefix p (p +:+ rest) = true.
Proof.
  induction p as [|c p IH]; simpl.
  - by destruct rest.
  - destruct (ascii_dec c c); [apply IH | congruence].
Qed.

Lemma prefix_refl (s : string) : String.prefix s s = true.
Proof.
  induction s as [|a s IH]; simpl; [done|].
  destruct (ascii_dec a a); [done | congruence].
Qed.

Lemma Contains_here (s sub : string) :
  String.prefix sub s = true → Contains s sub = true.
Proof. intros H. destruct s; simpl in *; rewrite H; done. Qed.

Lemma Contains_later (c : ascii) (s sub : string) :
  Contains s sub = true → Contains (String c s) sub = true.
Proof. intros H. cbn [Contains]. rewrite H. apply orb_true_r. Qed.

Lemma Contains_append_r (pre s sub : string) :
  Contains s sub = true → Contains (pre +:+ s) sub = true.
Proof.
  intros H. induction pre as [|c pre IH].
  - by rewrite append_empty_l.
  - rewrite append_String_l. by apply Contains_later.
Qed.

Lemma Contains_app (pre sub post : string) :
  Contains (pre +:+ sub +:+ post) sub = true.
Proof.
  induction pre as [|c pre IH].
  - rewrite append_empty_l. apply Contains_here, prefix_app.
  - rewrite append_String_l. apply Contains_later, IH.
Qed.

(** ** The processor *)

Module processor_properties.
Import processor.

(** *** The store *)

Lemma folder_withFolder_eq st f m : folder (withFolder st f m) f = m.
Proof. by destruct f. Qed.

Lemma folder_withFolder_ne st f g m : f ≠ g → folder (withFolder st f m) g = folder st g.
Proof. by destruct f, g. Qed.

Lemma PersistData_lookup st documentID instanceID f d :
  folder (PersistData st documentID instanceID f d) f !! (instanceID, documentID) = Some d.
Proof. unfold PersistData. by rewrite folder_withFolder_eq, lookup_insert_eq. Qed.

Lemma PersistData_other_folder st documentID instanceID f g d :
  f ≠ g → folder (PersistData st documentID instanceID f d) g = folder st g.
Proof. intros. unfold PersistData. by rewrite folder_withFolder_ne. Qed.

Lemma PersistData_keeps st documentID instanceID f d k :
  is_Some (folder st f !! k) →
  is_Some (folder (PersistData st documentID instanceID f d) f !! k).
Proof.
  intros Hk. unfold PersistData. rewrite folder_withFolder_eq.
  destruct (decide ((instanceID, documentID) = k)) as [->|Hne].
  - rewrite lookup_insert_eq. eauto.
  - by rewrite lookup_insert_ne.
Qed.

Lemma PersistDocumentInfo_lookup st i documentID instanceID f :
  ∃ d, folder (PersistDocumentInfo st i documentID instanceID f) f
         !! (instanceID, documentID) = Some d
       ∧ DocumentInformation d = i.
Proof. eexists. split; [apply PersistData_lookup | done]. Qed.

(** A move of a document that is in the source folder takes it out of
    that folder and puts it, unchanged, in the destination folder. *)
Lemma MoveDocumentState_present st documentID instanceID src dst d :
  src ≠ dst →
  folder st src !! (instanceID, documentID) = Some d →
  folder (MoveDocumentState st documentID instanceID src dst) src
    !! (instanceID, documentID) = None
  ∧ folder (MoveDocumentState st documentID instanceID src dst) dst
    !! (instanceID, documentID) = Some d.
Proof.
  intros Hne Hd. unfold MoveDocumentState. rewrite Hd. split.
  - rewrite folder_withFolder_ne, folder_withFolder_eq by done.
    apply lookup_delete_eq.
  - rewrite folder_withFolder_eq. apply lookup_insert_eq.
Qed.

Lemma move_after_persist st documentID instanceID d :
  current (MoveDocumentState
             (PersistData st documentID instanceID DefaultLocationOfCurrent d)
             documentID instanceID DefaultLocationOfCurrent DefaultLocationOfCompleted)
    !! (instanceID, documentID) = None
  ∧ completed (MoveDocumentState
                 (PersistData st documentID instanceID DefaultLocationOfCurrent d)
                 documentID instanceID DefaultLocationOfCurrent DefaultLocationOfCompleted)
    !! (instanceID, documentID) = Some d.
Proof.
  apply (MoveDocumentState_present _ _ _ DefaultLocationOfCurrent
           DefaultLocationOfCompleted d); [done|].
  apply PersistData_lookup.
Qed.

(** *** Calls *)

Lemma responseEvents_no_move_delete (r : RunnerResult) :
  forallb (λ e, negb (isMove e || isDeleteMessage e)) (responseEvents r) = true.
Proof.
  unfold responseEvents. induction (runnerResponses r) as [|x l IH]; simpl; auto.
Qed.

Section WithProcessor.

Variable K : Constants.
Variable loadDocStateFromSendCommand : Message → string → Parsed.
Variable loadDocStateFromCancelCommand : Message → string → Parsed.
Variable p : Processor.

Local Abbreviation processMessage :=
  (processor.processMessage K loadDocStateFromSendCommand loadDocStateFromCancelCommand p).

Lemma runCmdsUsingCmdState_eq cancelFlag docState :
  runCmdsUsingCmdState K p cancelFlag docState
  = processSendCommandMessage K p cancelFlag docState.
Proof. reflexivity. Qed.

Ltac run_send :=
  unfold commonCalls, persistedStore, finalInfo, payloadDoc, readBack, pluginRun in *;
  unfold processSendCommandMessage, runPlugins, getDocumentInterimState,
    persistDocumentInfo, moveDocumentState, deleteMessage, handleAwsError,
    sendResponse, emit, mbind, M_bind, mret, M_ret;
  cbn -[PersistDocumentInfo GetDocumentInterimState MoveDocumentState].

Lemma processSendCommandMessage_reboot cancelFlag docState w :
  PayloadDocumentStatus (payloadDoc p cancelFlag docState w) = ResultStatusSuccessAndReboot →
  trace (processSendCommandMessage K p cancelFlag docState w).2
    = trace w ++ commonCalls p cancelFlag docState w
  ∧ store (processSendCommandMessage K p cancelFlag docState w).2
    = persistedStore p cancelFlag docState w.
Proof.
  intros Hst. run_send.
  rewrite Hst, bool_decide_eq_true_2 by done.
  cbn -[PersistDocumentInfo GetDocumentInterimState].
  split; [|done].
  unfold responseEvents. by rewrite <- !app_assoc.
Qed.

Lemma processSendCommandMessage_completes cancelFlag docState w :
  PayloadDocumentStatus (payloadDoc p cancelFlag docState w) ≠ ResultStatusSuccessAndReboot →
  trace (processSendCommandMessage K p cancelFlag docState w).2
    = trace w ++ commonCalls p cancelFlag docState w
      ++ CallMove (DocumentID (finalInfo p cancelFlag docState w))
           (InstanceID (finalInfo p cancelFlag docState w))
           DefaultLocationOfCurrent DefaultLocationOfCompleted
      :: (if isUpdatePlugin K (readBack p cancelFlag docState w) then []
          else deleteCalls p (MessageID (finalInfo p cancelFlag docState w)))
  ∧ store (processSendCommandMessage K p cancelFlag docState w).2
    = MoveDocumentState (persistedStore p cancelFlag docState w)
        (DocumentID (finalInfo p cancelFlag docState w))
        (InstanceID (finalInfo p cancelFlag docState w))
        DefaultLocationOfCurrent DefaultLocationOfCompleted.
Proof.
  intros Hst. unfold deleteCalls. run_send.
  rewrite bool_decide_eq_false_2 by done.
  cbn -[PersistDocumentInfo GetDocumentInterimState MoveDocumentState].
  unfold isUpdatePlugin. cbn -[PersistDocumentInfo GetDocumentInterimState MoveDocumentState].
  destruct (isUpdatePlugin_range K _) eqn:Hup;
    cbn -[PersistDocumentInfo GetDocumentInterimState MoveDocumentState].
  - split; [|done]. unfold responseEvents. by rewrite <- !app_assoc.
  - destruct (DeleteMessage (service p) _) eqn:Hdel;
      cbn -[PersistDocumentInfo GetDocumentInterimState MoveDocumentState];
      (split; [|done]); unfold responseEvents; by rewrite <- !app_assoc.
Qed.

Lemma last_commonCalls cancelFlag docState w :
  last (commonCalls p cancelFlag docState w)
  = Some (CallSendResponse (MessageID (finalInfo p cancelFlag docState w)) EmptyString
            (runnerOutputs (pluginRun p cancelFlag docState w))).
Proof.
  unfold commonCalls.
  rewrite app_comm_cons.
  change [?x; ?y] with ([x] ++ [y]).
  rewrite app_assoc. apply last_snoc.
Qed.

Lemma commonCalls_no_move_delete cancelFlag docState w :
  forallb (λ e, negb (isMove e || isDeleteMessage e)) (commonCalls p cancelFlag docState w) = true.
Proof.
  unfold commonCalls. cbn [forallb isMove isDeleteMessage orb negb andb].
  rewrite forallb_app, responseEvents_no_move_delete. done.
Qed.

Lemma reboot_leftInCurrent cancelFlag docState w :
  PayloadDocumentStatus (payloadDoc p cancelFlag docState w) = ResultStatusSuccessAndReboot →
  leftInCurrent p cancelFlag docState w (processSendCommandMessage K p cancelFlag docState w).2.
Proof.
  intros Hst.
  destruct (processSendCommandMessage_reboot cancelFlag docState w Hst) as [Htr Hstore].
  exists (commonCalls p cancelFlag docState w).
  rewrite Hstore. unfold persistedStore.
  split_and!.
  - done.
  - apply last_commonCalls.
  - apply commonCalls_no_move_delete.
  - reflexivity.
  - intros k Hk.
    exact (PersistData_keeps _ _ _ DefaultLocationOfCurrent _ k Hk).
  - destruct (PersistDocumentInfo_lookup (runnerStore (pluginRun p cancelFlag docState w))
                (finalInfo p cancelFlag docState w)
                (DocumentID (finalInfo p cancelFlag docState w))
                (InstanceID (finalInfo p cancelFlag docState w))
                DefaultLocationOfCurrent) as (d & Hd & Hinfo).
    exists d. split; [exact Hd|]. by rewrite Hinfo.
Qed.

(** C1. When the reply built from the plugin outputs has the status
    SuccessAndReboot, [processSendCommandMessage], and likewise
    [runCmdsUsingCmdState], return after the final reply: they make no move
    of a document and no [DeleteMessage] call, the Completed folder is
    untouched, and the document is in the Current folder. *)
Theorem reboot_leaves_document_in_current cancelFlag docState w :
  PayloadDocumentStatus (payloadDoc p cancelFlag docState w) = ResultStatusSuccessAndReboot →
  leftInCurrent p cancelFlag docState w (processSendCommandMessage K p cancelFlag docState w).2
  ∧ leftInCurrent p cancelFlag docState w (runCmdsUsingCmdState K p cancelFlag docState w).2.
Proof.
  intros Hst. split.
  - by apply reboot_leftInCurrent.
  - rewrite (runCmdsUsingCmdState_eq cancelFlag docState).
    by apply reboot_leftInCurrent.
Qed.

Lemma isUpdatePlugin_hasUpdatePlugin d :
  isUpdatePlugin K d = true ↔ hasUpdatePlugin K d.
Proof.
  unfold isUpdatePlugin, hasUpdatePlugin.
  induction (InstancePluginsInformation d) as [|x l IH]; simpl.
  - split; [done|]. intros (? & Hin & _). by apply elem_of_nil in Hin.
  - destruct (bool_decide (Name x = PluginEC2ConfigUpdate K)) eqn:H1;
      [|destruct (bool_decide (Name x = PluginNameAwsAgentUpdate K)) eqn:H2]; simpl.
    + apply bool_decide_eq_true_1 in H1. split; [|done].
      intros _. exists x. split; [by left | by left].
    + apply bool_decide_eq_true_1 in H2. split; [|done].
      intros _. exists x. split; [by left | by right].
    + apply bool_decide_eq_false_1 in H1, H2. rewrite IH. split.
      * intros (y & Hin & Hy). exists y. split; [by right | done].
      * intros (y & Hin & Hy). apply elem_of_cons in Hin as [->|Hin].
        -- by destruct Hy.
        -- by exists y.
Qed.

Lemma deleteMessage_in_commonCalls cancelFlag docState w messageID :
  CallDeleteMessage messageID ∉ commonCalls p cancelFlag docState w.
Proof.
  unfold commonCalls, responseEvents. intros Hin.
  apply elem_of_cons in Hin as [?|Hin]; [done|].
  apply elem_of_app in Hin as [Hin|Hin].
  - apply list_elem_of_fmap in Hin as (? & ? & _). done.
  - apply elem_of_cons in Hin as [?|Hin]; [done|].
    apply elem_of_cons in Hin as [?|Hin]; [done|].
    by apply elem_of_nil in Hin.
Qed.

(** C6. When the reply built from the plugin outputs has a status other
    than SuccessAndReboot, [processSendCommandMessage] moves the document
    from the Current folder to the Completed folder, and calls
    [DeleteMessage], on the document's message, if and only if no plugin
    of the document read back from the Current folder is an update-self
    plugin. *)
Theorem completion_moves_and_deletes_unless_update cancelFlag docState w :
  PayloadDocumentStatus (payloadDoc p cancelFlag docState w) ≠ ResultStatusSuccessAndReboot →
  ∃ new,
    trace (processSendCommandMessage K p cancelFlag docState w).2 = trace w ++ new
    ∧ CallMove (DocumentID (finalInfo p cancelFlag docState w))
        (InstanceID (finalInfo p cancelFlag docState w))
        DefaultLocationOfCurrent DefaultLocationOfCompleted ∈ new
    ∧ current (store (processSendCommandMessage K p cancelFlag docState w).2)
        !! (InstanceID (finalInfo p cancelFlag docState w),
            DocumentID (finalInfo p cancelFlag docState w)) = None
    ∧ (∃ d, completed (store (processSendCommandMessage K p cancelFlag docState w).2)
              !! (InstanceID (finalInfo p cancelFlag docState w),
                  DocumentID (finalInfo p cancelFlag docState w)) = Some d
            ∧ DocumentInformation d = finalInfo p cancelFlag docState w)
    ∧ (CallDeleteMessage (MessageID (finalInfo p cancelFlag docState w)) ∈ new
       ↔ ¬ hasUpdatePlugin K (readBack p cancelFlag docState w))
    ∧ (∀ messageID, CallDeleteMessage messageID ∈ new →
         messageID = MessageID (finalInfo p cancelFlag docState w)).
Proof.
  intros Hst.
  destruct (processSendCommandMessage_completes cancelFlag docState w Hst) as [Htr Hstore].
  eexists. split; [exact Htr|].
  rewrite Hstore.
  destruct (PersistDocumentInfo_lookup (runnerStore (pluginRun p cancelFlag docState w))
              (finalInfo p cancelFlag docState w)
              (DocumentID (finalInfo p cancelFlag docState w))
              (InstanceID (finalInfo p cancelFlag docState w))
              DefaultLocationOfCurrent) as (d & Hd & Hinfo).
  destruct (MoveDocumentState_present _ _ _ DefaultLocationOfCurrent
              DefaultLocationOfCompleted d ltac:(done) Hd) as [Hcur Hcomp].
  split_and!.
  - apply elem_of_app. right. left.
  - exact Hcur.
  - exists d. by split.
  - rewrite <- isUpdatePlugin_hasUpdatePlugin.
    destruct (isUpdatePlugin K (readBack p cancelFlag docState w)) eqn:Hup.
    + split; [|done]. intros Hin.
      apply elem_of_app in Hin as [Hin|Hin].
      * by apply deleteMessage_in_commonCalls in Hin.
      * apply elem_of_cons in Hin as [?|Hin]; [done|]. by apply elem_of_nil in Hin.
    + split; [done|]. intros _.
      apply elem_of_app. right. right. left.
  - intros messageID Hin.
    apply elem_of_app in Hin as [Hin|Hin].
    + by apply deleteMessage_in_commonCalls in Hin.
    + apply elem_of_cons in Hin as [?|Hin]; [done|].
      destruct (isUpdatePlugin K (readBack p cancelFlag docState w)).
      * by apply elem_of_nil in Hin.
      * unfold deleteCalls in Hin.
        apply elem_of_cons in Hin as [Heq|Hin]; [congruence|].
        destruct (DeleteMessage (service p) _).
        -- apply elem_of_cons in Hin as [?|Hin]; [done|]. by apply elem_of_nil in Hin.
        -- by apply elem_of_nil in Hin.
Qed.

Lemma responseEvents_no_run (r : RunnerResult) :
  forallb (λ e, negb (isRunPlugins e)) (responseEvents r) = true.
Proof.
  unfold responseEvents. induction (runnerResponses r) as [|x l IH]; simpl; auto.
Qed.

Lemma loadPluginConfigurations_lookup (plugins : gmap string PluginState)
    (commandID pluginName : string) :
  loadPluginConfigurations plugins commandID !! pluginName
  = plugins !! pluginName ≫=
      (λ pluginConfig, if HasExecuted pluginConfig then None
                       else Some (PluginConfiguration pluginConfig)).
Proof.
  unfold loadPluginConfigurations.
  apply (map_fold_weak_ind (λ configs m,
    configs !! pluginName
    = m !! pluginName ≫=
        (λ pluginConfig, if HasExecuted pluginConfig then None
                         else Some (PluginConfiguration pluginConfig)))).
  - by rewrite !lookup_empty.
  - intros i x m r Hi IH.
    destruct (decide (i = pluginName)) as [->|Hne].
    + rewrite lookup_insert_eq. simpl. rewrite Hi in IH. simpl in IH.
      destruct (HasExecuted x); [done | by rewrite lookup_insert_eq].
    + rewrite (lookup_insert_ne m) by done.
      destruct (HasExecuted x); [done | by rewrite lookup_insert_ne].
Qed.

(** C2, as amended. [processSendCommandMessage] runs the plugin runner
    once, on the whole of the document's [InstancePluginsInformation], the
    executed plugins with the others, each with its [HasExecuted] flag. The
    selection of the plugins whose flag is false is what
    [loadPluginConfigurations] computes: it returns the configuration of
    exactly those. *)
Theorem runner_receives_every_plugin_state cancelFlag docState w :
  (∃ rest,
     trace (processSendCommandMessage K p cancelFlag docState w).2
     = trace w ++ CallRunPlugins (MessageID (DocumentInformation docState))
                    (InstancePluginsInformation docState) cancelFlag :: rest
     ∧ forallb (λ e, negb (isRunPlugins e)) rest = true)
  ∧ ∀ (plugins : gmap string PluginState) (commandID pluginName : string)
      (config : Configuration),
      loadPluginConfigurations plugins commandID !! pluginName = Some config
      ↔ ∃ pluginConfig, plugins !! pluginName = Some pluginConfig
          ∧ HasExecuted pluginConfig = false
          ∧ PluginConfiguration pluginConfig = config.
Proof.
  split.
  - destruct (decide (PayloadDocumentStatus (payloadDoc p cancelFlag docState w)
                      = ResultStatusSuccessAndReboot)) as [Hst|Hst].
    + destruct (processSendCommandMessage_reboot cancelFlag docState w Hst) as [-> _].
      unfold commonCalls. eexists. split; [done|].
      rewrite forallb_app, responseEvents_no_run. done.
    + destruct (processSendCommandMessage_completes cancelFlag docState w Hst) as [-> _].
      unfold commonCalls. rewrite <- app_comm_cons. eexists. split; [done|].
      rewrite !forallb_app, responseEvents_no_run. cbn.
      destruct (isUpdatePlugin K _); [done|].
      unfold deleteCalls. by destruct (DeleteMessage (service p) _).
  - intros plugins commandID pluginName config.
    rewrite loadPluginConfigurations_lookup.
    destruct (plugins !! pluginName) as [pluginConfig|] eqn:Hl; simpl.
    + destruct (HasExecuted pluginConfig) eqn:He; split.
      * done.
      * intros (? & [= <-] & ? & ?). congruence.
      * intros [= <-]. by exists pluginConfig.
      * intros (? & [= <-] & ? & ?). congruence.
    + split; [done|]. by intros (? & ? & _).
Qed.

(** C5. [processCancelCommandMessage] sets the status Failed and a debug
    information that contains [couldn't be cancelled] when the job to
    cancel is not in the send command pool, and the status Success and the
    debug information [Command <CancelCommandID> cancelled] when it is; in
    both cases it persists the state in the Current folder, moves it to
    the Completed folder and calls [DeleteMessage]. *)
Theorem cancel_records_outcome_and_completes docState w :
  match sendCommandPool w !! CancelMessageID (CancelInformation docState) with
  | None =>
      DocumentStatus (DocumentInformation (processCancelCommandMessage p docState w).1)
        = ResultStatusFailed
      ∧ Contains (DebugInfo (CancelInformation (processCancelCommandMessage p docState w).1))
          "couldn't be cancelled" = true
  | Some _ =>
      DocumentStatus (DocumentInformation (processCancelCommandMessage p docState w).1)
        = ResultStatusSuccess
      ∧ DebugInfo (CancelInformation (processCancelCommandMessage p docState w).1)
        = "Command " +:+ CancelCommandID (CancelInformation docState) +:+ " cancelled"
  end
  ∧ trace (processCancelCommandMessage p docState w).2
    = trace w ++
      [CallCancel (CancelMessageID (CancelInformation docState));
       CallPersist (DocumentID (DocumentInformation docState))
         (InstanceID (DocumentInformation docState)) DefaultLocationOfCurrent;
       CallMove (DocumentID (DocumentInformation docState))
         (InstanceID (DocumentInformation docState))
         DefaultLocationOfCurrent DefaultLocationOfCompleted]
      ++ deleteCalls p (MessageID (DocumentInformation docState))
  ∧ current (store (processCancelCommandMessage p docState w).2)
      !! (InstanceID (DocumentInformation docState),
          DocumentID (DocumentInformation docState)) = None
  ∧ completed (store (processCancelCommandMessage p docState w).2)
      !! (InstanceID (DocumentInformation docState),
          DocumentID (DocumentInformation docState))
    = Some (processCancelCommandMessage p docState w).1.
Proof.
  unfold processCancelCommandMessage, cancel, persistData, moveDocumentState,
    deleteMessage, handleAwsError, emit, mbind, M_bind, mret, M_ret, Cancel, deleteCalls.
  destruct (sendCommandPool w !! CancelMessageID (CancelInformation docState))
    as [[job flag]|] eqn:Hpool;
    cbn -[PersistData MoveDocumentState Contains];
    destruct (DeleteMessage (service p) (MessageID (DocumentInformation docState))) eqn:Hdel;
    cbn -[PersistData MoveDocumentState Contains];
    split_and!.
  all: try done.
  all: try (rewrite <- !app_assoc; done).
  all: try apply move_after_persist.
  all: do 2 apply Contains_append_r; reflexivity.
Qed.

Ltac run_message :=
  unfold processor.processMessage, processMessage_accepted, p_persistData,
    ExecutePendingDocument, failMessage, acknowledgeMessage, persistData,
    sendDocLevelResponse, handleAwsError, emit, mbind, M_bind, mret, M_ret, failCalls;
  cbn -[PersistData MoveDocumentState].

(** C3, as amended. For a valid message: when the topic does not have the
    send command prefix, and the cancel command parser fails or the topic
    does not have the cancel command prefix either (the error is then
    [unexpected topic name] followed by the topic), [processMessage] calls
    [FailMessage] with the message id and [InternalHandlerException], and
    returns with the store and the pools as they were. When the topic has
    the send command prefix and the send command parser fails,
    [processMessage] calls no [FailMessage]: it sends a document level
    response with the status Failed and the error, and returns with the
    store and the pools as they were. *)
Theorem parse_failure_is_reported_and_nothing_persisted msg w :
  validate msg = None →
  (∀ err,
     HasPrefix (Topic msg) (SendCommandTopicPrefix K) = false →
     HasPrefix (Topic msg) (CancelCommandTopicPrefix K) = true →
     loadDocStateFromCancelCommand msg (orchestrationRootDir p) = ParseError err →
     (processMessage msg w).2 = withTrace w (trace w ++ failCalls p msg err))
  ∧ (HasPrefix (Topic msg) (SendCommandTopicPrefix K) = false →
     HasPrefix (Topic msg) (CancelCommandTopicPrefix K) = false →
     (processMessage msg w).2
     = withTrace w (trace w ++ failCalls p msg ("unexpected topic name " +:+ Topic msg)))
  ∧ (∀ err,
     HasPrefix (Topic msg) (SendCommandTopicPrefix K) = true →
     loadDocStateFromSendCommand msg (orchestrationRootDir p) = ParseError err →
     (processMessage msg w).2
     = withTrace w (trace w ++ [LogError err;
                                CallSendDocLevelResponse (MessageId msg) ResultStatusFailed err])).
Proof.
  intros Hvalid. split_and!.
  - intros err Hsend Hcancel Hload. run_message.
    rewrite Hvalid, Hsend, Hcancel, Hload. cbn.
    destruct (FailMessage (service p) _ _); cbn; unfold withTrace; cbn;
      by rewrite <- !app_assoc.
  - intros Hsend Hcancel. run_message.
    rewrite Hvalid, Hsend, Hcancel. cbn.
    destruct (FailMessage (service p) _ _); cbn; unfold withTrace; cbn;
      by rewrite <- !app_assoc.
  - intros err Hsend Hload. run_message.
    rewrite Hvalid, Hsend, Hload. cbn. unfold withTrace; cbn.
    by rewrite <- !app_assoc.
Qed.

(** C9. For a valid message that parses to a document state, if
    [AcknowledgeMessage] answers with an error, [processMessage] has
    persisted the state in the Pending folder, called [AcknowledgeMessage]
    and handled the error, and nothing else: no document level response,
    no move to the Current folder, no submission to a pool; the document
    is in the Pending folder. *)
Theorem acknowledge_failure_leaves_document_pending msg docState e w :
  validate msg = None →
  (HasPrefix (Topic msg) (SendCommandTopicPrefix K) = true
   ∧ loadDocStateFromSendCommand msg (orchestrationRootDir p) = ParseOk docState)
  ∨ (HasPrefix (Topic msg) (SendCommandTopicPrefix K) = false
     ∧ HasPrefix (Topic msg) (CancelCommandTopicPrefix K) = true
     ∧ loadDocStateFromCancelCommand msg (orchestrationRootDir p) = ParseOk docState) →
  AcknowledgeMessage (service p) (MessageId msg) = Some e →
  trace (processMessage msg w).2
  = trace w ++
    [CallPersist (DocumentID (DocumentInformation docState))
       (InstanceID (DocumentInformation docState)) DefaultLocationOfPending;
     CallAcknowledgeMessage (MessageId msg);
     CallHandleAwsError e]
  ∧ pending (store (processMessage msg w).2)
      !! (InstanceID (DocumentInformation docState),
          DocumentID (DocumentInformation docState)) = Some docState
  ∧ current (store (processMessage msg w).2) = current (store w)
  ∧ completed (store (processMessage msg w).2) = completed (store w)
  ∧ sendCommandPool (processMessage msg w).2 = sendCommandPool w
  ∧ cancelCommandPool (processMessage msg w).2 = cancelCommandPool w.
Proof.
  intros Hvalid Hparsed Hack. run_message. rewrite Hvalid.
  destruct Hparsed as [[Hsend Hload] | (Hsend & Hcancel & Hload)].
  - rewrite Hsend, Hload. cbn -[PersistData]. rewrite Hack. cbn -[PersistData].
    split_and!; try done.
    + by rewrite <- !app_assoc.
    + apply (PersistData_lookup _ _ _ DefaultLocationOfPending).
  - rewrite Hsend, Hcancel, Hload. cbn -[PersistData]. rewrite Hack. cbn -[PersistData].
    split_and!; try done.
    + by rewrite <- !app_assoc.
    + apply (PersistData_lookup _ _ _ DefaultLocationOfPending).
Qed.

End WithProcessor.

(** *** The theorems at the fixtures *)

(** The runner reports a reboot request: the document stays in the
    Current folder. *)
Lemma reboot_leaves_document_in_current_witness :
  leftInCurrent (fixtureProcessor ResultStatusSuccessAndReboot None None) Running
    (fixtureSendDocument [fixturePlugin "aws:runPowerShellScript" false])
    (fixtureWorld (fixtureSendDocument [fixturePlugin "aws:runPowerShellScript" false]))
    (processSendCommandMessage specConstants
       (fixtureProcessor ResultStatusSuccessAndReboot None None) Running
       (fixtureSendDocument [fixturePlugin "aws:runPowerShellScript" false])
       (fixtureWorld (fixtureSendDocument [fixturePlugin "aws:runPowerShellScript" false]))).2
  ∧ leftInCurrent (fixtureProcessor ResultStatusSuccessAndReboot None None) Running
    (fixtureSendDocument [fixturePlugin "aws:runPowerShellScript" false])
    (fixtureWorld (fixtureSendDocument [fixturePlugin "aws:runPowerShellScript" false]))
    (runCmdsUsingCmdState specConstants
       (fixtureProcessor ResultStatusSuccessAndReboot None None) Running
       (fixtureSendDocument [fixturePlugin "aws:runPowerShellScript" false])
       (fixtureWorld (fixtureSendDocument [fixturePlugin "aws:runPowerShellScript" false]))).2.
Proof.
  apply (reboot_leaves_document_in_current specConstants
           (fixtureProcessor ResultStatusSuccessAndReboot None None) Running
           (fixtureSendDocument [fixturePlugin "aws:runPowerShellScript" false])
           (fixtureWorld (fixtureSendDocument [fixturePlugin "aws:runPowerShellScript" false]))).
  vm_compute. reflexivity.
Defined.

(** The runner reports success on a document without update-self plugin:
    the document leaves the Current folder for the Completed folder and
    the message is deleted. *)
Lemma completion_moves_and_deletes_unless_update_witness :
  ∃ new,
    trace (processSendCommandMessage specConstants
             (fixtureProcessor ResultStatusSuccess None None) Running
             (fixtureSendDocument [fixturePlugin "aws:runPowerShellScript" false])
             (fixtureWorld (fixtureSendDocument [fixturePlugin "aws:runPowerShellScript" false]))).2
    = new
    ∧ CallMove "doc-1" "i-1" DefaultLocationOfCurrent DefaultLocationOfCompleted ∈ new
    ∧ CallDeleteMessage "aws.ssm.cmd-1.i-1" ∈ new.
Proof.
  destruct (completion_moves_and_deletes_unless_update specConstants
              (fixtureProcessor ResultStatusSuccess None None) Running
              (fixtureSendDocument [fixturePlugin "aws:runPowerShellScript" false])
              (fixtureWorld (fixtureSendDocument [fixturePlugin "aws:runPowerShellScript" false])))
    as (new & Htr & Hmove & _ & _ & Hdel & _).
  - vm_compute. discriminate.
  - exists new. split; [exact Htr|]. split; [exact Hmove|].
    apply Hdel. intros (pluginState & Hin & Hname).
    apply list_elem_of_singleton in Hin. subst pluginState.
    destruct Hname as [Hname|Hname]; vm_compute in Hname; discriminate.
Defined.

(** C2, the claim as stated fails: a plugin whose [HasExecuted] flag is
    true, in the document that [processSendCommandMessage] is given, is
    among the plugins that the plugin runner is called with. *)
Lemma executed_plugin_is_handed_to_runner :
  ∃ messageID plugins cancelFlag pluginState,
    CallRunPlugins messageID plugins cancelFlag
      ∈ trace (processSendCommandMessage specConstants
                 (fixtureProcessor ResultStatusSuccess None None) Running
                 (fixtureSendDocument [fixturePlugin "aws:runPowerShellScript" true])
                 (fixtureWorld (fixtureSendDocument [fixturePlugin "aws:runPowerShellScript" true]))).2
    ∧ pluginState ∈ plugins
    ∧ HasExecuted pluginState = true.
Proof.
  exists "aws.ssm.cmd-1.i-1", [fixturePlugin "aws:runPowerShellScript" true], Running,
    (fixturePlugin "aws:runPowerShellScript" true).
  split_and!; [|by left|reflexivity].
  rewrite (proj1 (processSendCommandMessage_completes specConstants
                    (fixtureProcessor ResultStatusSuccess None None) Running
                    (fixtureSendDocument [fixturePlugin "aws:runPowerShellScript" true])
                    (fixtureWorld (fixtureSendDocument [fixturePlugin "aws:runPowerShellScript" true]))
                    ltac:(vm_compute; discriminate))).
  apply elem_of_app. right. apply elem_of_app. left. by left.
Qed.

(** C3, the claim as stated fails: for a valid message with the send
    command prefix whose parsing fails, [processMessage] calls no
    [FailMessage]; the calls it makes are the logging of the error and a
    document level response with the status Failed. *)
Lemma send_parse_failure_calls_no_FailMessage :
  validate (fixtureMessage "aws.ssm.sendCommand.i-1") = None
  ∧ failingLoader (fixtureMessage "aws.ssm.sendCommand.i-1") "orchestration"
    = ParseError "invalid payload"
  ∧ trace (processMessage specConstants failingLoader failingLoader
             (fixtureProcessor ResultStatusSuccess None None)
             (fixtureMessage "aws.ssm.sendCommand.i-1") emptyWorld).2
    = [LogError "invalid payload";
       CallSendDocLevelResponse "aws.ssm.cmd-1.i-1" ResultStatusFailed "invalid payload"]
  ∧ existsb isFailMessage
      (trace (processMessage specConstants failingLoader failingLoader
                (fixtureProcessor ResultStatusSuccess None None)
                (fixtureMessage "aws.ssm.sendCommand.i-1") emptyWorld).2) = false.
Proof. split_and!; vm_compute; reflexivity. Qed.

(** The cancel of a job that the send command pool does not have: the
    cancel document ends Failed, in the Completed folder, and its message
    is deleted. *)
Example cancel_of_unknown_job :
  DocumentStatus (DocumentInformation
    (processCancelCommandMessage (fixtureProcessor ResultStatusSuccess None None)
       fixtureCancelDocument emptyWorld).1) = ResultStatusFailed
  ∧ DebugInfo (CancelInformation
      (processCancelCommandMessage (fixtureProcessor ResultStatusSuccess None None)
         fixtureCancelDocument emptyWorld).1) = "Command cmd-1 couldn't be cancelled"
  ∧ trace (processCancelCommandMessage (fixtureProcessor ResultStatusSuccess None None)
             fixtureCancelDocument emptyWorld).2
    = [CallCancel "aws.ssm.cmd-1.i-1";
       CallPersist "doc-2" "i-1" DefaultLocationOfCurrent;
       CallMove "doc-2" "i-1" DefaultLocationOfCurrent DefaultLocationOfCompleted;
       CallDeleteMessage "aws.ssm.cancel-1.i-1"].
Proof. split_and!; vm_compute; reflexivity. Qed.

(** A valid message on an unknown topic is failed on the service. *)
Lemma parse_failure_is_reported_and_nothing_persisted_witness :
  (processMessage specConstants failingLoader failingLoader
     (fixtureProcessor ResultStatusSuccess None None)
     (fixtureMessage "aws.ssm.unknown.i-1") emptyWorld).2
  = withTrace emptyWorld
      [LogError "format of received message is invalid unexpected topic name aws.ssm.unknown.i-1";
       CallFailMessage "aws.ssm.cmd-1.i-1" InternalHandlerException].
Proof.
  rewrite (proj1 (proj2 (parse_failure_is_reported_and_nothing_persisted
                           specConstants failingLoader failingLoader
                           (fixtureProcessor ResultStatusSuccess None None)
                           (fixtureMessage "aws.ssm.unknown.i-1") emptyWorld eq_refl))
             eq_refl eq_refl).
  reflexivity.
Defined.

(** The acknowledgement of a send command fails: the document is in the
    Pending folder and nothing was submitted. *)
Lemma acknowledge_failure_leaves_document_pending_witness :
  trace (processMessage specConstants
           (fixtureLoader (fixtureSendDocument [fixturePlugin "aws:runPowerShellScript" false]))
           failingLoader
           (fixtureProcessor ResultStatusSuccess (Some "ThrottlingException") None)
           (fixtureMessage "aws.ssm.sendCommand.i-1") emptyWorld).2
  = [CallPersist "doc-1" "i-1" DefaultLocationOfPending;
     CallAcknowledgeMessage "aws.ssm.cmd-1.i-1";
     CallHandleAwsError "ThrottlingException"].
Proof.
  apply (acknowledge_failure_leaves_document_pending specConstants
           (fixtureLoader (fixtureSendDocument [fixturePlugin "aws:runPowerShellScript" false]))
           failingLoader
           (fixtureProcessor ResultStatusSuccess (Some "ThrottlingException") None)
           (fixtureMessage "aws.ssm.sendCommand.i-1")
           (fixtureSendDocument [fixturePlugin "aws:runPowerShellScript" false])
           "ThrottlingException" emptyWorld).
  - reflexivity.
  - left. split; reflexivity.
  - reflexivity.
Defined.

End processor_properties.

(** ** The package configuration engine *)

Module configurepackage_properties.
Import configurepackage.

(** *** String predicates, in terms of the shape of the string *)

Lemma prefix_iff (p s : string) :
  String.prefix p s = true ↔ ∃ post, s = p +:+ post.
Proof.
  revert s. induction p as [|c p IH]; intros s.
  - split; [|by destruct s]. intros _. by exists s.
  - destruct s as [|a s]; simpl.
    + split; [done|]. by intros [post Hpost].
    + destruct (ascii_dec c a) as [->|Hne].
      * rewrite IH. split; intros [post Hpost]; exists post.
        -- by rewrite append_String_l, <- Hpost.
        -- rewrite append_String_l in Hpost. congruence.
      * split; [done|]. intros [post Hpost].
        rewrite append_String_l in Hpost. congruence.
Qed.

Lemma Contains_iff (s sub : string) :
  Contains s sub = true ↔ ∃ pre post, s = pre +:+ sub +:+ post.
Proof.
  split.
  - induction s as [|c s IH]; cbn [Contains]; intros H.
    + rewrite orb_false_r in H. apply prefix_iff in H as [post ->].
      by exists EmptyString, post.
    + apply orb_true_iff in H as [H|H].
      * apply prefix_iff in H as [post ->]. by exists EmptyString, post.
      * destruct (IH H) as (pre & post & ->). by exists (String c pre), post.
  - intros (pre & post & ->). apply Contains_app.
Qed.

Lemma HasSuffix_iff (s suf : string) :
  HasSuffix s suf = true ↔ ∃ pre, s = pre +:+ suf.
Proof.
  split.
  - induction s as [|c s IH]; cbn [HasSuffix]; intros H.
    + rewrite orb_false_r in H. apply String.eqb_eq in H as <-. by exists EmptyString.
    + apply orb_true_iff in H as [H|H].
      * apply String.eqb_eq in H as <-. by exists EmptyString.
      * destruct (IH H) as (pre & ->). by exists (String c pre).
  - intros (pre & ->). induction pre as [|c pre IH].
    + rewrite append_empty_l. destruct suf; cbn [HasSuffix]; by rewrite String.eqb_refl.
    + rewrite append_String_l. cbn [HasSuffix]. rewrite IH. apply orb_true_r.
Qed.

(** A digit, a dot and a dash are not in the class of the first character. *)
Lemma bad_start_not_isNameStart (c : ascii) :
  isDigit c = true ∨ c = "."%char ∨ c = "-"%char → isNameStart c = false.
Proof.
  intros [H|[->| ->]]; [|done..].
  unfold isNameStart, isDigit, isUpper, isLower in *.
  apply andb_true_iff in H as [H1 H2].
  apply N.leb_le in H1, H2.
  destruct (Ascii.eqb_spec c "_") as [->|_]; [vm_compute in H2; done|].
  rewrite !orb_false_r.
  apply orb_false_iff. split; apply andb_false_iff.
  - left. apply N.leb_gt. lia.
  - left. apply N.leb_gt. lia.
Qed.

Lemma validName_false_of_shape (s : string) :
  startsBadly s ∨ endsInDotOrDash s ∨ hasDoubleDot s → validName s = false.
Proof.
  unfold validName. intros [(c & rest & -> & Hc)|[(pre & Hend)|Hdots]].
  - cbn [matchesNamePattern]. by rewrite (bad_start_not_isNameStart c Hc).
  - assert (HasSuffix s "." || HasSuffix s "-" = true) as ->.
    { apply orb_true_iff. destruct Hend as [->| ->]; [left|right];
        apply HasSuffix_iff; by eexists. }
    cbn [negb]. by rewrite andb_false_r.
  - assert (Contains s ".." = true) as -> by by apply Contains_iff.
    cbn [negb]. by rewrite andb_false_r.
Qed.

Lemma validName_true_of_shape (c : ascii) (rest : string) :
  isNameStart c = true → allNameChars rest = true →
  ¬ endsInDotOrDash (String c rest) → ¬ hasDoubleDot (String c rest) →
  validName (String c rest) = true.
Proof.
  intros Hc Hrest Hend Hdots. unfold validName.
  cbn [matchesNamePattern startsWithLetterOrUnderscore]. rewrite Hc, Hrest.
  cbn [andb].
  destruct (HasSuffix (String c rest) ".") eqn:H1.
  { destruct Hend. apply HasSuffix_iff in H1 as [pre ->]. exists pre. by left. }
  destruct (HasSuffix (String c rest) "-") eqn:H2.
  { destruct Hend. apply HasSuffix_iff in H2 as [pre ->]. exists pre. by right. }
  destruct (Contains (String c rest) "..") eqn:H3.
  { destruct Hdots. by apply Contains_iff. }
  done.
Qed.

Lemma not_endsInDotOrDash (s : string) :
  HasSuffix s "." = false → HasSuffix s "-" = false → ¬ endsInDotOrDash s.
Proof.
  intros H1 H2 (pre & [->| ->]).
  - rewrite (proj2 (HasSuffix_iff _ _)) in H1; [done | by eexists].
  - rewrite (proj2 (HasSuffix_iff _ _)) in H2; [done | by eexists].
Qed.

Lemma not_hasDoubleDot (s : string) : Contains s ".." = false → ¬ hasDoubleDot s.
Proof. intros H Hdots. apply Contains_iff in Hdots. congruence. Qed.

(** C7. On an input without source, [validateInput] rejects an empty name
    with an error that contains [empty name field]; it rejects, with an
    error that contains [invalid name], every name that starts with a
    digit, a dot or a dash, or ends in a dot or a dash, or contains two
    dots in a row; and it accepts, with an empty or well-formed version,
    every name that starts with a letter or underscore, is made of
    letters, digits, dots, underscores and dashes, does not end in a dot
    or a dash and has no two dots in a row. *)
Theorem validateInput_name_rules (input : ConfigurePackagePluginInput) :
  Source input = EmptyString →
  (Name input = EmptyString →
     ∃ err, validateInput input = (false, Some err)
            ∧ Contains err "empty name field" = true)
  ∧ (startsBadly (Name input) ∨ endsInDotOrDash (Name input) ∨ hasDoubleDot (Name input) →
     ∃ err, validateInput input = (false, Some err)
            ∧ Contains err "invalid name" = true)
  ∧ (∀ c rest,
       Name input = String c rest →
       isNameStart c = true → allNameChars rest = true →
       ¬ endsInDotOrDash (Name input) → ¬ hasDoubleDot (Name input) →
       Version input = EmptyString ∨ matchesVersionPattern (Version input) = true →
       validateInput input = (true, None)).
Proof.
  intros Hsource. unfold validateInput. rewrite Hsource. cbn [String.eqb negb].
  split_and!.
  - intros ->. cbn [String.eqb]. by eexists.
  - intros Hshape.
    assert (Name input ≠ EmptyString) as Hne.
    { destruct Hshape as [(c & rest & -> & _)|[(pre & [->| ->])|(pre & post & ->)]];
        [done|by destruct pre..]. }
    apply String.eqb_neq in Hne. rewrite Hne.
    rewrite (validName_false_of_shape _ Hshape). cbn [negb]. by eexists.
  - intros c rest Hname Hc Hrest Hend Hdots Hversion.
    rewrite Hname in *. cbn [String.eqb].
    rewrite (validName_true_of_shape c rest Hc Hrest Hend Hdots). cbn [negb].
    destruct Hversion as [->| ->]; [done|].
    cbn [negb]. by rewrite andb_false_r.
Qed.

(** C10. [validateInput] does not look at the action: on an input with a
    valid name, a well-formed version and no source it answers with
    success and no error, whatever the action. *)
Theorem validateInput_does_not_check_action (name version action : string) :
  validName name = true →
  matchesVersionPattern version = true →
  validateInput {| Name := name; Version := version; Action := action;
                   Source := EmptyString |} = (true, None).
Proof.
  intros Hname Hversion. unfold validateInput. cbn [Source Name Version String.eqb negb].
  destruct (String.eqb name EmptyString) eqn:Hempty.
  { apply String.eqb_eq in Hempty as ->. done. }
  rewrite Hname, Hversion. cbn [negb]. by rewrite andb_false_r.
Qed.

(** C4. While a package is locked for an action, [lockPackage] on its
    name fails, for any action, and leaves the lock as it is; its error is
    the text [Package ], the name between double quotes,
    [ is already in the process of action ], the action in progress
    between double quotes (the double quote is the character of code 34,
    written by its code here). A second [Execute] on the package returns
    the exit code 1 with that text in [Stderr], and changes nothing; once
    [unlockPackage] has run, [lockPackage] on the name succeeds for any
    action. *)
Theorem package_lock_is_exclusive (m : configurePackageManager) (st : Engine)
    (input : ConfigurePackagePluginInput) (inProgress action : string) :
  locks st !! Name input = Some inProgress →
  validateInput input = (true, None) →
  lockPackage (locks st) (Name input) action
    = (Some ("Package " +:+ String "034" (Name input +:+ String "034"
               (" is already in the process of action "
                  +:+ String "034" (inProgress +:+ String "034" EmptyString)))),
       locks st)
  ∧ ExitCode (Execute m st input).1 = 1%Z
  ∧ Contains (Stderr (Execute m st input).1)
      ("Package " +:+ String "034" (Name input +:+ String "034"
         (" is already in the process of action "
            +:+ String "034" (inProgress +:+ String "034" EmptyString)))) = true
  ∧ (Execute m st input).2 = st
  ∧ lockPackage (unlockPackage (locks st) (Name input)) (Name input) action
    = (None, <[Name input := action]> (unlockPackage (locks st) (Name input))).
Proof.
  intros Hlocked Hvalid.
  unfold Execute, runConfigurePackage, acquire, lockPackage, unlockPackage.
  rewrite Hvalid, Hlocked, lookup_delete_eq. cbn.
  split_and!; try done.
  apply Contains_append_r, Contains_append_r, Contains_here, prefix_refl.
Qed.

(** C8. On an upgrade (another version than the target one is installed)
    whose uninstall-pre phase answers SuccessAndReboot, [Execute] has
    resolved the versions, set the marker and run the uninstall-pre phase
    of the installed version, and made no other call: no install, no
    uninstall-post, no clearing of the marker; the marker holds the target
    version; the exit code is 0 and the status SuccessAndReboot. *)
Theorem upgrade_stops_at_reboot_of_uninstall_pre (m : configurePackageManager)
    (st : Engine) (input : ConfigurePackagePluginInput) (version installedVersion : string) :
  validateInput input = (true, None) →
  Action input = "Install" →
  locks st !! Name input = None →
  getVersionToInstall m input = inl (version, installedVersion) →
  installedVersion ≠ EmptyString →
  version ≠ installedVersion →
  runUninstallPackagePre m (Name input) installedVersion
    = (ResultStatusSuccessAndReboot, None) →
  calls (Execute m st input).2
    = calls st ++ [getVersionToInstall_called (Name input);
                   setMark_called (Name input) version;
                   runUninstallPackagePre_called (Name input) installedVersion]
  ∧ markers (Execute m st input).2 !! Name input = Some version
  ∧ ExitCode (Execute m st input).1 = 0%Z
  ∧ Status (Execute m st input).1 = ResultStatusSuccessAndReboot.
Proof.
  intros Hvalid Haction Hfree Hversions Hinstalled Hupgrade Hpre.
  unfold Execute, runConfigurePackage, acquire, lockPackage, underLock, runInstall.
  rewrite Hvalid, Hfree, Haction. cbn -[String.eqb].
  rewrite Hversions.
  apply String.eqb_neq in Hinstalled, Hupgrade.
  rewrite Hupgrade. cbn -[String.eqb]. rewrite Hinstalled. cbn -[String.eqb].
  rewrite Hpre. cbn.
  split_and!; try done.
  - by rewrite <- !app_assoc.
  - apply lookup_insert_eq.
Qed.

(** *** The theorems at the inputs of the tests *)

Ltac bad_start := left; eexists _, _; split; [reflexivity | vm_compute; tauto].
Ltac bad_end_dot pre := right; left; exists pre; left; reflexivity.
Ltac bad_end_dash pre := right; left; exists pre; right; reflexivity.

(** The names of the tests: each invalid name is rejected, with an error
    that contains [invalid name]; the empty name is rejected with an error
    that contains [empty name field]; each valid name is accepted. *)
Lemma validateInput_name_rules_witness :
  Forall (λ name, ∃ err, validateInput (nameInput name) = (false, Some err)
                         ∧ Contains err "invalid name" = true) invalidNames
  ∧ (∃ err, validateInput (nameInput EmptyString) = (false, Some err)
            ∧ Contains err "empty name field" = true)
  ∧ Forall (λ name, validateInput (nameInput name) = (true, None)) validNames.
Proof.
  split; [|split]; cycle 2.
  { unfold validNames. repeat apply Forall_cons_2; [..|apply Forall_nil_2];
      (eapply (proj2 (proj2 (validateInput_name_rules (nameInput _) eq_refl)));
       [ reflexivity | reflexivity | reflexivity
       | apply not_endsInDotOrDash; reflexivity
       | apply not_hasDoubleDot; reflexivity
       | right; reflexivity ]). }
  - unfold invalidNames. repeat apply Forall_cons_2; [..|apply Forall_nil_2].
    + refine (proj1 (proj2 (validateInput_name_rules (nameInput _) eq_refl)) _);
      bad_start.
    + refine (proj1 (proj2 (validateInput_name_rules (nameInput _) eq_refl)) _);
      bad_start.
    + refine (proj1 (proj2 (validateInput_name_rules (nameInput _) eq_refl)) _);
      bad_start.
    + refine (proj1 (proj2 (validateInput_name_rules (nameInput _) eq_refl)) _);
      bad_start.
    + refine (proj1 (proj2 (validateInput_name_rules (nameInput _) eq_refl)) _);
      bad_end_dot "abc".
    + refine (proj1 (proj2 (validateInput_name_rules (nameInput _) eq_refl)) _);
      bad_end_dash "abc".
    + refine (proj1 (proj2 (validateInput_name_rules (nameInput _) eq_refl)) _);
      bad_start.
    + refine (proj1 (proj2 (validateInput_name_rules (nameInput _) eq_refl)) _);
      bad_start.
    + refine (proj1 (proj2 (validateInput_name_rules (nameInput _) eq_refl)) _);
      bad_start.
    + refine (proj1 (proj2 (validateInput_name_rules (nameInput _) eq_refl)) _);
      right; right; exists "abc", "def"; reflexivity.
  - exact (proj1 (validateInput_name_rules (nameInput EmptyString) eq_refl) eq_refl).
Defined.

(** [TestRunParallelSamePackage], step by step: the first install takes
    the lock and waits; the second is refused; the first then runs to its
    end, succeeds and releases the lock. *)
Example parallel_same_package :
  acquire emptyEngine createStubPluginInputInstall = inr lockedEngine
  ∧ ExitCode (runConfigurePackage
                (ConfigPackageSuccessMock "1.0.0" EmptyString ResultStatusSuccess
                   ResultStatusSuccess ResultStatusSuccess)
                lockedEngine createStubPluginInputInstall).1 = 1%Z
  ∧ ExitCode (underLock
                (ConfigPackageSuccessMock "Wait1.0.0" EmptyString ResultStatusSuccess
                   ResultStatusSuccess ResultStatusSuccess)
                lockedEngine createStubPluginInputInstall).1 = 0%Z
  ∧ locks (underLock
             (ConfigPackageSuccessMock "Wait1.0.0" EmptyString ResultStatusSuccess
                ResultStatusSuccess ResultStatusSuccess)
             lockedEngine createStubPluginInputInstall).2 !! "PVDriver" = None.
Proof. split_and!; vm_compute; reflexivity. Qed.

(** [TestValidateInput]: the action [InvalidAction] passes validation. *)
Lemma validateInput_does_not_check_action_witness :
  validateInput {| Name := "PVDriver"; Version := "1.0.0"; Action := "InvalidAction";
                   Source := EmptyString |} = (true, None).
Proof.
  apply (validateInput_does_not_check_action "PVDriver" "1.0.0" "InvalidAction");
    reflexivity.
Defined.

(** [TestRunParallelSamePackage]: the second install of [PVDriver], while
    the first holds the lock, fails with the exit code 1 and, in [Stderr],
    the text that the test looks for: [Package ], [PVDriver] between
    double quotes, [ is already in the process of action ], [Install]
    between double quotes; and a lock for the other action, [Uninstall],
    is refused with that text as well. *)
Lemma package_lock_is_exclusive_witness :
  lockPackage (locks lockedEngine) "PVDriver" "Uninstall"
    = (Some ("Package " +:+ String "034" ("PVDriver" +:+ String "034"
               (" is already in the process of action "
                  +:+ String "034" ("Install" +:+ String "034" EmptyString)))),
       locks lockedEngine)
  ∧ ExitCode (Execute (ConfigPackageSuccessMock "1.0.0" EmptyString ResultStatusSuccess
                       ResultStatusSuccess ResultStatusSuccess)
              lockedEngine createStubPluginInputInstall).1 = 1%Z
  ∧ Contains (Stderr (Execute (ConfigPackageSuccessMock "1.0.0" EmptyString ResultStatusSuccess
                                 ResultStatusSuccess ResultStatusSuccess)
                        lockedEngine createStubPluginInputInstall).1)
      ("Package " +:+ String "034" ("PVDriver" +:+ String "034"
         (" is already in the process of action "
            +:+ String "034" ("Install" +:+ String "034" EmptyString)))) = true.
Proof.
  destruct (package_lock_is_exclusive
              (ConfigPackageSuccessMock "1.0.0" EmptyString ResultStatusSuccess
                 ResultStatusSuccess ResultStatusSuccess)
              lockedEngine createStubPluginInputInstall "Install" "Uninstall")
    as (Hlock & Hcode & Hmsg & _).
  - reflexivity.
  - reflexivity.
  - split_and!; [exact Hlock | exact Hcode | exact Hmsg].
Defined.

(** [TestRunUpgradeUninstallReboot]: [PVDriver] at [0.5.6], install of
    [1.0.0], the uninstall-pre phase asks for a reboot. *)
Lemma upgrade_stops_at_reboot_of_uninstall_pre_witness :
  calls (Execute (ConfigPackageSuccessMock "1.0.0" "0.5.6" ResultStatusSuccess
                    ResultStatusSuccessAndReboot ResultStatusSuccess)
           emptyEngine createStubPluginInputInstall).2
    = [getVersionToInstall_called "PVDriver";
       setMark_called "PVDriver" "1.0.0";
       runUninstallPackagePre_called "PVDriver" "0.5.6"]
  ∧ markers (Execute (ConfigPackageSuccessMock "1.0.0" "0.5.6" ResultStatusSuccess
                        ResultStatusSuccessAndReboot ResultStatusSuccess)
               emptyEngine createStubPluginInputInstall).2 !! "PVDriver" = Some "1.0.0"
  ∧ ExitCode (Execute (ConfigPackageSuccessMock "1.0.0" "0.5.6" ResultStatusSuccess
                         ResultStatusSuccessAndReboot ResultStatusSuccess)
                emptyEngine createStubPluginInputInstall).1 = 0%Z
  ∧ Status (Execute (ConfigPackageSuccessMock "1.0.0" "0.5.6" ResultStatusSuccess
                       ResultStatusSuccessAndReboot ResultStatusSuccess)
              emptyEngine createStubPluginInputInstall).1 = ResultStatusSuccessAndReboot.
Proof.
  apply (upgrade_stops_at_reboot_of_uninstall_pre
           (ConfigPackageSuccessMock "1.0.0" "0.5.6" ResultStatusSuccess
              ResultStatusSuccessAndReboot ResultStatusSuccess)
           emptyEngine createStubPluginInputInstall "1.0.0" "0.5.6");
    first [reflexivity | discriminate].
Defined.

End configurepackage_properties.

(** ** More on the processor *)

Module processor_extra.
Import processor processor_properties.

Lemma newCalls_app (w w' : World) (l : list Event) :
  trace w' = trace w ++ l → newCalls w w' = l.
Proof. intros H. unfold newCalls. rewrite H. apply drop_app_length. Qed.

Ltac run_pending :=
  unfold ExecutePendingDocument, moveDocumentState, submit, Submit, emit,
    mbind, M_bind, mret, M_ret;
  cbn -[MoveDocumentState newCalls].

(** *** [ExecutePendingDocument] *)

(** X1. [ExecutePendingDocument], on a document that is in the Pending
    folder, of a send command type (or of a cancel command type), whose
    message id is not a key of the send command pool (of the cancel
    command pool): moves the document to the Current folder, and submits
    to that pool, under the message id, the job that processes it, its
    cancel flag not set. The other pool is left as it is, and the calls
    made are the move and the submission, in that order. *)
Theorem ExecutePendingDocument_submits (docState stored : DocumentState)
    (n : PoolName) (w : World) :
  (n = SendCommandPool
   ∧ (DocType docState = SendCommand ∨ DocType docState = SendCommandOffline))
  ∨ (n = CancelCommandPool
     ∧ (DocType docState = CancelCommand ∨ DocType docState = CancelCommandOffline)) →
  pending (store w) !! (InstanceID (DocumentInformation docState),
                        DocumentID (DocumentInformation docState)) = Some stored →
  poolOf w n !! MessageID (DocumentInformation docState) = None →
  pending (store (ExecutePendingDocument docState w).2)
    !! (InstanceID (DocumentInformation docState),
        DocumentID (DocumentInformation docState)) = None
  ∧ current (store (ExecutePendingDocument docState w).2)
      !! (InstanceID (DocumentInformation docState),
          DocumentID (DocumentInformation docState)) = Some stored
  ∧ poolOf (ExecutePendingDocument docState w).2 n
      !! MessageID (DocumentInformation docState)
    = Some (match n with
            | SendCommandPool => SendCommandJob docState
            | CancelCommandPool => CancelCommandJob docState
            end, Running)
  ∧ (∀ n', n' ≠ n → poolOf (ExecutePendingDocument docState w).2 n' = poolOf w n')
  ∧ newCalls w (ExecutePendingDocument docState w).2
    = [CallMove (DocumentID (DocumentInformation docState))
         (InstanceID (DocumentInformation docState))
         DefaultLocationOfPending DefaultLocationOfCurrent;
       CallSubmit n (MessageID (DocumentInformation docState))].
Proof.
  intros Hroute Hpending Hfree.
  destruct (MoveDocumentState_present (store w) _ _ DefaultLocationOfPending
              DefaultLocationOfCurrent stored ltac:(done) Hpending) as [Hp Hc].
  destruct Hroute as [[-> [Ht|Ht]]|[-> [Ht|Ht]]]; run_pending; rewrite Ht;
    cbn -[MoveDocumentState newCalls]; cbn in Hfree; rewrite Hfree; cbn -[MoveDocumentState newCalls];
    (split_and!;
     [ exact Hp | exact Hc | apply lookup_insert_eq
     | intros [] Hn; done
     | apply newCalls_app; cbn; by rewrite <- !app_assoc ]).
Qed.

(** X2. [ExecutePendingDocument], on a document whose message id is
    already a key of the pool of its type: the submission is refused and
    logged, both pools are left as they are (the job in place keeps its
    cancel flag), and the document has nevertheless been moved from the
    Pending folder to the Current folder. *)
Theorem ExecutePendingDocument_duplicate (docState stored : DocumentState)
    (n : PoolName) (inPool : Job * CancelFlag) (w : World) :
  (n = SendCommandPool
   ∧ (DocType docState = SendCommand ∨ DocType docState = SendCommandOffline))
  ∨ (n = CancelCommandPool
     ∧ (DocType docState = CancelCommand ∨ DocType docState = CancelCommandOffline)) →
  pending (store w) !! (InstanceID (DocumentInformation docState),
                        DocumentID (DocumentInformation docState)) = Some stored →
  poolOf w n !! MessageID (DocumentInformation docState) = Some inPool →
  sendCommandPool (ExecutePendingDocument docState w).2 = sendCommandPool w
  ∧ cancelCommandPool (ExecutePendingDocument docState w).2 = cancelCommandPool w
  ∧ pending (store (ExecutePendingDocument docState w).2)
      !! (InstanceID (DocumentInformation docState),
          DocumentID (DocumentInformation docState)) = None
  ∧ current (store (ExecutePendingDocument docState w).2)
      !! (InstanceID (DocumentInformation docState),
          DocumentID (DocumentInformation docState)) = Some stored
  ∧ ∃ msg, newCalls w (ExecutePendingDocument docState w).2
           = [CallMove (DocumentID (DocumentInformation docState))
                (InstanceID (DocumentInformation docState))
                DefaultLocationOfPending DefaultLocationOfCurrent;
              CallSubmit n (MessageID (DocumentInformation docState));
              LogError msg].
Proof.
  intros Hroute Hpending Htaken.
  destruct (MoveDocumentState_present (store w) _ _ DefaultLocationOfPending
              DefaultLocationOfCurrent stored ltac:(done) Hpending) as [Hp Hc].
  destruct w as [st tr sp cp].
  destruct Hroute as [[-> [Ht|Ht]]|[-> [Ht|Ht]]]; run_pending; rewrite Ht;
    cbn -[MoveDocumentState newCalls]; cbn in Htaken; rewrite Htaken; cbn -[MoveDocumentState newCalls];
    (split_and!;
     [ done | done | exact Hp | exact Hc
     | eexists; apply newCalls_app; cbn; by rewrite <- !app_assoc ]).
Qed.

(** X3. [ExecutePendingDocument], on a document whose type is none of the
    four command types: the document is moved from the Pending folder to
    the Current folder, the error [unexpected document type ] followed by
    the type is logged, and nothing is submitted: both pools are left as
    they are. *)
Theorem ExecutePendingDocument_unexpected_type (docState stored : DocumentState)
    (text : string) (w : World) :
  DocType docState = UnknownDocumentType text →
  pending (store w) !! (InstanceID (DocumentInformation docState),
                        DocumentID (DocumentInformation docState)) = Some stored →
  sendCommandPool (ExecutePendingDocument docState w).2 = sendCommandPool w
  ∧ cancelCommandPool (ExecutePendingDocument docState w).2 = cancelCommandPool w
  ∧ pending (store (ExecutePendingDocument docState w).2)
      !! (InstanceID (DocumentInformation docState),
          DocumentID (DocumentInformation docState)) = None
  ∧ current (store (ExecutePendingDocument docState w).2)
      !! (InstanceID (DocumentInformation docState),
          DocumentID (DocumentInformation docState)) = Some stored
  ∧ newCalls w (ExecutePendingDocument docState w).2
    = [CallMove (DocumentID (DocumentInformation docState))
         (InstanceID (DocumentInformation docState))
         DefaultLocationOfPending DefaultLocationOfCurrent;
       LogError ("unexpected document type " +:+ text)].
Proof.
  intros Ht Hpending.
  destruct (MoveDocumentState_present (store w) _ _ DefaultLocationOfPending
              DefaultLocationOfCurrent stored ltac:(done) Hpending) as [Hp Hc].
  run_pending. rewrite Ht. cbn -[MoveDocumentState newCalls].
  split_and!; [done | done | exact Hp | exact Hc |].
  apply newCalls_app. cbn. by rewrite <- !app_assoc.
Qed.

(** *** [processMessage] *)

Ltac run_message :=
  unfold processor.processMessage, processMessage_accepted, p_persistData,
    failMessage, acknowledgeMessage, persistData,
    sendDocLevelResponse, handleAwsError, emit, mbind, M_bind, mret, M_ret;
  cbn -[PersistData MoveDocumentState newCalls ExecutePendingDocument].

Lemma pending_to_current st documentID instanceID d :
  pending (MoveDocumentState
             (PersistData st documentID instanceID DefaultLocationOfPending d)
             documentID instanceID DefaultLocationOfPending DefaultLocationOfCurrent)
    !! (instanceID, documentID) = None
  ∧ current (MoveDocumentState
               (PersistData st documentID instanceID DefaultLocationOfPending d)
               documentID instanceID DefaultLocationOfPending DefaultLocationOfCurrent)
    !! (instanceID, documentID) = Some d.
Proof.
  apply (MoveDocumentState_present _ _ _ DefaultLocationOfPending
           DefaultLocationOfCurrent d); [done|].
  apply PersistData_lookup.
Qed.

Section WithLoaders.

Variable K : Constants.
Variable loadDocStateFromSendCommand : Message → string → Parsed.
Variable loadDocStateFromCancelCommand : Message → string → Parsed.
Variable p : Processor.

Local Abbreviation processMessage :=
  (processor.processMessage K loadDocStateFromSendCommand loadDocStateFromCancelCommand p).

Lemma poolOf_withPool (w : World) (n : PoolName) (pool : Pool) :
  poolOf (withPool w n pool) n = pool.
Proof. by destruct n. Qed.

(** The world after the reception of a message that is accepted,
    acknowledged and submitted. *)
Lemma processMessage_accepted_world (msg : Message) (docState : DocumentState)
    (n : PoolName) (w : World) :
  AcknowledgeMessage (service p) (MessageId msg) = None →
  (n = SendCommandPool
   ∧ (DocType docState = SendCommand ∨ DocType docState = SendCommandOffline))
  ∨ (n = CancelCommandPool
     ∧ (DocType docState = CancelCommand ∨ DocType docState = CancelCommandOffline)) →
  poolOf w n !! MessageID (DocumentInformation docState) = None →
  (processMessage_accepted p msg docState w).2
  = withPool
      (withTrace
         (withStore w
            (MoveDocumentState
               (PersistData (store w)
                  (DocumentID (DocumentInformation docState))
                  (InstanceID (DocumentInformation docState))
                  DefaultLocationOfPending docState)
               (DocumentID (DocumentInformation docState))
               (InstanceID (DocumentInformation docState))
               DefaultLocationOfPending DefaultLocationOfCurrent))
         (trace w ++
          [CallPersist (DocumentID (DocumentInformation docState))
             (InstanceID (DocumentInformation docState)) DefaultLocationOfPending;
           CallAcknowledgeMessage (MessageId msg);
           CallSendDocLevelResponse (MessageId msg) ResultStatusInProgress EmptyString;
           CallMove (DocumentID (DocumentInformation docState))
             (InstanceID (DocumentInformation docState))
             DefaultLocationOfPending DefaultLocationOfCurrent;
           CallSubmit n (MessageID (DocumentInformation docState))]))
      n
      (<[MessageID (DocumentInformation docState) :=
           (match n with
            | SendCommandPool => SendCommandJob docState
            | CancelCommandPool => CancelCommandJob docState
            end, Running)]> (poolOf w n)).
Proof.
  intros Hack Hroute Hfree.
  run_message. rewrite Hack. run_pending.
  destruct Hroute as [[-> [Ht|Ht]]|[-> [Ht|Ht]]]; rewrite Ht;
    cbn -[PersistData MoveDocumentState newCalls];
    cbn in Hfree; rewrite Hfree; cbn -[PersistData MoveDocumentState newCalls];
    unfold withPool, withTrace, withStore; cbn -[PersistData MoveDocumentState];
    by rewrite <- !app_assoc.
Qed.

(** X4. [processMessage], on a valid message that parses to a document
    state of the type of its topic, when [AcknowledgeMessage] answers
    without error and the document's message id is not a key of the pool
    of its type: the calls are, in this order, the persisting in the
    Pending folder, the acknowledgement, the document level response with
    the status InProgress and an empty text, the move to the Current
    folder and the submission to the pool; at the end the document is in
    the Current folder, no longer in the Pending folder, and its job is in
    the pool. *)
Theorem processMessage_accepts (msg : Message) (docState : DocumentState)
    (n : PoolName) (w : World) :
  validate msg = None →
  (HasPrefix (Topic msg) (SendCommandTopicPrefix K) = true
   ∧ loadDocStateFromSendCommand msg (orchestrationRootDir p) = ParseOk docState)
  ∨ (HasPrefix (Topic msg) (SendCommandTopicPrefix K) = false
     ∧ HasPrefix (Topic msg) (CancelCommandTopicPrefix K) = true
     ∧ loadDocStateFromCancelCommand msg (orchestrationRootDir p) = ParseOk docState) →
  AcknowledgeMessage (service p) (MessageId msg) = None →
  (n = SendCommandPool
   ∧ (DocType docState = SendCommand ∨ DocType docState = SendCommandOffline))
  ∨ (n = CancelCommandPool
     ∧ (DocType docState = CancelCommand ∨ DocType docState = CancelCommandOffline)) →
  poolOf w n !! MessageID (DocumentInformation docState) = None →
  newCalls w (processMessage msg w).2
  = [CallPersist (DocumentID (DocumentInformation docState))
       (InstanceID (DocumentInformation docState)) DefaultLocationOfPending;
     CallAcknowledgeMessage (MessageId msg);
     CallSendDocLevelResponse (MessageId msg) ResultStatusInProgress EmptyString;
     CallMove (DocumentID (DocumentInformation docState))
       (InstanceID (DocumentInformation docState))
       DefaultLocationOfPending DefaultLocationOfCurrent;
     CallSubmit n (MessageID (DocumentInformation docState))]
  ∧ pending (store (processMessage msg w).2)
      !! (InstanceID (DocumentInformation docState),
          DocumentID (DocumentInformation docState)) = None
  ∧ current (store (processMessage msg w).2)
      !! (InstanceID (DocumentInformation docState),
          DocumentID (DocumentInformation docState)) = Some docState
  ∧ poolOf (processMessage msg w).2 n !! MessageID (DocumentInformation docState)
    = Some (match n with
            | SendCommandPool => SendCommandJob docState
            | CancelCommandPool => CancelCommandJob docState
            end, Running).
Proof.
  intros Hvalid Hparsed Hack Hroute Hfree.
  destruct (pending_to_current (store w)
              (DocumentID (DocumentInformation docState))
              (InstanceID (DocumentInformation docState)) docState) as [Hp Hc].
  assert (processMessage msg w = processMessage_accepted p msg docState w) as ->.
  { unfold processor.processMessage. rewrite Hvalid.
    destruct Hparsed as [[-> ->]|(-> & -> & ->)]; done. }
  rewrite (processMessage_accepted_world msg docState n w Hack Hroute Hfree).
  rewrite poolOf_withPool.
  split_and!.
  - apply newCalls_app. by destruct n.
  - by destruct n.
  - by destruct n.
  - apply lookup_insert_eq.
Qed.

(** X5. A message with the send command prefix is never handed to the
    cancel command parser, also when the send command parser fails or the
    topic has the cancel command prefix as well; and a message without the
    send command prefix is never handed to the send command parser: what
    [processMessage] does is the same whatever the parser not in use. *)
Theorem processMessage_uses_one_parser (other : Message → string → Parsed)
    (msg : Message) (w : World) :
  (HasPrefix (Topic msg) (SendCommandTopicPrefix K) = true →
     processMessage msg w
     = processor.processMessage K loadDocStateFromSendCommand other p msg w)
  ∧ (HasPrefix (Topic msg) (SendCommandTopicPrefix K) = false →
     processMessage msg w
     = processor.processMessage K other loadDocStateFromCancelCommand p msg w).
Proof.
  split; intros Hprefix; unfold processor.processMessage;
    destruct (validate msg); [done| |done|]; by rewrite Hprefix.
Qed.

Lemma forallb_elem_of (f : Event → bool) (l : list Event) (e : Event) :
  forallb f l = true → e ∈ l → f e = true.
Proof.
  intros Hall Hin. apply list_elem_of_In in Hin.
  by apply (proj1 (forallb_forall f l) Hall).
Qed.

Lemma ExecutePendingDocument_calls (docState : DocumentState) (w : World) :
  ∃ l, trace (ExecutePendingDocument docState w).2 = trace w ++ l
       ∧ forallb (λ e, negb (isServiceCall e || isRunPlugins e)) l = true
       ∧ store (ExecutePendingDocument docState w).2
         = MoveDocumentState (store w)
             (DocumentID (DocumentInformation docState))
             (InstanceID (DocumentInformation docState))
             DefaultLocationOfPending DefaultLocationOfCurrent.
Proof.
  run_pending.
  destruct (DocType docState); cbn -[MoveDocumentState newCalls];
    repeat match goal with
      | |- context [sendCommandPool w !! ?k] => destruct (sendCommandPool w !! k)
      | |- context [cancelCommandPool w !! ?k] => destruct (cancelCommandPool w !! k)
      end;
    cbn -[MoveDocumentState newCalls];
    (eexists; split_and!; [by rewrite <- ?app_assoc | done | done]).
Qed.

Lemma processMessage_accepted_calls (msg : Message) (docState : DocumentState) (w : World) :
  ∃ rest,
    newCalls w (processMessage_accepted p msg docState w).2
    = CallPersist (DocumentID (DocumentInformation docState))
        (InstanceID (DocumentInformation docState)) DefaultLocationOfPending
      :: CallAcknowledgeMessage (MessageId msg) :: rest
    ∧ forallb (λ e, negb (isServiceCall e || isRunPlugins e)) rest = true
    ∧ (pending (store (processMessage_accepted p msg docState w).2)
         !! (InstanceID (DocumentInformation docState),
             DocumentID (DocumentInformation docState)) = Some docState
       ∨ current (store (processMessage_accepted p msg docState w).2)
           !! (InstanceID (DocumentInformation docState),
               DocumentID (DocumentInformation docState)) = Some docState).
Proof.
  run_message.
  destruct (AcknowledgeMessage (service p) (MessageId msg)) as [e|];
    cbn -[PersistData MoveDocumentState newCalls ExecutePendingDocument].
  - exists [CallHandleAwsError e]. split_and!; [|done|].
    + apply newCalls_app. cbn. by rewrite <- !app_assoc.
    + left. apply (PersistData_lookup _ _ _ DefaultLocationOfPending).
  - match goal with
    | |- context [ExecutePendingDocument docState ?w1] =>
        destruct (ExecutePendingDocument_calls docState w1) as (l & Htr & Hl & Hst)
    end.
    exists (CallSendDocLevelResponse (MessageId msg) ResultStatusInProgress EmptyString :: l).
    split_and!.
    + apply newCalls_app. rewrite Htr. cbn. by rewrite <- !app_assoc.
    + exact Hl.
    + right. rewrite Hst. cbn -[PersistData MoveDocumentState].
      apply pending_to_current.
Qed.

(** X6. In every run of [processMessage]: no message is deleted and no
    plugin is run; and if a message is acknowledged, it is the message
    received, no [FailMessage] call is made, the first call of the run
    persisted a document state in the Pending folder, and at the end that
    state is in the Pending folder or in the Current folder. *)
Theorem processMessage_acknowledges_what_it_persisted (msg : Message) (w : World) :
  forallb (λ e, negb (isDeleteMessage e || isRunPlugins e))
    (newCalls w (processMessage msg w).2) = true
  ∧ ∀ messageID,
      CallAcknowledgeMessage messageID ∈ newCalls w (processMessage msg w).2 →
      messageID = MessageId msg
      ∧ existsb isFailMessage (newCalls w (processMessage msg w).2) = false
      ∧ ∃ docState,
          head (newCalls w (processMessage msg w).2)
          = Some (CallPersist (DocumentID (DocumentInformation docState))
                    (InstanceID (DocumentInformation docState))
                    DefaultLocationOfPending)
          ∧ (pending (store (processMessage msg w).2)
               !! (InstanceID (DocumentInformation docState),
                   DocumentID (DocumentInformation docState)) = Some docState
             ∨ current (store (processMessage msg w).2)
                 !! (InstanceID (DocumentInformation docState),
                     DocumentID (DocumentInformation docState)) = Some docState).
Proof.
  assert (Haccepted : ∀ docState,
    processMessage msg w = processMessage_accepted p msg docState w →
    forallb (λ e, negb (isDeleteMessage e || isRunPlugins e))
      (newCalls w (processMessage msg w).2) = true
    ∧ ∀ messageID,
        CallAcknowledgeMessage messageID ∈ newCalls w (processMessage msg w).2 →
        messageID = MessageId msg
        ∧ existsb isFailMessage (newCalls w (processMessage msg w).2) = false
        ∧ ∃ docState,
            head (newCalls w (processMessage msg w).2)
            = Some (CallPersist (DocumentID (DocumentInformation docState))
                      (InstanceID (DocumentInformation docState))
                      DefaultLocationOfPending)
            ∧ (pending (store (processMessage msg w).2)
                 !! (InstanceID (DocumentInformation docState),
                     DocumentID (DocumentInformation docState)) = Some docState
               ∨ current (store (processMessage msg w).2)
                   !! (InstanceID (DocumentInformation docState),
                       DocumentID (DocumentInformation docState)) = Some docState)).
  { intros docState ->.
    destruct (processMessage_accepted_calls msg docState w) as (rest & -> & Hrest & Hstore).
    assert (Hnone : ∀ e, e ∈ rest → isServiceCall e = false ∧ isRunPlugins e = false).
    { intros e He. apply (forallb_elem_of _ _ _ Hrest) in He.
      apply negb_true_iff, orb_false_iff in He. done. }
    split_and!.
    - cbn. apply forallb_forall. intros e He%list_elem_of_In.
      destruct (Hnone e He) as [Hs Hr]. rewrite Hr.
      destruct e; try done.
    - intros messageID Hin.
      apply elem_of_cons in Hin as [?|Hin]; [done|].
      apply elem_of_cons in Hin as [[= ->]|Hin]; [|by destruct (Hnone _ Hin)].
      split_and!; [done| |by exists docState].
      cbn. apply not_true_iff_false. intros Hex.
      apply existsb_exists in Hex as (e & He%list_elem_of_In & Hfail).
      destruct (Hnone e He) as [Hs _]. by destruct e. }
  pose proof Haccepted as H. clear Haccepted. revert H.
  unfold processor.processMessage.
  destruct (validate msg) as [err|].
  { intros _. run_message. erewrite newCalls_app by done.
    split; [done|]. intros ? Hin.
    apply elem_of_cons in Hin as [?|Hin]; [done|]. by apply elem_of_nil in Hin. }
  destruct (HasPrefix (Topic msg) (SendCommandTopicPrefix K)).
  - destruct (loadDocStateFromSendCommand msg (orchestrationRootDir p)) as [docState|err].
    + intros H. by apply (H docState).
    + intros _. run_message.
      erewrite newCalls_app by (cbn; by rewrite <- !app_assoc).
      split; [done|]. intros ? Hin.
      repeat (apply elem_of_cons in Hin as [?|Hin]; [done|]). by apply elem_of_nil in Hin.
  - destruct (if HasPrefix (Topic msg) (CancelCommandTopicPrefix K)
              then loadDocStateFromCancelCommand msg (orchestrationRootDir p)
              else ParseError ("unexpected topic name " +:+ Topic msg))
      as [docState|err].
    + intros H. by apply (H docState).
    + intros _. run_message.
      destruct (FailMessage (service p) (MessageId msg) InternalHandlerException);
        cbn -[newCalls];
        erewrite newCalls_app by (cbn; by rewrite <- !app_assoc);
        (split; [done|]); intros ? Hin;
        repeat (apply elem_of_cons in Hin as [?|Hin]; [done|]); by apply elem_of_nil in Hin.
Qed.

End WithLoaders.

(** *** The parsers *)

(** X7. [parseSendCommandMessage], when the payload parses and the
    document state can be marshalled, on an instance that is not a managed
    one or for a document that is not one of the incompatible ones: the
    result is the state built by [initializeSendCommandState] from the
    parsed message, the orchestration directory joined from the root
    directory and the command id, and the S3 key prefix joined from the
    output prefix, the command id and the destination; the state is not
    rewritten, and an error of [IsManagedInstance] does not make the
    parsing fail. *)
Theorem parseSendCommandMessage_without_rewrite (c : Collaborators) (msg : Message)
    (root : string) (parsedMessage : SendCommandPayload) (marshalled : string) :
  ParseMessageWithParams c (Payload msg) = inl parsedMessage →
  Marshal c (initialSendCommandState c msg root parsedMessage) = inl marshalled →
  (IsManagedInstance c).1 = false
  ∨ IsManagedInstanceIncompatibleAWSSSMDocument c
      (DocumentName (DocumentInformation
         (initialSendCommandState c msg root parsedMessage))) = false →
  parseSendCommandMessage c msg root
  = ParseOk (initializeSendCommandState c parsedMessage
               (filepathJoin c [root; getCommandID c (MessageId msg)])
               (pathJoin c [ParsedOutputS3KeyPrefix parsedMessage;
                            ParsedCommandID parsedMessage; Destination msg])
               msg).
Proof.
  intros Hparse Hmarshal Hplain.
  unfold parseSendCommandMessage, initialSendCommandState in *.
  rewrite Hparse, Hmarshal.
  destruct (IsManagedInstance c) as [isMI err]. cbn in Hplain.
  destruct Hplain as [->| ->]; [done|]. by rewrite andb_false_r.
Qed.

(** X8. [parseSendCommandMessage] fails, with an error, exactly in these
    cases: the payload does not parse (the error is that of
    [ParseMessageWithParams]); or the document state built cannot be
    marshalled for the log (the error is that of [Marshal]); or the
    instance is a managed one, the document is one of the incompatible
    ones, and [RemoveDependencyOnInstanceMetadata] answers with the error.
    An error of [IsManagedInstance] is never one of them. *)
Theorem parseSendCommandMessage_fails_iff (c : Collaborators) (msg : Message)
    (root err : string) :
  parseSendCommandMessage c msg root = ParseError err
  ↔ ParseMessageWithParams c (Payload msg) = inr err
    ∨ ∃ parsedMessage,
        ParseMessageWithParams c (Payload msg) = inl parsedMessage
        ∧ (Marshal c (initialSendCommandState c msg root parsedMessage) = inr err
           ∨ ((∃ marshalled,
                 Marshal c (initialSendCommandState c msg root parsedMessage)
                 = inl marshalled)
              ∧ (IsManagedInstance c).1 = true
              ∧ IsManagedInstanceIncompatibleAWSSSMDocument c
                  (DocumentName (DocumentInformation
                     (initialSendCommandState c msg root parsedMessage))) = true
              ∧ (RemoveDependencyOnInstanceMetadata c
                   (initialSendCommandState c msg root parsedMessage)).2 = Some err)).
Proof.
  unfold parseSendCommandMessage, initialSendCommandState.
  destruct (ParseMessageWithParams c (Payload msg)) as [parsedMessage|e].
  2: { split; [intros [= ->]; by left|].
       intros [[= ->]|(? & [=] & _)]. done. }
  set (d := initializeSendCommandState c parsedMessage _ _ msg).
  split.
  - intros H. right. exists parsedMessage. split; [done|]. fold d.
    destruct (Marshal c d) as [marshalled|e]; [|left; congruence].
    right. split; [by eexists|].
    destruct (IsManagedInstance c) as [[] ?]; cbn in *; [|done].
    destruct (IsManagedInstanceIncompatibleAWSSSMDocument c _); [|done].
    destruct (RemoveDependencyOnInstanceMetadata c d) as [? [e|]]; [|done].
    split_and!; [done..|cbn; congruence].
  - intros [[=]|(parsed' & [= <-] & H)]. fold d in H.
    destruct H as [->|((marshalled & ->) & HisMI & Hinc & Hrm)]; [done|].
    destruct (IsManagedInstance c) as [isMI ?]. cbn in HisMI. subst isMI.
    rewrite Hinc. cbn.
    destruct (RemoveDependencyOnInstanceMetadata c d) as [? [e|]]; cbn in Hrm; congruence.
Qed.

(** X9. [processMessage] with the parsers of this file as its two
    parsers, on a valid message. When the topic has the send command
    prefix and the payload does not parse, the error of
    [ParseMessageWithParams] is logged and sent in a document level
    response with the status Failed. When the topic has the cancel command
    prefix only and the payload is not valid JSON, the message is failed
    on the service with [InternalHandlerException]. In both cases nothing
    else is called and the store and the pools are as they were. *)
Theorem processMessage_reports_unparsable_payload (K : Constants) (c : Collaborators)
    (p : Processor) (msg : Message) (err : string) (w : World) :
  validate msg = None →
  (HasPrefix (Topic msg) (SendCommandTopicPrefix K) = true →
   ParseMessageWithParams c (Payload msg) = inr err →
   (processMessage K (parseSendCommandMessage c) (parseCancelCommandMessage c) p msg w).2
   = withTrace w (trace w ++ [LogError err;
                              CallSendDocLevelResponse (MessageId msg) ResultStatusFailed err]))
  ∧ (HasPrefix (Topic msg) (SendCommandTopicPrefix K) = false →
     HasPrefix (Topic msg) (CancelCommandTopicPrefix K) = true →
     Unmarshal c (Payload msg) = inr err →
     (processMessage K (parseSendCommandMessage c) (parseCancelCommandMessage c) p msg w).2
     = withTrace w (trace w ++ failCalls p msg err)).
Proof.
  intros Hvalid. split.
  - intros Hsend Hparse. run_message.
    unfold parseSendCommandMessage. rewrite Hvalid, Hsend, Hparse. cbn.
    unfold withTrace. cbn. by rewrite <- !app_assoc.
  - intros Hsend Hcancel Hparse. run_message.
    unfold parseCancelCommandMessage, failCalls. rewrite Hvalid, Hsend, Hcancel, Hparse. cbn.
    destruct (FailMessage (service p) _ _); cbn; unfold withTrace; cbn;
      by rewrite <- !app_assoc.
Qed.

(** *** [loadPluginConfigurations] *)

Lemma loadPluginConfigurations_range_lookup (entries : list (string * PluginState))
    (acc : gmap string Configuration) (pluginName : string) :
  NoDup (entries.*1) →
  foldl (λ configs entry,
           if HasExecuted entry.2 then configs
           else <[entry.1 := PluginConfiguration entry.2]> configs) acc entries
    !! pluginName
  = match (list_to_map entries : gmap string PluginState) !! pluginName with
    | Some pluginConfig =>
        if HasExecuted pluginConfig then acc !! pluginName
        else Some (PluginConfiguration pluginConfig)
    | None => acc !! pluginName
    end.
Proof.
  revert acc. induction entries as [|[name x] entries IH]; intros acc Hnodup.
  - cbn. by rewrite lookup_empty.
  - apply NoDup_cons in Hnodup as [Hfresh Hnodup].
    cbn [foldl fmap list_fmap fst snd]. rewrite IH by done.
    cbn [list_to_map foldr fst snd uncurry].
    destruct (decide (name = pluginName)) as [->|Hne].
    + rewrite lookup_insert_eq.
      rewrite (proj1 (not_elem_of_list_to_map _ _) Hfresh).
      destruct (HasExecuted x); [done | by rewrite lookup_insert_eq].
    + rewrite (lookup_insert_ne _ name pluginName) by done.
      destruct (list_to_map entries !! pluginName) as [y|]; [destruct (HasExecuted y)|];
        try done; destruct (HasExecuted x); try done; by rewrite lookup_insert_ne.
Qed.

(** X10. The result of [loadPluginConfigurations] does not depend on the
    order in which the [range] visits the plugins: over the entries of the
    map in any order, the loop builds the same map of configurations. *)
Theorem loadPluginConfigurations_any_order (plugins : gmap string PluginState)
    (entries : list (string * PluginState)) (commandID : string) :
  entries ≡ₚ map_to_list plugins →
  loadPluginConfigurations_range entries = loadPluginConfigurations plugins commandID.
Proof.
  intros Hperm.
  assert (NoDup (entries.*1)) as Hnodup.
  { rewrite Hperm. apply NoDup_fst_map_to_list. }
  apply map_eq. intros pluginName.
  unfold loadPluginConfigurations_range.
  rewrite loadPluginConfigurations_range_lookup by done.
  rewrite (list_to_map_proper entries (map_to_list plugins)) by done.
  rewrite list_to_map_to_list, loadPluginConfigurations_lookup, lookup_empty.
  destruct (plugins !! pluginName) as [x|]; [|done]. cbn. by destruct (HasExecuted x).
Qed.

(** X11. [loadPluginConfigurations] yields configurations for names of the
    plugins given only; the command id has no part in the result; and the
    result is empty exactly when every plugin given has been executed. *)
Theorem loadPluginConfigurations_empty_iff (plugins : gmap string PluginState)
    (commandID commandID' : string) :
  dom (loadPluginConfigurations plugins commandID) ⊆ dom plugins
  ∧ loadPluginConfigurations plugins commandID = loadPluginConfigurations plugins commandID'
  ∧ (loadPluginConfigurations plugins commandID = ∅
     ↔ ∀ pluginName pluginConfig,
         plugins !! pluginName = Some pluginConfig → HasExecuted pluginConfig = true).
Proof.
  split_and!.
  - intros name [config Hconfig]%elem_of_dom.
    rewrite loadPluginConfigurations_lookup in Hconfig.
    apply elem_of_dom. destruct (plugins !! name); [by eexists | done].
  - done.
  - rewrite map_empty. split.
    + intros Hnone name x Hx. specialize (Hnone name).
      rewrite loadPluginConfigurations_lookup, Hx in Hnone. cbn in Hnone.
      by destruct (HasExecuted x).
    + intros Hall name. rewrite loadPluginConfigurations_lookup.
      destruct (plugins !! name) as [x|] eqn:Hx; [|done]. cbn.
      by rewrite (Hall name x Hx).
Qed.

(** *** [processSendCommandMessage] *)

Lemma PersistData_lookup_ne st documentID instanceID f g d k :
  k ≠ (instanceID, documentID) →
  folder (PersistData st documentID instanceID f d) g !! k = folder st g !! k.
Proof.
  intros Hne. unfold PersistData.
  destruct f, g; cbn; try done; by rewrite lookup_insert_ne.
Qed.

Lemma MoveDocumentState_lookup_ne st documentID instanceID src dst g k :
  k ≠ (instanceID, documentID) →
  folder (MoveDocumentState st documentID instanceID src dst) g !! k = folder st g !! k.
Proof.
  intros Hne. unfold MoveDocumentState.
  destruct (folder st src !! (instanceID, documentID)) as [d|]; [|done].
  destruct src, dst, g; cbn;
    rewrite ?lookup_insert_ne, ?lookup_delete_ne by done; done.
Qed.

Lemma MoveDocumentState_other_folders st documentID instanceID :
  pending (MoveDocumentState st documentID instanceID
             DefaultLocationOfCurrent DefaultLocationOfCompleted) = pending st
  ∧ corrupt (MoveDocumentState st documentID instanceID
               DefaultLocationOfCurrent DefaultLocationOfCompleted) = corrupt st.
Proof.
  unfold MoveDocumentState.
  by destruct (folder st DefaultLocationOfCurrent !! (instanceID, documentID)).
Qed.

Ltac run_send :=
  unfold processSendCommandMessage, runPlugins, getDocumentInterimState,
    persistDocumentInfo, moveDocumentState, deleteMessage, handleAwsError,
    sendResponse, emit, mbind, M_bind, mret, M_ret;
  cbn -[PersistDocumentInfo GetDocumentInterimState MoveDocumentState newCalls].

Lemma processSendCommandMessage_pools K p cancelFlag docState w :
  sendCommandPool (processSendCommandMessage K p cancelFlag docState w).2 = sendCommandPool w
  ∧ cancelCommandPool (processSendCommandMessage K p cancelFlag docState w).2
    = cancelCommandPool w.
Proof.
  run_send.
  destruct (bool_decide _); [done|].
  cbn -[PersistDocumentInfo GetDocumentInterimState MoveDocumentState].
  destruct (isUpdatePlugin_range K _); [done|].
  cbn -[PersistDocumentInfo GetDocumentInterimState MoveDocumentState].
  by destruct (DeleteMessage (service p) _).
Qed.

Lemma processSendCommandMessage_store K p cancelFlag docState w :
  store (processSendCommandMessage K p cancelFlag docState w).2
  = if bool_decide (PayloadDocumentStatus (payloadDoc p cancelFlag docState w)
                    = ResultStatusSuccessAndReboot)
    then persistedStore p cancelFlag docState w
    else MoveDocumentState (persistedStore p cancelFlag docState w)
           (DocumentID (finalInfo p cancelFlag docState w))
           (InstanceID (finalInfo p cancelFlag docState w))
           DefaultLocationOfCurrent DefaultLocationOfCompleted.
Proof.
  case_bool_decide as Hst.
  - by destruct (processSendCommandMessage_reboot K p cancelFlag docState w Hst).
  - by destruct (processSendCommandMessage_completes K p cancelFlag docState w Hst).
Qed.

(** X12. [processSendCommandMessage] works on one document only: compared
    with the store that the plugin runner left, every other document of
    every folder is as it was, and so are the whole Pending and Corrupt
    folders; both pools are as they were before the processing. *)
Theorem processSendCommandMessage_touches_one_document (K : Constants) (p : Processor)
    (cancelFlag : CancelFlag) (docState : DocumentState) (w : World) :
  (∀ f k,
     k ≠ (InstanceID (finalInfo p cancelFlag docState w),
          DocumentID (finalInfo p cancelFlag docState w)) →
     folder (store (processSendCommandMessage K p cancelFlag docState w).2) f !! k
     = folder (runnerStore (pluginRun p cancelFlag docState w)) f !! k)
  ∧ pending (store (processSendCommandMessage K p cancelFlag docState w).2)
    = pending (runnerStore (pluginRun p cancelFlag docState w))
  ∧ corrupt (store (processSendCommandMessage K p cancelFlag docState w).2)
    = corrupt (runnerStore (pluginRun p cancelFlag docState w))
  ∧ sendCommandPool (processSendCommandMessage K p cancelFlag docState w).2
    = sendCommandPool w
  ∧ cancelCommandPool (processSendCommandMessage K p cancelFlag docState w).2
    = cancelCommandPool w.
Proof.
  rewrite processSendCommandMessage_store.
  destruct (processSendCommandMessage_pools K p cancelFlag docState w) as [Hs Hc].
  unfold persistedStore, PersistDocumentInfo.
  split_and!; [|case_bool_decide..|exact Hs|exact Hc]; try done.
  - intros f k Hk. case_bool_decide.
    + by rewrite PersistData_lookup_ne.
    + by rewrite MoveDocumentState_lookup_ne, PersistData_lookup_ne.
  - by rewrite (proj1 (MoveDocumentState_other_folders _ _ _)).
  - by rewrite (proj2 (MoveDocumentState_other_folders _ _ _)).
Qed.

(** X13. [processSendCommandMessage] when, after the run of the plugins,
    the Current folder has no state under the document's ids, and the
    reply does not ask for a reboot: the state read back is the empty one,
    so the final document information is persisted under empty ids, the
    final reply is sent for an empty message id, not for the document's,
    the move is that of the document with empty ids, and [DeleteMessage]
    is called with an empty message id, whatever the plugins of the
    document given. *)
Theorem processSendCommandMessage_state_missing (K : Constants) (p : Processor)
    (cancelFlag : CancelFlag) (docState : DocumentState) (w : World) :
  current (runnerStore (pluginRun p cancelFlag docState w))
    !! (InstanceID (DocumentInformation docState),
        DocumentID (DocumentInformation docState)) = None →
  PayloadDocumentStatus (payloadDoc p cancelFlag docState w) ≠ ResultStatusSuccessAndReboot →
  newCalls w (processSendCommandMessage K p cancelFlag docState w).2
  = CallRunPlugins (MessageID (DocumentInformation docState))
      (InstancePluginsInformation docState) cancelFlag
    :: responseEvents (pluginRun p cancelFlag docState w)
    ++ [CallPersist EmptyString EmptyString DefaultLocationOfCurrent;
        CallSendResponse EmptyString EmptyString
          (runnerOutputs (pluginRun p cancelFlag docState w));
        CallMove EmptyString EmptyString
          DefaultLocationOfCurrent DefaultLocationOfCompleted]
    ++ deleteCalls p EmptyString.
Proof.
  intros Hmissing Hst.
  assert (readBack p cancelFlag docState w = emptyDocumentState) as Hread.
  { unfold readBack, GetDocumentInterimState.
    change (folder ?st DefaultLocationOfCurrent) with (current st).
    by rewrite Hmissing. }
  apply newCalls_app.
  rewrite (proj1 (processSendCommandMessage_completes K p cancelFlag docState w Hst)).
  unfold commonCalls, finalInfo. rewrite Hread. cbn.
  by rewrite <- !app_assoc.
Qed.

Lemma persistedStore_of_stored (p : Processor) (cancelFlag : CancelFlag)
    (docState stored : DocumentState) (w : World) :
  current (runnerStore (pluginRun p cancelFlag docState w))
    !! (InstanceID (DocumentInformation docState),
        DocumentID (DocumentInformation docState)) = Some stored →
  DocumentID (DocumentInformation stored) = DocumentID (DocumentInformation docState) →
  InstanceID (DocumentInformation stored) = InstanceID (DocumentInformation docState) →
  DocumentID (finalInfo p cancelFlag docState w) = DocumentID (DocumentInformation docState)
  ∧ InstanceID (finalInfo p cancelFlag docState w) = InstanceID (DocumentInformation docState)
  ∧ persistedStore p cancelFlag docState w
    = PersistData (runnerStore (pluginRun p cancelFlag docState w))
        (DocumentID (DocumentInformation docState))
        (InstanceID (DocumentInformation docState))
        DefaultLocationOfCurrent
        (setDocumentInformation stored
           (overlayPayload (DocumentInformation stored)
              (payloadDoc p cancelFlag docState w))).
Proof.
  intros Hstored Hdoc Hinst.
  assert (readBack p cancelFlag docState w = stored) as Hread.
  { unfold readBack, GetDocumentInterimState.
    change (folder ?st DefaultLocationOfCurrent) with (current st).
    by rewrite Hstored. }
  unfold persistedStore, PersistDocumentInfo, finalInfo. rewrite Hread.
  cbn [overlayPayload DocumentID InstanceID].
  rewrite Hdoc, Hinst. split_and!; [done..|].
  unfold GetDocumentInterimState.
  change (folder ?st DefaultLocationOfCurrent) with (current st).
  by rewrite Hstored.
Qed.

(** X14. [processSendCommandMessage] when, after the run of the plugins,
    the Current folder holds under the document's ids a state that carries
    those ids: the final state is that state with the status, runtime
    status, additional information and trace output of the reply in its
    document information, and everything else as stored, the plugin
    states included. If the reply asks for a reboot, the final state is in
    the Current folder; otherwise it is in the Completed folder and the
    Current folder has no state under the ids any more. *)
Theorem processSendCommandMessage_completes_stored_state (K : Constants) (p : Processor)
    (cancelFlag : CancelFlag) (docState stored : DocumentState) (w : World) :
  current (runnerStore (pluginRun p cancelFlag docState w))
    !! (InstanceID (DocumentInformation docState),
        DocumentID (DocumentInformation docState)) = Some stored →
  DocumentID (DocumentInformation stored) = DocumentID (DocumentInformation docState) →
  InstanceID (DocumentInformation stored) = InstanceID (DocumentInformation docState) →
  (PayloadDocumentStatus (payloadDoc p cancelFlag docState w) = ResultStatusSuccessAndReboot →
   current (store (processSendCommandMessage K p cancelFlag docState w).2)
     !! (InstanceID (DocumentInformation docState),
         DocumentID (DocumentInformation docState))
   = Some (setDocumentInformation stored
             (overlayPayload (DocumentInformation stored)
                (payloadDoc p cancelFlag docState w))))
  ∧ (PayloadDocumentStatus (payloadDoc p cancelFlag docState w) ≠ ResultStatusSuccessAndReboot →
     current (store (processSendCommandMessage K p cancelFlag docState w).2)
       !! (InstanceID (DocumentInformation docState),
           DocumentID (DocumentInformation docState)) = None
     ∧ completed (store (processSendCommandMessage K p cancelFlag docState w).2)
         !! (InstanceID (DocumentInformation docState),
             DocumentID (DocumentInformation docState))
       = Some (setDocumentInformation stored
                 (overlayPayload (DocumentInformation stored)
                    (payloadDoc p cancelFlag docState w)))).
Proof.
  intros Hstored Hdoc Hinst.
  destruct (persistedStore_of_stored p cancelFlag docState stored w Hstored Hdoc Hinst)
    as (Hd & Hi & Hpersisted).
  rewrite processSendCommandMessage_store, Hd, Hi, Hpersisted.
  split; intros Hst.
  - rewrite bool_decide_eq_true_2 by done.
    apply (PersistData_lookup _ _ _ DefaultLocationOfCurrent).
  - rewrite bool_decide_eq_false_2 by done.
    apply move_after_persist.
Qed.

(** X15. [processSendCommandMessage] when the reply does not ask for a
    reboot, no plugin of the state read back is an update-self plugin, and
    [DeleteMessage] answers with an error: the error is handed to
    [HandleAwsError], which is the last call; and the store at the end is
    the same whatever the message service answers: the document is
    completed all the same. *)
Theorem processSendCommandMessage_delete_failure (K : Constants) (p : Processor)
    (cancelFlag : CancelFlag) (docState : DocumentState) (e : string) (w : World) :
  PayloadDocumentStatus (payloadDoc p cancelFlag docState w) ≠ ResultStatusSuccessAndReboot →
  ¬ hasUpdatePlugin K (readBack p cancelFlag docState w) →
  DeleteMessage (service p) (MessageID (finalInfo p cancelFlag docState w)) = Some e →
  last (newCalls w (processSendCommandMessage K p cancelFlag docState w).2)
  = Some (CallHandleAwsError e)
  ∧ ∀ svc,
      store (processSendCommandMessage K (withService p svc) cancelFlag docState w).2
      = store (processSendCommandMessage K p cancelFlag docState w).2.
Proof.
  intros Hst Hplain Hdelete. split.
  - erewrite newCalls_app
      by apply (proj1 (processSendCommandMessage_completes K p cancelFlag docState w Hst)).
    rewrite <- isUpdatePlugin_hasUpdatePlugin in Hplain.
    apply not_true_is_false in Hplain. rewrite Hplain.
    unfold deleteCalls. rewrite Hdelete.
    by rewrite last_app.
  - intros svc. by rewrite !processSendCommandMessage_store.
Qed.

(** *** [processCancelCommandMessage] *)

(** X16. [processCancelCommandMessage] sends no reply and runs no plugin;
    in the send command pool it sets the cancel flag of the job under the
    message id to cancel, if there is one, keeps that job in the pool, and
    leaves every other job as it is; the cancel command pool is as it
    was. *)
Theorem processCancelCommandMessage_flags_the_job (p : Processor)
    (docState : DocumentState) (w : World) :
  existsb (λ e, isReply e || isRunPlugins e)
    (newCalls w (processCancelCommandMessage p docState w).2) = false
  ∧ sendCommandPool (processCancelCommandMessage p docState w).2
      !! CancelMessageID (CancelInformation docState)
    = (λ entry, (entry.1, Canceled))
        <$> sendCommandPool w !! CancelMessageID (CancelInformation docState)
  ∧ (∀ key, key ≠ CancelMessageID (CancelInformation docState) →
       sendCommandPool (processCancelCommandMessage p docState w).2 !! key
       = sendCommandPool w !! key)
  ∧ cancelCommandPool (processCancelCommandMessage p docState w).2 = cancelCommandPool w.
Proof.
  unfold processCancelCommandMessage, cancel, persistData, moveDocumentState,
    deleteMessage, handleAwsError, emit, mbind, M_bind, mret, M_ret, Cancel.
  destruct (sendCommandPool w !! CancelMessageID (CancelInformation docState))
    as [[job flag]|] eqn:Hpool;
    cbn -[PersistData MoveDocumentState newCalls];
    destruct (DeleteMessage (service p) (MessageID (DocumentInformation docState)));
    cbn -[PersistData MoveDocumentState newCalls];
    (split_and!;
     [ erewrite newCalls_app by (cbn; by rewrite <- !app_assoc); done
     | rewrite ?lookup_insert_eq, ?Hpool; done
     | intros key Hkey; rewrite ?lookup_insert_ne by done; done
     | done ]).
Qed.

(** *** [isUpdatePlugin] *)

Lemma hasUpdatePlugin_names (K : Constants) (d : DocumentState) :
  hasUpdatePlugin K d
  ↔ PluginEC2ConfigUpdate K ∈ Name <$> InstancePluginsInformation d
    ∨ PluginNameAwsAgentUpdate K ∈ Name <$> InstancePluginsInformation d.
Proof.
  unfold hasUpdatePlugin. split.
  - intros (x & Hin & [<-|<-]); [left|right]; by apply list_elem_of_fmap_2.
  - intros [Hin|Hin]; apply list_elem_of_fmap in Hin as (x & -> & Hx);
      exists x; split; auto.
Qed.

(** X24. [isUpdatePlugin] looks at the names of the plugins only: two
    documents whose plugins have the same names, in any order, get the
    same answer, whatever the configurations, the results and the
    [HasExecuted] flags; so an update-self plugin that has been executed
    counts as one. A document without plugins gets the answer false. *)
Theorem isUpdatePlugin_by_names_only (K : Constants) (d d' : DocumentState) :
  Name <$> InstancePluginsInformation d ≡ₚ Name <$> InstancePluginsInformation d' →
  isUpdatePlugin K d = isUpdatePlugin K d'
  ∧ isUpdatePlugin K emptyDocumentState = false.
Proof.
  intros Hnames. split; [|done].
  apply eq_true_iff_eq.
  rewrite !isUpdatePlugin_hasUpdatePlugin, !hasUpdatePlugin_names.
  by rewrite Hnames.
Qed.

(** *** From the message to the Completed folder *)

Lemma pending_after_completion st documentID instanceID d d' :
  pending (MoveDocumentState
             (PersistData
                (MoveDocumentState
                   (PersistData st documentID instanceID DefaultLocationOfPending d)
                   documentID instanceID DefaultLocationOfPending DefaultLocationOfCurrent)
                documentID instanceID DefaultLocationOfCurrent d')
             documentID instanceID DefaultLocationOfCurrent DefaultLocationOfCompleted)
    !! (instanceID, documentID) = None.
Proof.
  rewrite (proj1 (MoveDocumentState_other_folders _ _ _)).
  change (pending (PersistData ?s ?a ?b DefaultLocationOfCurrent ?x)) with (pending s).
  apply pending_to_current.
Qed.

(** X17. A cancel command from its reception to its end. For a valid
    message with the cancel command prefix only, that parses to a document
    state of a cancel command type, is acknowledged without error and
    whose message id is not a key of the cancel command pool:
    [processMessage] submits the job of the document, and once that job
    has run the document is in the Completed folder, no longer in the
    Pending or the Current folder, with the status Success if the send
    command pool had a job under the id to cancel and Failed if not; the
    calls are the five of the reception, then the cancel, the persisting
    in the Current folder, the move to the Completed folder and the
    deletion of the message. *)
Theorem cancel_command_from_message_to_completed (K : Constants)
    (loadDocStateFromSendCommand loadDocStateFromCancelCommand : Message → string → Parsed)
    (p : Processor) (msg : Message) (docState : DocumentState) (w : World) :
  validate msg = None →
  HasPrefix (Topic msg) (SendCommandTopicPrefix K) = false →
  HasPrefix (Topic msg) (CancelCommandTopicPrefix K) = true →
  loadDocStateFromCancelCommand msg (orchestrationRootDir p) = ParseOk docState →
  DocType docState = CancelCommand ∨ DocType docState = CancelCommandOffline →
  AcknowledgeMessage (service p) (MessageId msg) = None →
  cancelCommandPool w !! MessageID (DocumentInformation docState) = None →
  cancelCommandPool
    (processMessage K loadDocStateFromSendCommand loadDocStateFromCancelCommand p msg w).2
    !! MessageID (DocumentInformation docState)
  = Some (CancelCommandJob docState, Running)
  ∧ pending (store (runJob K p (CancelCommandJob docState) Running
       (processMessage K loadDocStateFromSendCommand loadDocStateFromCancelCommand p msg w).2).2)
      !! (InstanceID (DocumentInformation docState),
          DocumentID (DocumentInformation docState)) = None
  ∧ current (store (runJob K p (CancelCommandJob docState) Running
       (processMessage K loadDocStateFromSendCommand loadDocStateFromCancelCommand p msg w).2).2)
      !! (InstanceID (DocumentInformation docState),
          DocumentID (DocumentInformation docState)) = None
  ∧ (∃ final,
       completed (store (runJob K p (CancelCommandJob docState) Running
         (processMessage K loadDocStateFromSendCommand loadDocStateFromCancelCommand p msg w).2).2)
         !! (InstanceID (DocumentInformation docState),
             DocumentID (DocumentInformation docState)) = Some final
       ∧ DocumentStatus (DocumentInformation final)
         = match sendCommandPool w !! CancelMessageID (CancelInformation docState) with
           | Some _ => ResultStatusSuccess
           | None => ResultStatusFailed
           end)
  ∧ newCalls w (runJob K p (CancelCommandJob docState) Running
       (processMessage K loadDocStateFromSendCommand loadDocStateFromCancelCommand p msg w).2).2
    = [CallPersist (DocumentID (DocumentInformation docState))
         (InstanceID (DocumentInformation docState)) DefaultLocationOfPending;
       CallAcknowledgeMessage (MessageId msg);
       CallSendDocLevelResponse (MessageId msg) ResultStatusInProgress EmptyString;
       CallMove (DocumentID (DocumentInformation docState))
         (InstanceID (DocumentInformation docState))
         DefaultLocationOfPending DefaultLocationOfCurrent;
       CallSubmit CancelCommandPool (MessageID (DocumentInformation docState));
       CallCancel (CancelMessageID (CancelInformation docState));
       CallPersist (DocumentID (DocumentInformation docState))
         (InstanceID (DocumentInformation docState)) DefaultLocationOfCurrent;
       CallMove (DocumentID (DocumentInformation docState))
         (InstanceID (DocumentInformation docState))
         DefaultLocationOfCurrent DefaultLocationOfCompleted]
      ++ deleteCalls p (MessageID (DocumentInformation docState)).
Proof.
  intros Hvalid Hsend Hcancel Hparsed Htype Hack Hfree.
  assert (processMessage K loadDocStateFromSendCommand loadDocStateFromCancelCommand p msg w
          = processMessage_accepted p msg docState w) as ->.
  { unfold processMessage. by rewrite Hvalid, Hsend, Hcancel, Hparsed. }
  unfold runJob, processCancelCommandMessage, cancel, Cancel, deleteMessage, deleteCalls,
    moveDocumentState.
  run_message. rewrite Hack. run_pending.
  destruct Htype as [Ht|Ht]; rewrite Ht;
    cbn -[PersistData MoveDocumentState newCalls]; rewrite Hfree;
    cbn -[PersistData MoveDocumentState newCalls];
    (destruct (sendCommandPool w !! CancelMessageID (CancelInformation docState))
       as [[job flag]|];
     cbn -[PersistData MoveDocumentState newCalls];
     destruct (DeleteMessage (service p) (MessageID (DocumentInformation docState)));
     cbn -[PersistData MoveDocumentState newCalls];
     (split_and!;
      [ apply lookup_insert_eq
      | apply pending_after_completion
      | apply move_after_persist
      | eexists; split; [apply move_after_persist | done]
      | apply newCalls_app; cbn; by rewrite <- !app_assoc ])).
Qed.

(** X18. A send command from its reception to its end, with a plugin
    runner that leaves the store as it finds it. For a valid message with
    the send command prefix, that parses to a document state of a send
    command type, is acknowledged without error and whose message id is
    not a key of the send command pool: [processMessage] submits the job
    of the document, and once that job has run, with a reply that does not
    ask for a reboot, the document is in the Completed folder, no longer
    in the Pending or the Current folder; it is the document state parsed,
    with the status, runtime status, additional information and trace
    output of the reply in its document information. *)
Theorem send_command_from_message_to_completed (K : Constants)
    (loadDocStateFromSendCommand loadDocStateFromCancelCommand : Message → string → Parsed)
    (p : Processor) (msg : Message) (docState : DocumentState) (cancelFlag : CancelFlag)
    (w : World) :
  (∀ messageID plugins flag st, runnerStore (pluginRunner p messageID plugins flag st) = st) →
  validate msg = None →
  HasPrefix (Topic msg) (SendCommandTopicPrefix K) = true →
  loadDocStateFromSendCommand msg (orchestrationRootDir p) = ParseOk docState →
  DocType docState = SendCommand ∨ DocType docState = SendCommandOffline →
  AcknowledgeMessage (service p) (MessageId msg) = None →
  sendCommandPool w !! MessageID (DocumentInformation docState) = None →
  PayloadDocumentStatus
    (payloadDoc p cancelFlag docState
       (processMessage K loadDocStateFromSendCommand loadDocStateFromCancelCommand p msg w).2)
    ≠ ResultStatusSuccessAndReboot →
  sendCommandPool
    (processMessage K loadDocStateFromSendCommand loadDocStateFromCancelCommand p msg w).2
    !! MessageID (DocumentInformation docState)
  = Some (SendCommandJob docState, Running)
  ∧ pending (store (runJob K p (SendCommandJob docState) cancelFlag
       (processMessage K loadDocStateFromSendCommand loadDocStateFromCancelCommand p msg w).2).2)
      !! (InstanceID (DocumentInformation docState),
          DocumentID (DocumentInformation docState)) = None
  ∧ current (store (runJob K p (SendCommandJob docState) cancelFlag
       (processMessage K loadDocStateFromSendCommand loadDocStateFromCancelCommand p msg w).2).2)
      !! (InstanceID (DocumentInformation docState),
          DocumentID (DocumentInformation docState)) = None
  ∧ completed (store (runJob K p (SendCommandJob docState) cancelFlag
       (processMessage K loadDocStateFromSendCommand loadDocStateFromCancelCommand p msg w).2).2)
      !! (InstanceID (DocumentInformation docState),
          DocumentID (DocumentInformation docState))
    = Some (setDocumentInformation docState
              (overlayPayload (DocumentInformation docState)
                 (payloadDoc p cancelFlag docState
                    (processMessage K loadDocStateFromSendCommand
                       loadDocStateFromCancelCommand p msg w).2))).
Proof.
  intros Hrunner Hvalid Hsend Hparsed Htype Hack Hfree.
  assert (processMessage K loadDocStateFromSendCommand loadDocStateFromCancelCommand p msg w
          = processMessage_accepted p msg docState w) as ->.
  { unfold processMessage. by rewrite Hvalid, Hsend, Hparsed. }
  rewrite (processMessage_accepted_world p msg docState SendCommandPool w Hack
             ltac:(by left) Hfree).
  set (w1 := withPool _ _ _).
  intros Hst. cbn [runJob].
  destruct (pending_to_current (store w)
              (DocumentID (DocumentInformation docState))
              (InstanceID (DocumentInformation docState)) docState) as [Hp Hc].
  assert (runnerStore (pluginRun p cancelFlag docState w1) = store w1) as Hsame
    by apply Hrunner.
  destruct (persistedStore_of_stored p cancelFlag docState docState w1)
    as (Hd & Hi & Hpersisted); [by rewrite Hsame | done | done |].
  rewrite processSendCommandMessage_store, bool_decide_eq_false_2 by done.
  rewrite Hd, Hi, Hpersisted, Hsame.
  split_and!.
  - apply lookup_insert_eq.
  - rewrite (proj1 (MoveDocumentState_other_folders _ _ _)). exact Hp.
  - apply move_after_persist.
  - apply move_after_persist.
Qed.

(** *** The theorems at the fixtures *)

Lemma ExecutePendingDocument_submits_witness :
  sendCommandPool
    (ExecutePendingDocument (fixtureSendDocument [])
       (pendingWorld (fixtureSendDocument []))).2 !! "aws.ssm.cmd-1.i-1"
  = Some (SendCommandJob (fixtureSendDocument []), Running).
Proof.
  destruct (ExecutePendingDocument_submits (fixtureSendDocument [])
              (fixtureSendDocument []) SendCommandPool
              (pendingWorld (fixtureSendDocument [])))
    as (_ & _ & Hpool & _).
  - left. split; [reflexivity | left; reflexivity].
  - reflexivity.
  - reflexivity.
  - exact Hpool.
Defined.

Lemma ExecutePendingDocument_duplicate_witness :
  sendCommandPool
    (ExecutePendingDocument (fixtureSendDocument [])
       (busyWorld (fixtureSendDocument []))).2
  = sendCommandPool (busyWorld (fixtureSendDocument []))
  ∧ current (store (ExecutePendingDocument (fixtureSendDocument [])
                      (busyWorld (fixtureSendDocument []))).2) !! ("i-1", "doc-1")
    = Some (fixtureSendDocument []).
Proof.
  destruct (ExecutePendingDocument_duplicate (fixtureSendDocument [])
              (fixtureSendDocument []) SendCommandPool
              (SendCommandJob (fixtureSendDocument []), Running)
              (busyWorld (fixtureSendDocument [])))
    as (Hpool & _ & _ & Hcurrent & _).
  - left. split; [reflexivity | left; reflexivity].
  - reflexivity.
  - reflexivity.
  - split; [exact Hpool | exact Hcurrent].
Defined.

Lemma ExecutePendingDocument_unexpected_type_witness :
  newCalls (pendingWorld fixtureOtherDocument)
    (ExecutePendingDocument fixtureOtherDocument (pendingWorld fixtureOtherDocument)).2
  = [CallMove "doc-1" "i-1" DefaultLocationOfPending DefaultLocationOfCurrent;
     LogError "unexpected document type Association"].
Proof.
  apply (ExecutePendingDocument_unexpected_type fixtureOtherDocument fixtureOtherDocument
           "Association" (pendingWorld fixtureOtherDocument)); reflexivity.
Defined.

Lemma processMessage_accepts_witness :
  current (store (processMessage specConstants
                    (fixtureLoader (fixtureSendDocument [])) failingLoader
                    (fixtureProcessor ResultStatusSuccess None None)
                    (fixtureMessage "aws.ssm.sendCommand.i-1") emptyWorld).2)
    !! ("i-1", "doc-1") = Some (fixtureSendDocument []).
Proof.
  destruct (processMessage_accepts specConstants
              (fixtureLoader (fixtureSendDocument [])) failingLoader
              (fixtureProcessor ResultStatusSuccess None None)
              (fixtureMessage "aws.ssm.sendCommand.i-1") (fixtureSendDocument [])
              SendCommandPool emptyWorld)
    as (_ & _ & Hcurrent & _).
  - reflexivity.
  - left. split; reflexivity.
  - reflexivity.
  - left. split; [reflexivity | left; reflexivity].
  - reflexivity.
  - exact Hcurrent.
Defined.

Lemma parseSendCommandMessage_without_rewrite_witness :
  parseSendCommandMessage (fixtureCollaborators (fixtureSendDocument []))
    (fixtureMessage "aws.ssm.sendCommand.i-1") "orchestration"
  = ParseOk (fixtureSendDocument []).
Proof.
  apply (parseSendCommandMessage_without_rewrite
           (fixtureCollaborators (fixtureSendDocument []))
           (fixtureMessage "aws.ssm.sendCommand.i-1") "orchestration"
           {| ParsedCommandID := "cmd-1"; ParsedDocumentName := "AWS-RunPowerShellScript";
              ParsedOutputS3KeyPrefix := "prefix"; ParsedDocumentContent := "{}" |}
           "{}").
  - reflexivity.
  - reflexivity.
  - left. reflexivity.
Defined.

Lemma processMessage_reports_unparsable_payload_witness :
  trace (processMessage specConstants
           (parseSendCommandMessage (fixtureCollaborators (fixtureSendDocument [])))
           (parseCancelCommandMessage (fixtureCollaborators (fixtureSendDocument [])))
           (fixtureProcessor ResultStatusSuccess None None)
           (unparsableMessage "aws.ssm.cancelCommand.i-1") emptyWorld).2
  = [LogError "format of received message is invalid invalid character";
     CallFailMessage "aws.ssm.cmd-1.i-1" InternalHandlerException].
Proof.
  rewrite (proj2 (processMessage_reports_unparsable_payload specConstants
                    (fixtureCollaborators (fixtureSendDocument []))
                    (fixtureProcessor ResultStatusSuccess None None)
                    (unparsableMessage "aws.ssm.cancelCommand.i-1")
                    "invalid character" emptyWorld eq_refl)
             eq_refl eq_refl eq_refl).
  reflexivity.
Defined.

(** A send command on an instance where [IsManagedInstance] fails: the
    parser logs the error, the message is accepted all the same. *)
Example managed_instance_error_is_logged :
  trace (processMessage_parsing (fixtureCollaborators (fixtureSendDocument []))
           specConstants (fixtureProcessor ResultStatusSuccess None None)
           (fixtureMessage "aws.ssm.sendCommand.i-1") emptyWorld).2
  = [LogError "Error determining managed instance. error: no registration";
     CallPersist "doc-1" "i-1" DefaultLocationOfPending;
     CallAcknowledgeMessage "aws.ssm.cmd-1.i-1";
     CallSendDocLevelResponse "aws.ssm.cmd-1.i-1" ResultStatusInProgress EmptyString;
     CallMove "doc-1" "i-1" DefaultLocationOfPending DefaultLocationOfCurrent;
     CallSubmit SendCommandPool "aws.ssm.cmd-1.i-1"].
Proof. vm_compute. reflexivity. Qed.

Lemma loadPluginConfigurations_any_order_witness :
  loadPluginConfigurations_range (reverse (map_to_list fixturePlugins))
  = loadPluginConfigurations fixturePlugins "cmd-1".
Proof.
  apply (loadPluginConfigurations_any_order fixturePlugins
           (reverse (map_to_list fixturePlugins)) "cmd-1").
  apply reverse_Permutation.
Defined.

Lemma processSendCommandMessage_state_missing_witness :
  CallDeleteMessage EmptyString
    ∈ newCalls emptyWorld
        (processSendCommandMessage specConstants
           (fixtureProcessor ResultStatusSuccess None None) Running
           (fixtureSendDocument [fixturePlugin "aws:updateSsmAgent" false]) emptyWorld).2.
Proof.
  rewrite (processSendCommandMessage_state_missing specConstants
             (fixtureProcessor ResultStatusSuccess None None) Running
             (fixtureSendDocument [fixturePlugin "aws:updateSsmAgent" false]) emptyWorld).
  - apply elem_of_cons. right. apply elem_of_app. right.
    apply elem_of_app. right. by left.
  - reflexivity.
  - vm_compute. discriminate.
Defined.

Lemma processSendCommandMessage_completes_stored_state_witness :
  InstancePluginsInformation
    <$> completed (store (processSendCommandMessage specConstants
                            (fixtureProcessor ResultStatusSuccess None None) Running
                            (fixtureSendDocument [fixturePlugin "aws:psModule" true])
                            (fixtureWorld (fixtureSendDocument
                                             [fixturePlugin "aws:psModule" true]))).2)
          !! ("i-1", "doc-1")
  = Some [fixturePlugin "aws:psModule" true].
Proof.
  destruct (processSendCommandMessage_completes_stored_state specConstants
              (fixtureProcessor ResultStatusSuccess None None) Running
              (fixtureSendDocument [fixturePlugin "aws:psModule" true])
              (fixtureSendDocument [fixturePlugin "aws:psModule" true])
              (fixtureWorld (fixtureSendDocument [fixturePlugin "aws:psModule" true])))
    as [_ Hdone].
  - reflexivity.
  - reflexivity.
  - reflexivity.
  - destruct Hdone as [_ Hcompleted]; [vm_compute; discriminate|].
    change (completed ?st !! ("i-1", "doc-1")) with
      (completed st !! (InstanceID (DocumentInformation
                          (fixtureSendDocument [fixturePlugin "aws:psModule" true])),
                        DocumentID (DocumentInformation
                          (fixtureSendDocument [fixturePlugin "aws:psModule" true])))).
    rewrite Hcompleted. reflexivity.
Defined.

Lemma processSendCommandMessage_delete_failure_witness :
  last (newCalls (fixtureWorld (fixtureSendDocument []))
          (processSendCommandMessage specConstants
             (fixtureProcessor ResultStatusSuccess None (Some "AccessDenied")) Running
             (fixtureSendDocument []) (fixtureWorld (fixtureSendDocument []))).2)
  = Some (CallHandleAwsError "AccessDenied").
Proof.
  apply (processSendCommandMessage_delete_failure specConstants
           (fixtureProcessor ResultStatusSuccess None (Some "AccessDenied")) Running
           (fixtureSendDocument []) "AccessDenied" (fixtureWorld (fixtureSendDocument []))).
  - vm_compute. discriminate.
  - intros (pluginState & Hin & _). vm_compute in Hin. by apply elem_of_nil in Hin.
  - reflexivity.
Defined.

Lemma cancel_command_from_message_to_completed_witness :
  ∃ final,
    completed (store (runJob specConstants (fixtureProcessor ResultStatusSuccess None None)
                        (CancelCommandJob fixtureCancelDocument) Running
                        (processMessage specConstants failingLoader
                           (fixtureLoader fixtureCancelDocument)
                           (fixtureProcessor ResultStatusSuccess None None)
                           (fixtureMessage "aws.ssm.cancelCommand.i-1") emptyWorld).2).2)
      !! ("i-1", "doc-2") = Some final
    ∧ DocumentStatus (DocumentInformation final) = ResultStatusFailed.
Proof.
  destruct (cancel_command_from_message_to_completed specConstants failingLoader
              (fixtureLoader fixtureCancelDocument)
              (fixtureProcessor ResultStatusSuccess None None)
              (fixtureMessage "aws.ssm.cancelCommand.i-1") fixtureCancelDocument emptyWorld)
    as (_ & _ & _ & (final & Hfinal & Hstatus) & _).
  - reflexivity.
  - reflexivity.
  - reflexivity.
  - reflexivity.
  - left. reflexivity.
  - reflexivity.
  - reflexivity.
  - exists final. split; [exact Hfinal | exact Hstatus].
Defined.

Lemma send_command_from_message_to_completed_witness :
  DocumentStatus
    <$> (DocumentInformation
           <$> completed (store (runJob specConstants
                                   (fixtureProcessor ResultStatusSuccess None None)
                                   (SendCommandJob (fixtureSendDocument [])) Running
                                   (processMessage specConstants
                                      (fixtureLoader (fixtureSendDocument [])) failingLoader
                                      (fixtureProcessor ResultStatusSuccess None None)
                                      (fixtureMessage "aws.ssm.sendCommand.i-1")
                                      emptyWorld).2).2)
                 !! ("i-1", "doc-1"))
  = Some ResultStatusSuccess.
Proof.
  destruct (send_command_from_message_to_completed specConstants
              (fixtureLoader (fixtureSendDocument [])) failingLoader
              (fixtureProcessor ResultStatusSuccess None None)
              (fixtureMessage "aws.ssm.sendCommand.i-1") (fixtureSendDocument [])
              Running emptyWorld)
    as (_ & _ & _ & Hcompleted).
  - reflexivity.
  - reflexivity.
  - reflexivity.
  - reflexivity.
  - left. reflexivity.
  - reflexivity.
  - reflexivity.
  - vm_compute. discriminate.
  - change (completed ?st !! ("i-1", "doc-1")) with
      (completed st !! (InstanceID (DocumentInformation (fixtureSendDocument [])),
                        DocumentID (DocumentInformation (fixtureSendDocument [])))).
    rewrite Hcompleted. reflexivity.
Defined.

Lemma isUpdatePlugin_by_names_only_witness :
  isUpdatePlugin specConstants
    (fixtureSendDocument [fixturePlugin "aws:psModule" false;
                          fixturePlugin "aws:updateSsmAgent" true])
  = isUpdatePlugin specConstants
      (fixtureSendDocument [fixturePlugin "aws:updateSsmAgent" false;
                            fixturePlugin "aws:psModule" true]).
Proof.
  apply (isUpdatePlugin_by_names_only specConstants
           (fixtureSendDocument [fixturePlugin "aws:psModule" false;
                                 fixturePlugin "aws:updateSsmAgent" true])
           (fixtureSendDocument [fixturePlugin "aws:updateSsmAgent" false;
                                 fixturePlugin "aws:psModule" true])).
  apply Permutation_swap.
Defined.

End processor_extra.

(** ** More on the package configuration engine *)

Module configurepackage_extra.
Import configurepackage configurepackage_properties.

Lemma Contains_append_l (s t sub : string) :
  Contains s sub = true → Contains (s +:+ t) sub = true.
Proof.
  intros (pre & post & ->)%Contains_iff. apply Contains_iff.
  exists pre, (post +:+ t).
  clear. induction pre as [|c pre IH].
  - rewrite !append_empty_l. induction sub as [|c sub IH].
    + by rewrite !append_empty_l.
    + rewrite !append_String_l. by rewrite IH.
  - rewrite !append_String_l. by rewrite IH.
Qed.

(** X19. The output accumulators, as [TestMarkAsSucceeded],
    [TestMarkAsFailed] and [TestAppendInfo] use them. [AppendInfo] adds the
    message to [Stdout] and keeps what [Stdout] contained, so that two
    messages appended one after the other are both in it; [MarkAsFailed]
    sets the exit code 1 and the status Failed, adds the error to [Stderr]
    and keeps what [Stderr] contained; [MarkAsSucceeded] sets the exit code
    0 and the status Success, or SuccessAndReboot when a reboot is asked
    for, and leaves [Stdout] and [Stderr] as they are. *)
Theorem accumulators_keep_what_was_written (out : ConfigurePackagePluginOutput)
    (first second earlier : string) (reboot : bool) :
  Contains (Stdout (AppendInfo (AppendInfo out first) second)) first = true
  ∧ Contains (Stdout (AppendInfo (AppendInfo out first) second)) second = true
  ∧ (Contains (Stdout out) earlier = true →
     Contains (Stdout (AppendInfo out first)) earlier = true)
  ∧ ExitCode (MarkAsFailed out first) = 1%Z
  ∧ Status (MarkAsFailed out first) = ResultStatusFailed
  ∧ Contains (Stderr (MarkAsFailed out first)) first = true
  ∧ (Contains (Stderr out) earlier = true →
     Contains (Stderr (MarkAsFailed out first)) earlier = true)
  ∧ ExitCode (MarkAsSucceeded out reboot) = 0%Z
  ∧ Status (MarkAsSucceeded out reboot)
    = (if reboot then ResultStatusSuccessAndReboot else ResultStatusSuccess)
  ∧ Stdout (MarkAsSucceeded out reboot) = Stdout out
  ∧ Stderr (MarkAsSucceeded out reboot) = Stderr out.
Proof.
  unfold MarkAsFailed, MarkAsSucceeded, AppendError, AppendInfo. cbn.
  split_and!; try done.
  - apply Contains_append_l, Contains_append_r, Contains_append_r,
      Contains_here, prefix_refl.
  - apply Contains_append_r, Contains_append_r, Contains_here, prefix_refl.
  - apply Contains_append_l.
  - apply Contains_append_r, Contains_append_r, Contains_here, prefix_refl.
  - apply Contains_append_l.
Qed.

(** X20. [validateInput] on the source and the version, as
    [TestValidateInput_Source], [TestValidateInput_Version] and the two
    tests of the empty version use it. An input with a source is rejected
    with an error that contains [source parameter is not supported],
    whatever its name, version and action. Without source and with a valid
    name, an empty version is accepted for every action, and a version
    that is neither empty nor of the form of three dot-separated numbers
    is rejected with an error that contains [invalid version]. *)
Theorem validateInput_source_and_version (input : ConfigurePackagePluginInput) :
  (Source input ≠ EmptyString →
     ∃ err, validateInput input = (false, Some err)
            ∧ Contains err "source parameter is not supported" = true)
  ∧ (Source input = EmptyString → validName (Name input) = true →
     Version input = EmptyString →
     validateInput input = (true, None))
  ∧ (Source input = EmptyString → validName (Name input) = true →
     Version input ≠ EmptyString → matchesVersionPattern (Version input) = false →
     ∃ err, validateInput input = (false, Some err)
            ∧ Contains err "invalid version" = true).
Proof.
  assert (Hname : validName (Name input) = true →
                  String.eqb (Name input) EmptyString = false).
  { intros Hvalid. apply String.eqb_neq. intros Heq. by rewrite Heq in Hvalid. }
  unfold validateInput. split_and!.
  - intros Hsource%String.eqb_neq. rewrite Hsource. cbn. by eexists.
  - intros -> Hvalid ->. cbn. by rewrite (Hname Hvalid), Hvalid.
  - intros -> Hvalid Hversion%String.eqb_neq Hpattern. cbn.
    rewrite (Hname Hvalid), Hvalid, Hversion, Hpattern. cbn. by eexists.
Qed.

Ltac run_engine :=
  unfold Execute, runConfigurePackage, acquire, lockPackage, underLock,
    runInstall, runUninstall, installAndFinish, unlockPackage.

(** X21. An upgrade that goes through, as [TestRunUpgrade] runs it: for a
    valid install of a version while another one is installed, when the
    uninstall-pre, install and uninstall-post phases all succeed, the
    calls are, in this order, the resolution of the versions, [setMark]
    with the target version, [runUninstallPackagePre] of the installed
    version, [runInstallPackage] of the target version,
    [runUninstallPackagePost] of the installed version and [clearMark];
    the exit code is 0, the status Success, [Stdout] contains
    [Successfully installed], the marker is gone and the package is not
    locked any more. *)
Theorem upgrade_runs_all_phases_in_order (m : configurePackageManager) (st : Engine)
    (input : ConfigurePackagePluginInput) (version installedVersion : string) :
  validateInput input = (true, None) →
  Action input = "Install" →
  locks st !! Name input = None →
  getVersionToInstall m input = inl (version, installedVersion) →
  installedVersion ≠ EmptyString →
  version ≠ installedVersion →
  runUninstallPackagePre m (Name input) installedVersion = (ResultStatusSuccess, None) →
  runInstallPackage m (Name input) version = (ResultStatusSuccess, None) →
  runUninstallPackagePost m (Name input) installedVersion = (ResultStatusSuccess, None) →
  calls (Execute m st input).2
    = calls st ++ [getVersionToInstall_called (Name input);
                   setMark_called (Name input) version;
                   runUninstallPackagePre_called (Name input) installedVersion;
                   runInstallPackage_called (Name input) version;
                   runUninstallPackagePost_called (Name input) installedVersion;
                   clearMark_called (Name input)]
  ∧ ExitCode (Execute m st input).1 = 0%Z
  ∧ Status (Execute m st input).1 = ResultStatusSuccess
  ∧ Contains (Stdout (Execute m st input).1) "Successfully installed" = true
  ∧ markers (Execute m st input).2 !! Name input = None
  ∧ locks (Execute m st input).2 !! Name input = None.
Proof.
  intros Hvalid Haction Hfree Hversions Hinstalled Hupgrade Hpre Hinstall Hpost.
  run_engine.
  rewrite Hvalid, Hfree, Haction. cbn -[String.eqb Contains].
  rewrite Hversions.
  apply String.eqb_neq in Hinstalled, Hupgrade.
  rewrite Hupgrade. cbn -[String.eqb Contains]. rewrite Hinstalled.
  cbn -[String.eqb Contains].
  rewrite Hpre. cbn -[String.eqb Contains]. rewrite Hinstall. cbn -[String.eqb Contains].
  rewrite Hpost. cbn -[Contains].
  split_and!;
    first [ done
          | by rewrite <- !app_assoc
          | apply lookup_delete_eq
          | apply Contains_append_r, Contains_here, prefix_app ].
Qed.

(** X22. [Execute] leaves the package lock as it found it, on every path:
    the lock it takes it releases, also when a phase fails or asks for a
    reboot, and when it is refused the lock it does not release the lock
    of the action in progress ([TestRunParallelSamePackage]: the first
    action still runs to its end after the second was refused). *)
Theorem Execute_leaves_the_lock_as_found (m : configurePackageManager) (st : Engine)
    (input : ConfigurePackagePluginInput) :
  locks (Execute m st input).2 = locks st.
Proof.
  run_engine.
  destruct (validateInput input) as [[] err]; [|done].
  destruct (locks st !! Name input) as [inProgress|] eqn:Hlock; [done|].
  assert (Hrelease : delete (Name input) (<[Name input := Action input]> (locks st))
                     = locks st).
  { rewrite delete_insert_eq. by apply delete_id. }
  cbn -[String.eqb].
  destruct (String.eqb (Action input) "Install").
  - destruct (getVersionToInstall m input) as [[version installedVersion]|e];
      cbn -[String.eqb]; [|done].
    destruct (String.eqb version installedVersion); cbn -[String.eqb]; [done|].
    destruct (String.eqb installedVersion EmptyString); cbn -[String.eqb].
    + destruct (phaseOutcome (runInstallPackage m _ _)); done.
    + destruct (phaseOutcome (runUninstallPackagePre m _ _)); cbn -[String.eqb]; try done.
      destruct (phaseOutcome (runInstallPackage m _ _)); cbn -[String.eqb]; try done.
      destruct (phaseOutcome (runUninstallPackagePost m _ _)); done.
  - destruct (String.eqb (Action input) "Uninstall"); cbn -[String.eqb]; [|done].
    destruct (getVersionToUninstall m input) as [version|e]; cbn -[String.eqb]; [|done].
    destruct (phaseOutcome (runUninstallPackagePre m _ _)); cbn -[String.eqb]; try done.
    destruct (phaseOutcome (runUninstallPackagePost m _ _)); done.
Qed.

(** [TestRunUpgrade]: [PVDriver] at [0.5.6], install of [1.0.0], every
    phase succeeds. *)
Lemma upgrade_runs_all_phases_in_order_witness :
  calls (Execute (ConfigPackageSuccessMock "1.0.0" "0.5.6" ResultStatusSuccess
                    ResultStatusSuccess ResultStatusSuccess)
           emptyEngine createStubPluginInputInstall).2
  = [getVersionToInstall_called "PVDriver";
     setMark_called "PVDriver" "1.0.0";
     runUninstallPackagePre_called "PVDriver" "0.5.6";
     runInstallPackage_called "PVDriver" "1.0.0";
     runUninstallPackagePost_called "PVDriver" "0.5.6";
     clearMark_called "PVDriver"].
Proof.
  apply (upgrade_runs_all_phases_in_order
           (ConfigPackageSuccessMock "1.0.0" "0.5.6" ResultStatusSuccess
              ResultStatusSuccess ResultStatusSuccess)
           emptyEngine createStubPluginInputInstall "1.0.0" "0.5.6");
    first [reflexivity | discriminate].
Defined.

End configurepackage_extra.
